(** * Foodgram backend: recipe composer, shopping-list aggregator, toggles

    A shallow embedding of the parts of [backend/api/serializers.py],
    [backend/api/views.py], [backend/recipes/models.py] and
    [backend/users/models.py] that carry logic, followed by the properties
    proved about them.

    Conventions.
    - Python [int] is [Z]; Python [str] is [string] (the UTF-8 bytes of the
      text, so concatenation and equality are those of the text).
    - A database table is the list of its rows in insertion order; the
      constraints declared in the models' [Meta] are checked by the insert
      and update primitives, which raise [IntegrityError] like the store.
    - Django runs in autocommit mode unless a transaction is opened; the
      sources open none, so every ORM call below commits on its own and an
      exception leaves the state as it is at the point of the raise. *)

From Stdlib Require Import List ZArith String Ascii Bool Lia.
From Stdlib Require Import Permutation Sorted DecimalString.
Import ListNotations.

Local Open Scope string_scope.
Local Open Scope Z_scope.
#[local] Set Warnings "-register-all".

(* ================================================================== *)
(** * Part I: definitions *)
(* ================================================================== *)

(** ** Python values and builtins *)

(** The line terminator ['\n']. *)
Definition nl : string := String (ascii_of_nat 10) EmptyString.

(** [str(n)] / [f'{n}'] for an [int]: decimal digits, ['-'] when negative. *)
Definition str (n : Z) : string := NilZero.string_of_int (Z.to_int n).

(** Exceptions raised by the modelled code.  [ValidationError] carries the
    message given to it in the source. *)
Inductive exn : Type :=
| ValidationError (detail : string)
| ValueError
| TypeError
| AttributeError
| KeyError
| DoesNotExist
| MultipleObjectsReturned
| IntegrityError
| Http404
| PermissionDenied
| NotAuthenticated.

Inductive result (A : Type) : Type :=
| Ok (a : A)
| Raise (e : exn).
Arguments Ok {A} a.
Arguments Raise {A} e.

(** A decoded JSON request body.  Numbers with a fraction are not
    represented. *)
Inductive json : Type :=
| JNull
| JBool (b : bool)
| JInt (z : Z)
| JStr (s : string)
| JList (l : list json)
| JDict (d : list (string * json)).

Definition dict : Type := list (string * json).

(** [d.get(k)]: [None] stands for Python's [None] default. *)
Fixpoint dict_get (d : dict) (k : string) : option json :=
  match d with
  | [] => None
  | (k', v) :: d' => if String.eqb k' k then Some v else dict_get d' k
  end.

(** Truth value of an object, as tested by [not x]. *)
Definition truthy (v : option json) : bool :=
  match v with
  | None => false
  | Some JNull => false
  | Some (JBool b) => b
  | Some (JInt z) => negb (z =? 0)
  | Some (JStr s) => negb (String.eqb s "")
  | Some (JList l) => match l with [] => false | _ => true end
  | Some (JDict d) => match d with [] => false | _ => true end
  end.

(** *** [int(x)] *)

(** [int] applied to a [str], as CPython 3.11 does it: every Unicode white
    space becomes a blank and every Unicode decimal digit its ASCII digit
    (any other character outside ASCII is no part of a number), then the
    text is read as white space, an optional sign, decimal digits with
    single ['_'] between them, white space.  A text of more than 4300
    digits is refused (the interpreter's default limit). *)

Definition byte (c : ascii) : Z := Z.of_nat (nat_of_ascii c).

(** The six low bits of a UTF-8 continuation byte. *)
Definition continuation (c : ascii) : option Z :=
  let n := byte c in
  if (128 <=? n) && (n <=? 191) then Some (n - 128) else None.

(** The code points of a text, read off its UTF-8 bytes.  A byte that
    starts no well-formed sequence is given as [-1], which is no
    character. *)
Fixpoint code_points (bs : list ascii) : list Z :=
  match bs with
  | [] => []
  | b1 :: r1 =>
      let n1 := byte b1 in
      let bad := -1 :: code_points r1 in
      if n1 <? 128 then n1 :: code_points r1
      else
        match r1 with
        | [] => bad
        | b2 :: r2 =>
            match continuation b2 with
            | None => bad
            | Some n2 =>
                if (194 <=? n1) && (n1 <=? 223)
                then ((n1 - 192) * 64 + n2) :: code_points r2
                else
                  match r2 with
                  | [] => bad
                  | b3 :: r3 =>
                      match continuation b3 with
                      | None => bad
                      | Some n3 =>
                          if (224 <=? n1) && (n1 <=? 239)
                          then
                            let cp := (n1 - 224) * 4096 + n2 * 64 + n3 in
                            if 2048 <=? cp then cp :: code_points r3 else bad
                          else
                            match r3 with
                            | [] => bad
                            | b4 :: r4 =>
                                match continuation b4 with
                                | None => bad
                                | Some n4 =>
                                    let cp := (n1 - 240) * 262144 + n2 * 4096
                                              + n3 * 64 + n4 in
                                    if (240 <=? n1) && (n1 <=? 244)
                                       && (65536 <=? cp) && (cp <=? 1114111)
                                    then cp :: code_points r4
                                    else bad
                                end
                            end
                      end
                  end
            end
        end
  end.

(** White space outside ASCII ([str.isspace]). *)
Definition unicode_space (cp : Z) : bool :=
  (cp =? 133) || (cp =? 160) || (cp =? 5760)
  || ((8192 <=? cp) && (cp <=? 8202))
  || (cp =? 8232) || (cp =? 8233) || (cp =? 8239) || (cp =? 8287)
  || (cp =? 12288).

(** The digit zero of every script with decimal digits outside ASCII
    (Unicode 14.0); the digits one to nine follow it. *)
Definition decimal_zeros : list Z :=
  [1632; 1776; 1984; 2406; 2534; 2662; 2790; 2918; 3046; 3174; 3302; 3430;
   3558; 3664; 3792; 3872; 4160; 4240; 6112; 6160; 6470; 6608; 6784; 6800;
   6992; 7088; 7232; 7248; 42528; 43216; 43264; 43472; 43504; 43600; 44016;
   65296; 66720; 68912; 69734; 69872; 69942; 70096; 70384; 70736; 70864;
   71248; 71360; 71472; 71904; 72016; 72784; 73040; 73120; 92768; 92864;
   93008; 120782; 120792; 120802; 120812; 120822; 123200; 123632; 125264;
   130032].

Definition unicode_decimal (cp : Z) : option Z :=
  match find (fun z => (z <=? cp) && (cp <=? z + 9)) decimal_zeros with
  | Some z => Some (cp - z)
  | None => None
  end.

(** The ASCII character a code point is read as. *)
Definition to_ascii (cp : Z) : ascii :=
  if (0 <=? cp) && (cp <? 127) then ascii_of_nat (Z.to_nat cp)
  else if unicode_space cp then " "%char
  else
    match unicode_decimal cp with
    | Some d => ascii_of_nat (Z.to_nat (48 + d))
    | None => "?"%char
    end.

Definition is_space (c : ascii) : bool :=
  let n := nat_of_ascii c in
  ((9 <=? n) && (n <=? 13) || (n =? 32))%nat.

Fixpoint lstrip (cs : list ascii) : list ascii :=
  match cs with
  | c :: cs' => if is_space c then lstrip cs' else cs
  | [] => []
  end.

Definition strip (cs : list ascii) : list ascii :=
  rev (lstrip (rev (lstrip cs))).

Definition digit_val (c : ascii) : option Z :=
  let n := nat_of_ascii c in
  if ((48 <=? n) && (n <=? 57))%nat then Some (Z.of_nat n - 48) else None.

(** Decimal digits, a single ['_'] allowed between two digits. *)
Fixpoint parse_digits (acc : Z) (after_digit : bool) (cs : list ascii)
  : option Z :=
  match cs with
  | [] => if after_digit then Some acc else None
  | c :: cs' =>
      match digit_val c with
      | Some d => parse_digits (10 * acc + d) true cs'
      | None =>
          if Ascii.eqb c "_"%char && after_digit
          then parse_digits acc false cs'
          else None
      end
  end.

(** [sys.get_int_max_str_digits()]. *)
Definition max_str_digits : nat := 4300.

Definition count_digits (cs : list ascii) : nat :=
  List.length (filter (fun c => match digit_val c with Some _ => true | None => false end)
                      cs).

(** The digits after the sign, within the limit. *)
Definition parse_number (cs : list ascii) : option Z :=
  match parse_digits 0 false cs with
  | Some n => if (count_digits cs <=? max_str_digits)%nat then Some n else None
  | None => None
  end.

(** [int(s)] for a [str]; [None] stands for the [ValueError]. *)
Definition int_of_str (s : string) : option Z :=
  match strip (map to_ascii (code_points (list_ascii_of_string s))) with
  | c :: cs =>
      if Ascii.eqb c "-"%char then option_map Z.opp (parse_number cs)
      else if Ascii.eqb c "+"%char then parse_number cs
      else parse_number (c :: cs)
  | [] => None
  end.

Definition py_int (v : json) : result Z :=
  match v with
  | JInt z => Ok z
  | JBool b => Ok (Z.b2z b)
  | JStr s => match int_of_str s with Some z => Ok z | None => Raise ValueError end
  | JNull | JList _ | JDict _ => Raise TypeError
  end.

(** *** Members of a [set()] *)

(** Hashable values up to [==]: [True == 1] and [False == 0]. *)
Inductive hkey : Type :=
| KNone
| KInt (z : Z)
| KStr (s : string).

Definition hkey_eqb (a b : hkey) : bool :=
  match a, b with
  | KNone, KNone => true
  | KInt x, KInt y => x =? y
  | KStr x, KStr y => String.eqb x y
  | _, _ => false
  end.

(** [None] when the value is unhashable (a list or a dict). *)
Definition py_hash (v : json) : option hkey :=
  match v with
  | JNull => Some KNone
  | JBool b => Some (KInt (Z.b2z b))
  | JInt z => Some (KInt z)
  | JStr s => Some (KStr s)
  | JList _ | JDict _ => None
  end.

Definition set_mem (k : hkey) (s : list hkey) : bool := existsb (hkey_eqb k) s.
Definition set_add (k : hkey) (s : list hkey) : list hkey :=
  if set_mem k s then s else k :: s.

(** [for x in v]: what the loop variable ranges over. *)
Definition py_iter (v : json) : result (list json) :=
  match v with
  | JList l => Ok l
  | JDict d => Ok (map (fun kv => JStr (fst kv)) d)
  | JStr s => Ok (map (fun c => JStr (String c EmptyString)) (list_ascii_of_string s))
  | JNull | JBool _ | JInt _ => Raise TypeError
  end.

(** ** [RecipeCreateSerializer.validate]  (api/serializers.py) *)

Definition required_fields : list string :=
  ["tags"; "ingredients"; "name"; "text"; "cooking_time"].

(** The four messages, under the names the specification gives them. *)
Definition MissingField (field : string) : exn :=
  ValidationError ("Не заполнено поле `" ++ field ++ "`").
Definition IncompleteIngredient : exn :=
  ValidationError "Необходимо указать `amount` и `id` для ингредиента.".
Definition InvalidAmount : exn :=
  ValidationError "Количество ингредиента не может быть меньше 1.".
Definition DuplicateIngredient : exn :=
  ValidationError "Необходимо исключить повторяющиеся ингредиенты.".

(** First loop: [for field in (...)]. *)
Fixpoint check_fields (initial_data : dict) (fields : list string)
  : result unit :=
  match fields with
  | [] => Ok tt
  | field :: rest =>
      if negb (truthy (dict_get initial_data field))
      then Raise (MissingField field)
      else check_fields initial_data rest
  end.

(** Body of the second loop for one [ingredient]; returns the updated
    [ingredients_set]. *)
Definition check_ingredient (ingredient : json) (ingredients_set : list hkey)
  : result (list hkey) :=
  match ingredient with
  | JDict d =>
      if negb (truthy (dict_get d "amount")) || negb (truthy (dict_get d "id"))
      then Raise IncompleteIngredient
      else
        match dict_get d "amount" with
        | None => Raise KeyError
        | Some a =>
            match py_int a with
            | Raise e => Raise e
            | Ok n =>
                if negb (n >? 0) then Raise InvalidAmount
                else
                  match dict_get d "id" with
                  | None => Raise KeyError
                  | Some i =>
                      match py_hash i with
                      | None => Raise TypeError
                      | Some k =>
                          if set_mem k ingredients_set
                          then Raise DuplicateIngredient
                          else Ok (set_add k ingredients_set)
                      end
                  end
            end
        end
  | _ => Raise AttributeError (* no method [get] *)
  end.

Fixpoint check_ingredients (ingredients : list json) (ingredients_set : list hkey)
  : result unit :=
  match ingredients with
  | [] => Ok tt
  | ingredient :: rest =>
      match check_ingredient ingredient ingredients_set with
      | Raise e => Raise e
      | Ok ingredients_set' => check_ingredients rest ingredients_set'
      end
  end.

(** [validate(self, data)], reading [self.initial_data]. *)
Definition validate {A : Type} (initial_data : dict) (data : A) : result A :=
  match check_fields initial_data required_fields with
  | Raise e => Raise e
  | Ok _ =>
      match dict_get initial_data "ingredients" with
      | None => Raise KeyError
      | Some ingredients =>
          match py_iter ingredients with
          | Raise e => Raise e
          | Ok items =>
              match check_ingredients items [] with
              | Raise e => Raise e
              | Ok _ => Ok data
              end
          end
      end
  end.

(** ** The store  (recipes/models.py, users/models.py) *)

Record Ingredient : Type := mkIngredient {
  ingredient_id : Z;
  ingredient_name : string;
  measurement_unit : string
}.

(** [pub_date] is set once on insert and read by none of the modelled code;
    it is left out. *)
Record Recipe : Type := mkRecipe {
  recipe_id : Z;
  recipe_author : Z;
  recipe_name : string;
  recipe_text : string;
  recipe_image : string;
  cooking_time : Z
}.

Record RecipeIngredients : Type := mkRecipeIngredients {
  ri_id : Z;
  ri_recipe : Z;
  ri_ingredient : Z;
  ri_amount : Z
}.

(** The join models [Favorite], [ShoppingCart] ([(user, recipe)]) and
    [Subscription] ([(user, author)]) and the automatic [Recipe.tags]
    through table ([(recipe, tag)]) are kept as pairs of keys. *)
Record State : Type := mkState {
  user_table : list Z;
  ingredient_table : list Ingredient;
  recipe_table : list Recipe;
  recipe_tags : list (Z * Z);
  recipeingredients : list RecipeIngredients;
  favorite_table : list (Z * Z);
  shoppingcart_table : list (Z * Z);
  subscription_table : list (Z * Z);
  next_recipe_id : Z;
  next_ri_id : Z
}.

Definition empty_state : State :=
  mkState [] [] [] [] [] [] [] [] 1 1.

Definition pair_eqb (a b : Z * Z) : bool :=
  (fst a =? fst b) && (snd a =? snd b).

Definition mem_pair (p : Z * Z) (t : list (Z * Z)) : bool :=
  existsb (pair_eqb p) t.

Definition memZ (x : Z) (l : list Z) : bool := existsb (Z.eqb x) l.

(** Field-wise updates of the state. *)
Definition set_recipe_table (t : list Recipe) (n : Z) (st : State) : State :=
  mkState (user_table st) (ingredient_table st) t (recipe_tags st)
          (recipeingredients st) (favorite_table st) (shoppingcart_table st)
          (subscription_table st) n (next_ri_id st).
Definition set_recipe_tags (t : list (Z * Z)) (st : State) : State :=
  mkState (user_table st) (ingredient_table st) (recipe_table st) t
          (recipeingredients st) (favorite_table st) (shoppingcart_table st)
          (subscription_table st) (next_recipe_id st) (next_ri_id st).
Definition set_recipeingredients (t : list RecipeIngredients) (n : Z)
  (st : State) : State :=
  mkState (user_table st) (ingredient_table st) (recipe_table st)
          (recipe_tags st) t (favorite_table st) (shoppingcart_table st)
          (subscription_table st) (next_recipe_id st) n.
Definition set_favorite_table (t : list (Z * Z)) (st : State) : State :=
  mkState (user_table st) (ingredient_table st) (recipe_table st)
          (recipe_tags st) (recipeingredients st) t (shoppingcart_table st)
          (subscription_table st) (next_recipe_id st) (next_ri_id st).
Definition set_shoppingcart_table (t : list (Z * Z)) (st : State) : State :=
  mkState (user_table st) (ingredient_table st) (recipe_table st)
          (recipe_tags st) (recipeingredients st) (favorite_table st) t
          (subscription_table st) (next_recipe_id st) (next_ri_id st).
Definition set_subscription_table (t : list (Z * Z)) (st : State) : State :=
  mkState (user_table st) (ingredient_table st) (recipe_table st)
          (recipe_tags st) (recipeingredients st) (favorite_table st)
          (shoppingcart_table st) t (next_recipe_id st) (next_ri_id st).
Definition set_user_table (t : list Z) (st : State) : State :=
  mkState t (ingredient_table st) (recipe_table st)
          (recipe_tags st) (recipeingredients st) (favorite_table st)
          (shoppingcart_table st) (subscription_table st)
          (next_recipe_id st) (next_ri_id st).
Definition set_ingredient_table (t : list Ingredient) (st : State) : State :=
  mkState (user_table st) t (recipe_table st)
          (recipe_tags st) (recipeingredients st) (favorite_table st)
          (shoppingcart_table st) (subscription_table st)
          (next_recipe_id st) (next_ri_id st).

(** *** Code that reads and writes the store *)

(** A computation over the store that may raise.  There is no enclosing
    transaction: when a step raises, the writes made before it stay. *)
Definition M (A : Type) : Type := State -> result A * State.

Definition ret {A : Type} (a : A) : M A := fun st => (Ok a, st).
Definition raise {A : Type} (e : exn) : M A := fun st => (Raise e, st).
Definition bind {A B : Type} (m : M A) (k : A -> M B) : M B :=
  fun st =>
    match m st with
    | (Ok a, st') => k a st'
    | (Raise e, st') => (Raise e, st')
    end.
Definition get_state : M State := fun st => (Ok st, st).

Notation "x <- m ;; k" := (bind m (fun x => k))
  (at level 61, m at next level, right associativity).
Notation "m ;;; k" := (bind m (fun _ => k))
  (at level 61, right associativity).

(** *** ORM primitives *)

(** [Recipe.objects.get(id=pk)] behind [get_object_or_404]. *)
Definition find_recipe (pk : Z) (st : State) : option Recipe :=
  find (fun r => recipe_id r =? pk) (recipe_table st).

Definition get_recipe_or_404 (pk : Z) : M Recipe :=
  fun st =>
    match find_recipe pk st with
    | Some r => (Ok r, st)
    | None => (Raise Http404, st)
    end.

(** [get_object_or_404(User, id=pk)]. *)
Definition get_user_or_404 (pk : Z) : M Z :=
  fun st => if memZ pk (user_table st) then (Ok pk, st) else (Raise Http404, st).

(** [Ingredient.objects.get(id=pk)]. *)
Definition get_ingredient (pk : Z) : M Ingredient :=
  fun st =>
    match find (fun i => ingredient_id i =? pk) (ingredient_table st) with
    | Some i => (Ok i, st)
    | None => (Raise DoesNotExist, st)
    end.

(** The [UniqueConstraint] on [(author, name)] of [Recipe], seen from the row
    with primary key [pk]. *)
Definition recipe_name_taken (pk author : Z) (name : string) (st : State) : bool :=
  existsb (fun r => negb (recipe_id r =? pk) && (recipe_author r =? author)
                    && String.eqb (recipe_name r) name)
          (recipe_table st).

(** [Recipe.objects.create] with keyword arguments: an INSERT with a fresh primary key.
    The store rejects a taken [(author, name)] and, for a
    [PositiveIntegerField], a negative [cooking_time]. *)
Definition recipe_objects_create
  (author : Z) (name text image : string) (ctime : Z) : M Recipe :=
  fun st =>
    let pk := next_recipe_id st in
    if recipe_name_taken pk author name st || (ctime <? 0)
    then (Raise IntegrityError, st)
    else
      let r := mkRecipe pk author name text image ctime in
      (Ok r, set_recipe_table (recipe_table st ++ [r])%list (pk + 1) st).

(** [instance.save()] of a loaded recipe: an UPDATE of the row with the
    instance's primary key, an INSERT when no row has it. *)
Definition recipe_save (r : Recipe) : M unit :=
  fun st =>
    if recipe_name_taken (recipe_id r) (recipe_author r) (recipe_name r) st
       || (cooking_time r <? 0)
    then (Raise IntegrityError, st)
    else
      match find_recipe (recipe_id r) st with
      | Some _ =>
          (Ok tt,
           set_recipe_table
             (map (fun r' => if recipe_id r' =? recipe_id r then r else r')
                  (recipe_table st))
             (next_recipe_id st) st)
      | None =>
          (Ok tt,
           set_recipe_table (recipe_table st ++ [r])%list (next_recipe_id st) st)
      end.

(** Tags in the order given, each once. *)
Fixpoint dedup (l : list Z) : list Z :=
  match l with
  | [] => []
  | x :: l' => if memZ x l' then dedup l' else x :: dedup l'
  end.

(** [recipe.tags.set(tags)]: associations to tags outside [tags] are
    removed, those present are kept, the missing ones are inserted. *)
Definition tags_set (recipe : Z) (tags : list Z) : M unit :=
  fun st =>
    let kept :=
      filter (fun rt => negb (fst rt =? recipe) || memZ (snd rt) tags)
             (recipe_tags st) in
    let missing :=
      filter (fun t => negb (mem_pair (recipe, t) kept)) (dedup tags) in
    (Ok tt, set_recipe_tags (kept ++ map (fun t => (recipe, t)) missing)%list st).

(** [recipe.tags.clear()]. *)
Definition tags_clear (recipe : Z) : M unit :=
  fun st =>
    (Ok tt,
     set_recipe_tags (filter (fun rt => negb (fst rt =? recipe)) (recipe_tags st)) st).

(** [recipe.ingredients.clear()]: deletes the rows of the through model
    [RecipeIngredients] that belong to the recipe. *)
Definition ingredients_clear (recipe : Z) : M unit :=
  fun st =>
    (Ok tt,
     set_recipeingredients
       (filter (fun ri => negb (ri_recipe ri =? recipe)) (recipeingredients st))
       (next_ri_id st) st).

(** A [RecipeIngredients(...)] instance before it is saved. *)
Record UnsavedRecipeIngredient : Type := mkUnsaved {
  un_recipe : Z;
  un_ingredient : Z;
  un_amount : Z
}.

(** Does inserting [x] break the [(recipe, ingredient)] uniqueness or the
    check of the [PositiveIntegerField] [amount], given the rows [t]? *)
Definition ri_conflict (x : UnsavedRecipeIngredient) (t : list (Z * Z)) : bool :=
  mem_pair (un_recipe x, un_ingredient x) t || (un_amount x <? 0).

Fixpoint ri_batch_ok (xs : list UnsavedRecipeIngredient) (t : list (Z * Z)) : bool :=
  match xs with
  | [] => true
  | x :: xs' =>
      negb (ri_conflict x t)
      && ri_batch_ok xs' ((un_recipe x, un_ingredient x) :: t)
  end.

Fixpoint assign_ids (n : Z) (xs : list UnsavedRecipeIngredient)
  : list RecipeIngredients :=
  match xs with
  | [] => []
  | x :: xs' =>
      mkRecipeIngredients n (un_recipe x) (un_ingredient x) (un_amount x)
      :: assign_ids (n + 1) xs'
  end.

(** [RecipeIngredients.objects.bulk_create(rows)]: one INSERT of all the
    rows; a row that breaks a constraint makes the statement fail as a
    whole. *)
Definition bulk_create (xs : list UnsavedRecipeIngredient) : M unit :=
  fun st =>
    let existing :=
      map (fun ri => (ri_recipe ri, ri_ingredient ri)) (recipeingredients st) in
    if ri_batch_ok xs existing
    then
      (Ok tt,
       set_recipeingredients
         (recipeingredients st ++ assign_ids (next_ri_id st) xs)%list
         (next_ri_id st + Z.of_nat (List.length xs)) st)
    else (Raise IntegrityError, st).

(** ** [RecipeCreateSerializer.create] / [update]  (api/serializers.py) *)

(** [validated_data] after the fields ran: tags are [Tag] instances (their
    keys), each ingredient entry holds an integer [id] and [amount];
    [image] may be missing on a partial update. *)
Record ValidatedData : Type := mkValidated {
  vd_tags : list Z;
  vd_recipeingredients : list (Z * Z);
  vd_image : option string;
  vd_name : string;
  vd_text : string;
  vd_cooking_time : Z
}.

(** The loop of [create_recipe_ingredient]: resolves each [id], collecting
    unsaved rows. *)
Fixpoint resolve_ingredients (recipe : Z) (ingredients : list (Z * Z))
  : M (list UnsavedRecipeIngredient) :=
  match ingredients with
  | [] => ret []
  | ing :: rest =>
      ingredient <- get_ingredient (fst ing) ;;
      recipe_ingredients <- resolve_ingredients recipe rest ;;
      ret (mkUnsaved recipe (ingredient_id ingredient) (snd ing)
             :: recipe_ingredients)
  end.

Definition create_recipe_ingredient (recipe : Z) (ingredients : list (Z * Z))
  : M unit :=
  recipe_ingredients <- resolve_ingredients recipe ingredients ;;
  bulk_create recipe_ingredients.

Definition image_or_blank (i : option string) : string :=
  match i with Some s => s | None => "" end.

Definition create (author : Z) (validated_data : ValidatedData) : M Recipe :=
  let tags := vd_tags validated_data in
  let ingredients := vd_recipeingredients validated_data in
  recipe <- recipe_objects_create author (vd_name validated_data)
              (vd_text validated_data)
              (image_or_blank (vd_image validated_data))
              (vd_cooking_time validated_data) ;;
  tags_set (recipe_id recipe) tags ;;;
  create_recipe_ingredient (recipe_id recipe) ingredients ;;;
  ret recipe.

(** [ModelSerializer.update]: assigns the remaining validated fields and
    saves the instance. *)
Definition super_update (instance : Recipe) (validated_data : ValidatedData)
  : M Recipe :=
  let instance' :=
    mkRecipe (recipe_id instance) (recipe_author instance)
             (vd_name validated_data) (vd_text validated_data)
             (match vd_image validated_data with
              | Some i => i
              | None => recipe_image instance
              end)
             (vd_cooking_time validated_data) in
  recipe_save instance' ;;;
  ret instance'.

Definition update (instance : Recipe) (validated_data : ValidatedData)
  : M Recipe :=
  let tags := vd_tags validated_data in
  let ingredients := vd_recipeingredients validated_data in
  ingredients_clear (recipe_id instance) ;;;
  tags_clear (recipe_id instance) ;;;
  instance' <- super_update instance validated_data ;;
  tags_set (recipe_id instance') tags ;;;
  create_recipe_ingredient (recipe_id instance') ingredients ;;;
  ret instance'.

(** What [RecipeSerializer] shows of a recipe: its [recipeingredients] as
    [(ingredient id, amount)], newest row first ([ordering = \["-id"\]]), and
    its tags. *)
Definition read_ingredients (recipe : Z) (st : State) : list (Z * Z) :=
  rev (map (fun ri => (ri_ingredient ri, ri_amount ri))
           (filter (fun ri => ri_recipe ri =? recipe) (recipeingredients st))).

Definition read_tags (recipe : Z) (st : State) : list Z :=
  map snd (filter (fun rt => fst rt =? recipe) (recipe_tags st)).

(** ** Views  (api/views.py) *)

Inductive http_method : Type := POST | DELETE.

(** Response bodies.  A serialized object is kept as the fields
    [RecipeListSerializer] shows, or as the key of the author for
    [SubscriptionSerializer]. *)
Inductive body : Type :=
| Message (s : string)
| Errors (s : string)
| RecipeListData (id : Z) (name image : string) (ctime : Z)
| SubscriptionData (author : Z)
| NoBody.

Record Response : Type := mkResponse {
  resp_data : body;
  resp_status : Z
}.

Definition HTTP_201_CREATED : Z := 201.
Definition HTTP_204_NO_CONTENT : Z := 204.
Definition HTTP_400_BAD_REQUEST : Z := 400.

(** *** Favorite and shopping cart *)

(** The [model] argument of [create_recipe_user] / [delete_recipe_user]. *)
Inductive join_model : Type := Favorite | ShoppingCart.

Definition join_table (model : join_model) (st : State) : list (Z * Z) :=
  match model with
  | Favorite => favorite_table st
  | ShoppingCart => shoppingcart_table st
  end.

Definition set_join_table (model : join_model) (t : list (Z * Z)) (st : State)
  : State :=
  match model with
  | Favorite => set_favorite_table t st
  | ShoppingCart => set_shoppingcart_table t st
  end.

Definition count_pair (p : Z * Z) (t : list (Z * Z)) : nat :=
  List.length (filter (pair_eqb p) t).

(** [model.objects.get_or_create(recipe=recipe, user=user)]; the result is
    the [created] flag. *)
Definition get_or_create (model : join_model) (recipe user : Z) : M bool :=
  fun st =>
    match count_pair (user, recipe) (join_table model st) with
    | O =>
        (Ok true,
         set_join_table model (join_table model st ++ [(user, recipe)])%list st)
    | S O => (Ok false, st)
    | _ => (Raise MultipleObjectsReturned, st)
    end.

(** [get_object_or_404(model, recipe=recipe, user=user)]. *)
Definition get_join_or_404 (model : join_model) (recipe user : Z) : M (Z * Z) :=
  fun st =>
    match count_pair (user, recipe) (join_table model st) with
    | O => (Raise Http404, st)
    | S O => (Ok (user, recipe), st)
    | _ => (Raise MultipleObjectsReturned, st)
    end.

(** [obj.delete()] of a join row. *)
Definition join_delete (model : join_model) (row : Z * Z) : M unit :=
  fun st =>
    (Ok tt,
     set_join_table model
       (filter (fun p => negb (pair_eqb row p)) (join_table model st)) st).

(** [pk] is the key from the URL, written in decimal without padding. *)
Definition create_recipe_user (request_user pk : Z) (model : join_model)
  : M (body * Z) :=
  recipe <- get_recipe_or_404 pk ;;
  created <- get_or_create model (recipe_id recipe) request_user ;;
  if negb created
  then ret (Message ("Уже есть рецепт с id = " ++ str pk ++ "."),
            HTTP_400_BAD_REQUEST)
  else ret (RecipeListData (recipe_id recipe) (recipe_name recipe)
              (recipe_image recipe) (cooking_time recipe),
            HTTP_201_CREATED).

Definition delete_recipe_user (request_user pk : Z) (model : join_model)
  : M (body * Z) :=
  recipe <- get_recipe_or_404 pk ;;
  favorite_recipe <- get_join_or_404 model (recipe_id recipe) request_user ;;
  join_delete model favorite_recipe ;;;
  ret (Message ("Рецепт с id = " ++ str pk ++ " удален."), HTTP_204_NO_CONTENT).

(** [RecipeViewSet.favorite] and [RecipeViewSet.shopping_cart]; they differ
    in the model only. *)
Definition recipe_user_action (model : join_model) (method : http_method)
  (request_user pk : Z) : M Response :=
  match method with
  | POST =>
      r <- create_recipe_user request_user pk model ;;
      ret (mkResponse (fst r) (snd r))
  | DELETE =>
      r <- delete_recipe_user request_user pk model ;;
      ret (mkResponse (fst r) (snd r))
  end.

Definition favorite : http_method -> Z -> Z -> M Response :=
  recipe_user_action Favorite.
Definition shopping_cart : http_method -> Z -> Z -> M Response :=
  recipe_user_action ShoppingCart.

(** *** Subscriptions *)

(** [Subscription.objects.create(user=..., author=...)]: the store checks
    the [UniqueConstraint] on [(user, author)] and the [CheckConstraint]
    [~Q(user=F('author'))]. *)
Definition subscription_create (user author : Z) : M unit :=
  fun st =>
    if mem_pair (user, author) (subscription_table st) || (user =? author)
    then (Raise IntegrityError, st)
    else
      (Ok tt,
       set_subscription_table (subscription_table st ++ [(user, author)])%list st).

(** [subscription.delete()] on the queryset: every matching row goes. *)
Definition subscription_delete (user author : Z) : M unit :=
  fun st =>
    (Ok tt,
     set_subscription_table
       (filter (fun p => negb (pair_eqb (user, author) p)) (subscription_table st))
       st).

Definition subscribe (method : http_method) (request_user pk : Z) : M Response :=
  author <- get_user_or_404 pk ;;
  st <- get_state ;;
  let subscription := mem_pair (request_user, author) (subscription_table st) in
  match method with
  | DELETE =>
      if negb subscription
      then ret (mkResponse (Errors "Подписка уже удалена.") HTTP_400_BAD_REQUEST)
      else
        subscription_delete request_user author ;;;
        ret (mkResponse NoBody HTTP_204_NO_CONTENT)
  | POST =>
      if subscription
      then ret (mkResponse (Errors "Вы уже подписаны на этого автора.")
                  HTTP_400_BAD_REQUEST)
      else if author =? request_user
      then ret (mkResponse (Errors "Вы не можете подписаться на самого себя.")
                  HTTP_400_BAD_REQUEST)
      else
        subscription_create request_user author ;;;
        ret (mkResponse (SubscriptionData author) HTTP_201_CREATED)
  end.

(** The outcomes of the toggles, under the names the specification gives
    them. *)
Definition AlreadyExists_recipe (pk : Z) : result Response :=
  Ok (mkResponse (Message ("Уже есть рецепт с id = " ++ str pk ++ "."))
        HTTP_400_BAD_REQUEST).
Definition NotFound_recipe : result Response := Raise Http404.
Definition AlreadyExists_subscription : result Response :=
  Ok (mkResponse (Errors "Вы уже подписаны на этого автора.") HTTP_400_BAD_REQUEST).
Definition NotFound_subscription : result Response :=
  Ok (mkResponse (Errors "Подписка уже удалена.") HTTP_400_BAD_REQUEST).
Definition SelfSubscription : result Response :=
  Ok (mkResponse (Errors "Вы не можете подписаться на самого себя.")
        HTTP_400_BAD_REQUEST).

(** *** Shopping list *)

(** One element of the [.values(...)] queryset. *)
Record Row : Type := mkRow {
  ingredient__name : string;
  ingredient__measurement_unit : string;
  amount : Z
}.

(** [RecipeIngredients.objects.filter(recipe__shopping_cart__user=user)
    .values('ingredient__name', 'ingredient__measurement_unit', 'amount')]:
    the inner join of the through rows with the cart rows on the recipe and
    with the catalog on the ingredient, one result per matching pair. *)
Definition cart_rows (user : Z) (st : State) : list Row :=
  flat_map
    (fun ri =>
       flat_map
         (fun c =>
            if (fst c =? user) && (snd c =? ri_recipe ri)
            then
              match find (fun i => ingredient_id i =? ri_ingredient ri)
                         (ingredient_table st) with
              | Some i =>
                  [mkRow (ingredient_name i) (measurement_unit i) (ri_amount ri)]
              | None => []
              end
            else [])
         (shoppingcart_table st))
    (recipeingredients st).

(** [defaultdict(int)] with [d\[key\] += amount]: a dict keeps its keys in
    the order of their first insertion. *)
Fixpoint dict_iadd (key : string) (a : Z) (d : list (string * Z))
  : list (string * Z) :=
  match d with
  | [] => [(key, 0 + a)]
  | (k, v) :: d' =>
      if String.eqb k key then (k, v + a) :: d'
      else (k, v) :: dict_iadd key a d'
  end.

Definition row_key (r : Row) : string :=
  ingredient__name r ++ " (" ++ ingredient__measurement_unit r ++ ")".

(** First loop of [create_ingredient_list]. *)
Definition ingredient_data (queryset : list Row) : list (string * Z) :=
  fold_left (fun d r => dict_iadd (row_key r) (amount r) d) queryset [].

Definition header_line : string := "Список продуктов: ".

(** [f'{ingredient} - {amount} \n']. *)
Definition item_line (kv : string * Z) : string :=
  fst kv ++ " - " ++ str (snd kv) ++ " " ++ nl.

Definition create_ingredient_list (queryset : list Row) : list string :=
  fold_left
    (fun ingredient_list kv => app ingredient_list [item_line kv])
    (ingredient_data queryset)
    [header_line ++ nl].

Record HttpResponse : Type := mkHttpResponse {
  content : string;
  content_type : string;
  content_disposition : string
}.

Section Collation.

(** The order the store sorts [ingredient__name] by. *)
Variable name_leb : string -> string -> bool.

Fixpoint insert_by_name (r : Row) (l : list Row) : list Row :=
  match l with
  | [] => [r]
  | x :: l' =>
      if name_leb (ingredient__name r) (ingredient__name x)
      then r :: l
      else x :: insert_by_name r l'
  end.

(** [.order_by('ingredient__name')]: rows with equal names keep the order
    the join produced them in. *)
Definition order_by_name (l : list Row) : list Row :=
  fold_right insert_by_name [] l.

Definition shopping_queryset (user : Z) (st : State) : list Row :=
  order_by_name (cart_rows user st).

Definition download_shopping_cart (request_user : Z) : M HttpResponse :=
  st <- get_state ;;
  let ingredients := shopping_queryset request_user st in
  let shopping_list := create_ingredient_list ingredients in
  ret (mkHttpResponse (String.concat "" shopping_list) "text/plain"
         "attachment; filename=Список_покупок.txt").

End Collation.

(** ** The service as a transition system *)

(** The requests that change the store.  Registration and the ingredient
    catalog are maintained outside the modelled code; they insert a row
    under a key that is not in use.  The last request is the admin site
    ([users/admin.py]) adding a subscription straight to the store. *)
Inductive request : Type :=
| ReqRegister (user : Z)
| ReqCatalog (ingredient : Ingredient)
| ReqCreateRecipe (user : Z) (validated_data : ValidatedData)
| ReqUpdateRecipe (user pk : Z) (validated_data : ValidatedData)
| ReqDestroyRecipe (user pk : Z)
| ReqFavorite (method : http_method) (user pk : Z)
| ReqShoppingCart (method : http_method) (user pk : Z)
| ReqSubscribe (method : http_method) (user pk : Z)
| ReqAdminSubscription (user author : Z).

(** [IsAuthorOrReadOnly.has_object_permission] for an unsafe method. *)
Definition is_author (r : Recipe) (user : Z) : bool := recipe_author r =? user.

(** [ModelViewSet.destroy]: the recipe goes, and with it ([on_delete=CASCADE])
    its through rows, favorites and cart rows. *)
Definition recipe_delete (pk : Z) : M unit :=
  fun st =>
    (Ok tt,
     mkState (user_table st) (ingredient_table st)
       (filter (fun r => negb (recipe_id r =? pk)) (recipe_table st))
       (filter (fun rt => negb (fst rt =? pk)) (recipe_tags st))
       (filter (fun ri => negb (ri_recipe ri =? pk)) (recipeingredients st))
       (filter (fun p => negb (snd p =? pk)) (favorite_table st))
       (filter (fun p => negb (snd p =? pk)) (shoppingcart_table st))
       (subscription_table st) (next_recipe_id st) (next_ri_id st)).

Definition void {A : Type} (m : M A) : M unit := m ;;; ret tt.

Definition serve (req : request) : M unit :=
  match req with
  | ReqRegister user =>
      fun st =>
        if memZ user (user_table st) then (Raise IntegrityError, st)
        else (Ok tt, set_user_table (user_table st ++ [user])%list st)
  | ReqCatalog i =>
      fun st =>
        if existsb (fun i' => ingredient_id i' =? ingredient_id i)
                   (ingredient_table st)
        then (Raise IntegrityError, st)
        else (Ok tt, set_ingredient_table (ingredient_table st ++ [i])%list st)
  | ReqCreateRecipe user vd =>
      fun st =>
        if memZ user (user_table st) then void (create user vd) st
        else (Raise NotAuthenticated, st)
  | ReqUpdateRecipe user pk vd =>
      instance <- get_recipe_or_404 pk ;;
      if is_author instance user then void (update instance vd)
      else raise PermissionDenied
  | ReqDestroyRecipe user pk =>
      instance <- get_recipe_or_404 pk ;;
      if is_author instance user then recipe_delete pk
      else raise PermissionDenied
  | ReqFavorite method user pk =>
      fun st =>
        if memZ user (user_table st) then void (favorite method user pk) st
        else (Raise NotAuthenticated, st)
  | ReqShoppingCart method user pk =>
      fun st =>
        if memZ user (user_table st) then void (shopping_cart method user pk) st
        else (Raise NotAuthenticated, st)
  | ReqSubscribe method user pk =>
      fun st =>
        if memZ user (user_table st) then void (subscribe method user pk) st
        else (Raise NotAuthenticated, st)
  | ReqAdminSubscription user author =>
      fun st =>
        if memZ user (user_table st) && memZ author (user_table st)
        then subscription_create user author st
        else (Raise IntegrityError, st)
  end.

(** The state a request leaves behind, whether it succeeded or raised. *)
Definition after (req : request) (st : State) : State := snd (serve req st).

Inductive reachable : State -> Prop :=
| reach_empty : reachable empty_state
| reach_after : forall st req, reachable st -> reachable (after req st).

(** What the constraints of the models guarantee of a state. *)
Record wf (st : State) : Prop := mkWf {
  wf_recipe_ids : Forall (fun r => recipe_id r < next_recipe_id st) (recipe_table st);
  wf_tags_fk : Forall (fun rt => fst rt < next_recipe_id st) (recipe_tags st);
  wf_ri_fk : Forall (fun ri => ri_recipe ri < next_recipe_id st) (recipeingredients st);
  wf_ri_ids : Forall (fun ri => ri_id ri < next_ri_id st) (recipeingredients st);
  wf_favorite : NoDup (favorite_table st);
  wf_shoppingcart : NoDup (shoppingcart_table st);
  wf_subscription : NoDup (subscription_table st);
  wf_no_self : forall u, ~ In (u, u) (subscription_table st)
}.

(** ** Vocabulary of the statements *)

(** An ingredient entry of a request body, from its optional members. *)
Definition entry (id amount : option json) : dict :=
  (match id with Some v => [("id", v)] | None => [] end
   ++ match amount with Some v => [("amount", v)] | None => [] end)%list.

(** A request body with the five required members filled in around the
    given [ingredients]. *)
Definition body_with (ingredients : json) : dict :=
  [("tags", JList [JInt 1]); ("ingredients", ingredients);
   ("name", JStr "Soup"); ("text", JStr "Boil."); ("cooking_time", JInt 10)].


(** The entry gives an [id] and an [amount], the amount reads as the
    integer [n] and the id hashes to [k]: it passes the first two checks of
    the loop when [n > 0]. *)
Definition entry_reads (d : dict) (n : Z) (k : hkey) : Prop :=
  exists a i,
    dict_get d "amount" = Some a /\ truthy (Some a) = true /\ py_int a = Ok n /\
    dict_get d "id" = Some i /\ truthy (Some i) = true /\ py_hash i = Some k.

(** [clean_from s ds s']: starting with the ids [s] already seen, every
    entry of [ds] passes the three checks, and [s'] are the ids seen at the
    end. *)
Inductive clean_from : list hkey -> list dict -> list hkey -> Prop :=
| clean_nil : forall s, clean_from s [] s
| clean_cons : forall s d ds s' n k,
    entry_reads d n k -> n > 0 -> ~ In k s ->
    clean_from (k :: s) ds s' ->
    clean_from s (d :: ds) s'.


(** *** Vocabulary of the shopping list *)

Definition sumZ (l : list Z) : Z := fold_right Z.add 0 l.

Definition mem_str (k : string) (l : list string) : bool :=
  existsb (String.eqb k) l.

(** The sum of the amounts of the rows filed under [key]. *)
Definition total_for (key : string) (rows : list Row) : Z :=
  sumZ (map amount (filter (fun r => String.eqb (row_key r) key) rows)).

(** The rows that open a group: those whose key is not in [seen] and was
    not met earlier in the list. *)
Fixpoint first_from (seen : list string) (rows : list Row) : list Row :=
  match rows with
  | [] => []
  | r :: rows' =>
      if mem_str (row_key r) seen then first_from seen rows'
      else r :: first_from (row_key r :: seen) rows'
  end.

Definition first_rows (rows : list Row) : list Row := first_from [] rows.

(** [d.get(key, 0)] on the aggregated data. *)
Fixpoint getd (key : string) (d : list (string * Z)) : Z :=
  match d with
  | [] => 0
  | (k, v) :: d' => if String.eqb k key then v else getd key d'
  end.

(** The queryset element a through row gives rise to, when its ingredient
    is in the catalog. *)
Definition ri_row (st : State) (ri : RecipeIngredients) : option Row :=
  match find (fun i => ingredient_id i =? ri_ingredient ri) (ingredient_table st) with
  | Some i => Some (mkRow (ingredient_name i) (measurement_unit i) (ri_amount ri))
  | None => None
  end.

Definition row_list (st : State) (ri : RecipeIngredients) : list Row :=
  match ri_row st ri with Some r => [r] | None => [] end.

Definition ri_key_is (st : State) (key : string) (ri : RecipeIngredients) : bool :=
  match ri_row st ri with
  | Some r => String.eqb (row_key r) key
  | None => false
  end.

(** The through rows of the recipes in the user's cart. *)
Definition cart_ingredients (user : Z) (st : State) : list RecipeIngredients :=
  filter (fun ri => mem_pair (user, ri_recipe ri) (shoppingcart_table st))
         (recipeingredients st).

(** The sum of the amounts of the cart's through rows rendered as [key]. *)
Definition cart_total (user : Z) (st : State) (key : string) : Z :=
  sumZ (map ri_amount (filter (ri_key_is st key) (cart_ingredients user st))).

(** Grouping as the specification words it: the sum of the amounts of the
    cart's through rows whose ingredient has this very name and unit. *)
Definition ri_pair_is (st : State) (name unit : string) (ri : RecipeIngredients)
  : bool :=
  match ri_row st ri with
  | Some r => String.eqb (ingredient__name r) name
              && String.eqb (ingredient__measurement_unit r) unit
  | None => false
  end.

Definition pair_total (user : Z) (st : State) (name unit : string) : Z :=
  sumZ (map ri_amount (filter (ri_pair_is st name unit) (cart_ingredients user st))).

(** The order of the rows by name under a collation. *)
Definition name_le (leb : string -> string -> bool) (a b : Row) : Prop :=
  leb (ingredient__name a) (ingredient__name b) = true.

(** *** Sample states *)

Definition soup_fields (ingredients : list (Z * Z)) : ValidatedData :=
  mkValidated [1] ingredients (Some "soup.png") "Soup" "Boil." 10.

(** User 1 has two recipes in the cart, both with salt, 5 and 10 grams. *)
Definition salt_state : State :=
  mkState [1] [mkIngredient 1 "Salt" "g"]
    [mkRecipe 1 1 "Soup" "Boil." "soup.png" 10;
     mkRecipe 2 1 "Stew" "Simmer." "stew.png" 90]
    [] [mkRecipeIngredients 1 1 1 5; mkRecipeIngredients 2 2 1 10]
    [] [(1, 1); (1, 2)] [] 3 3.

(** Two catalog entries that differ in name and unit and render alike. *)
Definition clash_state : State :=
  mkState [1]
    [mkIngredient 1 "Salt" "g) (kg"; mkIngredient 2 "Salt (g)" "kg"]
    [mkRecipe 1 1 "Soup" "Boil." "soup.png" 10]
    [] [mkRecipeIngredients 1 1 1 5; mkRecipeIngredients 2 1 2 10]
    [] [(1, 1)] [] 2 3.

(** The salt state with a second user who has a cart, a favorite and a
    subscription of their own. *)
Definition salt_state_busy : State :=
  mkState [1; 2] [mkIngredient 1 "Salt" "g"]
    [mkRecipe 1 1 "Soup" "Boil." "soup.png" 10;
     mkRecipe 2 1 "Stew" "Simmer." "stew.png" 90]
    [] [mkRecipeIngredients 1 1 1 5; mkRecipeIngredients 2 2 1 10]
    [(2, 1)] [(2, 1); (1, 1); (1, 2); (2, 2)] [(2, 1)] 3 3.

(** *** Reasoning about computations over the store *)

(** From a state in [P], [m] returns a value and a state in [Q], or raises
    in a state in [E]. *)
Definition hoare {A : Type} (P : State -> Prop) (m : M A)
  (Q : A -> State -> Prop) (E : State -> Prop) : Prop :=
  forall st, P st ->
    match m st with
    | (Ok a, st') => Q a st'
    | (Raise _, st') => E st'
    end.

(** The state is well formed and [recipe] is a key the store has given
    out. *)
Definition wf_with (recipe : Z) (st : State) : Prop :=
  wf st /\ recipe < next_recipe_id st.

(** *** Vocabulary of the composer *)

(** The catalog has an ingredient under this key. *)
Definition catalog_has (st : State) (pk : Z) : bool :=
  existsb (fun i => ingredient_id i =? pk) (ingredient_table st).

(** The rows a submission asks for, before they are saved. *)
Definition unsaved_rows (recipe : Z) (ingredients : list (Z * Z))
  : list UnsavedRecipeIngredient :=
  map (fun ing => mkUnsaved recipe (fst ing) (snd ing)) ingredients.

Definition existing_pairs (st : State) : list (Z * Z) :=
  map (fun ri => (ri_recipe ri, ri_ingredient ri)) (recipeingredients st).

(** The recipe row [create] inserts. *)
Definition new_recipe (author : Z) (vd : ValidatedData) (st : State) : Recipe :=
  mkRecipe (next_recipe_id st) author (vd_name vd) (vd_text vd)
           (image_or_blank (vd_image vd)) (vd_cooking_time vd).

(** The recipe row [update] saves. *)
Definition updated_recipe (instance : Recipe) (vd : ValidatedData) : Recipe :=
  mkRecipe (recipe_id instance) (recipe_author instance)
           (vd_name vd) (vd_text vd)
           (match vd_image vd with
            | Some i => i
            | None => recipe_image instance
            end)
           (vd_cooking_time vd).


(** The state once [create] has inserted the recipe row and set its tags. *)
Definition with_recipe_and_tags (author : Z) (vd : ValidatedData) (st : State)
  : State :=
  mkState (user_table st) (ingredient_table st)
    (recipe_table st ++ [new_recipe author vd st])
    (recipe_tags st
     ++ map (fun t => (next_recipe_id st, t)) (dedup (vd_tags vd)))
    (recipeingredients st) (favorite_table st) (shoppingcart_table st)
    (subscription_table st) (next_recipe_id st + 1) (next_ri_id st).

(** The state once the rows of a submission are inserted for [recipe]. *)
Definition with_ingredients (recipe : Z) (ingredients : list (Z * Z))
  (st : State) : State :=
  set_recipeingredients
    (recipeingredients st
     ++ assign_ids (next_ri_id st) (unsaved_rows recipe ingredients))
    (next_ri_id st + Z.of_nat (List.length ingredients)) st.

(** The state once [update] has cleared the ingredients and tags of
    [recipe]. *)
Definition without_associations (recipe : Z) (st : State) : State :=
  mkState (user_table st) (ingredient_table st) (recipe_table st)
    (filter (fun rt => negb (fst rt =? recipe)) (recipe_tags st))
    (filter (fun ri => negb (ri_recipe ri =? recipe)) (recipeingredients st))
    (favorite_table st) (shoppingcart_table st) (subscription_table st)
    (next_recipe_id st) (next_ri_id st).

(** The state once [update] has also saved the recipe row and set the new
    tags. *)
Definition with_saved_recipe (instance : Recipe) (vd : ValidatedData)
  (st : State) : State :=
  mkState (user_table st) (ingredient_table st)
    (map (fun r' => if recipe_id r' =? recipe_id instance
                    then updated_recipe instance vd else r')
         (recipe_table st))
    (filter (fun rt => negb (fst rt =? recipe_id instance)) (recipe_tags st)
     ++ map (fun t => (recipe_id instance, t)) (dedup (vd_tags vd)))
    (filter (fun ri => negb (ri_recipe ri =? recipe_id instance))
            (recipeingredients st))
    (favorite_table st) (shoppingcart_table st) (subscription_table st)
    (next_recipe_id st) (next_ri_id st).

(** A registered user, an empty catalog. *)
Definition bare_state : State := mkState [1] [] [] [] [] [] [] [] 1 1.

(** A registered user and two ingredients, A = 1 and B = 2. *)
Definition pantry_state : State :=
  mkState [1] [mkIngredient 1 "A" "g"; mkIngredient 2 "B" "g"]
          [] [] [] [] [] [] 1 1.

(** Two registered users, the pantry, and a soup of user 1. *)
Definition kitchen_state : State :=
  after (ReqCreateRecipe 1 (soup_fields [(1, 2)]))
        (after (ReqRegister 2) pantry_state).

(** ** Further parts of the service *)

(** *** [CustomUserCreateSerializer.validate_username]  (api/serializers.py) *)

(** [str.lower()] on one character.  Only the letters A to Z change; no
    character outside ASCII lowers to an ASCII letter other than i and k,
    so the comparison with ['me'] below cannot tell this from the full
    Unicode mapping. *)
Definition ascii_lower (c : ascii) : ascii :=
  let n := nat_of_ascii c in
  if ((65 <=? n) && (n <=? 90))%nat then ascii_of_nat (n + 32) else c.

Fixpoint lower (s : string) : string :=
  match s with
  | EmptyString => EmptyString
  | String c s' => String (ascii_lower c) (lower s')
  end.

(** The double quote character. *)
Definition dquote : string := String (ascii_of_nat 34) EmptyString.

(** The message of [validate_username], which quotes the name. *)
Definition me_not_allowed : exn :=
  ValidationError
    ("Имя пользователя " ++ dquote ++ "me" ++ dquote ++ " недопустимо.").

Definition validate_username (value : string) : result string :=
  if String.eqb (lower value) "me" then Raise me_not_allowed else Ok value.

(** *** Flags of a recipe and of a user  (recipes/models.py,
    api/serializers.py) *)

(** [request.user]: a registered user or [AnonymousUser]. *)
Inductive request_user : Type :=
| AnonymousUser
| AuthUser (pk : Z).

(** [Recipe.is_favorited(self, user)]:
    [self.favorites.filter(user=user).exists()]. *)
Definition is_favorited (recipe user : Z) (st : State) : bool :=
  existsb (fun p => (snd p =? recipe) && (fst p =? user)) (favorite_table st).

(** [Recipe.is_in_shopping_cart(self, user)]. *)
Definition is_in_shopping_cart (recipe user : Z) (st : State) : bool :=
  existsb (fun p => (snd p =? recipe) && (fst p =? user)) (shoppingcart_table st).

(** [RecipeSerializer.get_is_favorited(self, obj)]; [request] is
    [self.context.get('request')]. *)
Definition get_is_favorited (request : option request_user) (obj : Z)
  (st : State) : bool :=
  match request with
  | None => false
  | Some AnonymousUser => false
  | Some (AuthUser user) => is_favorited obj user st
  end.

(** [RecipeSerializer.get_is_in_shopping_cart(self, obj)]. *)
Definition get_is_in_shopping_cart (request : option request_user) (obj : Z)
  (st : State) : bool :=
  match request with
  | None => false
  | Some AnonymousUser => false
  | Some (AuthUser user) => is_in_shopping_cart obj user st
  end.

(** [CustomUserSerializer.get_is_subscribed(self, obj)]:
    [obj.following.filter(user=request.user).exists()]. *)
Definition get_is_subscribed (request : option request_user) (obj : Z)
  (st : State) : bool :=
  match request with
  | None => false
  | Some AnonymousUser => false
  | Some (AuthUser user) =>
      existsb (fun p => (snd p =? obj) && (fst p =? user)) (subscription_table st)
  end.

(** The flag that goes with a join model. *)
Definition get_flag (model : join_model)
  : option request_user -> Z -> State -> bool :=
  match model with
  | Favorite => get_is_favorited
  | ShoppingCart => get_is_in_shopping_cart
  end.

Definition other_model (model : join_model) : join_model :=
  match model with
  | Favorite => ShoppingCart
  | ShoppingCart => Favorite
  end.

(** *** [CustomUserViewSet.subscriptions]  (api/views.py) *)

Fixpoint insert_id (x : Z) (l : list Z) : list Z :=
  match l with
  | [] => [x]
  | y :: l' => if x <=? y then x :: l else y :: insert_id x l'
  end.

(** [User.Meta.ordering = \['id'\]]. *)
Definition order_by_id (l : list Z) : list Z := fold_right insert_id [] l.

(** [User.objects.filter(following__user=request.user)]: the users joined
    with the subscriptions that name them as author, one result per
    subscription of the asking user.  The page cut out of it by the
    paginator is configured outside the sources and not modelled. *)
Definition subscriptions_queryset (request_user : Z) (st : State) : list Z :=
  flat_map
    (fun author =>
       flat_map
         (fun p => if (fst p =? request_user) && (snd p =? author)
                   then [author] else [])
         (subscription_table st))
    (order_by_id (user_table st)).

(** *** [SubscriptionSerializer.get_recipes] / [get_recipes_count]
    (api/serializers.py) *)

(** [RecipeListSerializer(recipe).data]. *)
Definition recipe_list_data (r : Recipe) : body :=
  RecipeListData (recipe_id r) (recipe_name r) (recipe_image r) (cooking_time r).

(** [obj.recipes.all()\[: int(recipes_limit)\]] when the query parameter is
    given and not empty, [obj.recipes.all()] otherwise; [recipes] is the
    author's recipes in the order the store returns them.  A queryset
    refuses a negative bound: with a [ValueError] in Django 4, with a failed
    assertion before; nothing below depends on which of the two it is. *)
Definition get_recipes (recipes_limit : option string) (recipes : list Recipe)
  : result (list body) :=
  match recipes_limit with
  | Some s =>
      if negb (String.eqb s "")
      then
        match int_of_str s with
        | None => Raise ValueError
        | Some n =>
            if n <? 0 then Raise ValueError
            else Ok (map recipe_list_data (firstn (Z.to_nat n) recipes))
        end
      else Ok (map recipe_list_data recipes)
  | None => Ok (map recipe_list_data recipes)
  end.

(** [obj.recipes.count()]. *)
Definition get_recipes_count (recipes : list Recipe) : Z :=
  Z.of_nat (List.length recipes).

(** *** [RecipeFilter]  (api/filters.py) *)

(** [filter_favorited(self, queryset, name, value)]:
    [queryset.filter(favorites__user=user)], a join with the favorites. *)
Definition filter_favorited (user : request_user) (queryset : list Recipe)
  (value : option bool) (st : State) : list Recipe :=
  match value, user with
  | Some true, AuthUser u =>
      flat_map
        (fun r =>
           flat_map (fun p => if (snd p =? recipe_id r) && (fst p =? u)
                              then [r] else [])
                    (favorite_table st))
        queryset
  | _, _ => queryset
  end.

(** [filter_shopping_cart(self, queryset, name, value)]. *)
Definition filter_shopping_cart (user : request_user) (queryset : list Recipe)
  (value : option bool) (st : State) : list Recipe :=
  match value, user with
  | Some true, AuthUser u =>
      flat_map
        (fun r =>
           flat_map (fun p => if (snd p =? recipe_id r) && (fst p =? u)
                              then [r] else [])
                    (shoppingcart_table st))
        queryset
  | _, _ => queryset
  end.

(** *** Permissions  (api/permissions.py) *)

Inductive verb : Type := GET | HEAD | OPTIONS | POST_ | PUT | PATCH | DELETE_.

(** [request.method in SAFE_METHODS]. *)
Definition is_safe (method : verb) : bool :=
  match method with
  | GET | HEAD | OPTIONS => true
  | _ => false
  end.

(** [IsAuthorOrReadOnly.has_object_permission(self, request, view, obj)]. *)
Definition has_object_permission (method : verb) (user : request_user)
  (obj : Recipe) : bool :=
  match user with
  | AuthUser u => recipe_author obj =? u
  | AnonymousUser => false
  end
  || is_safe method.

(** *** What the store's constraints add up to *)

Definition recipe_ids (st : State) : list Z := map recipe_id (recipe_table st).

(** The primary keys, the [UniqueConstraint]s, the checks of the
    [PositiveIntegerField]s and the foreign keys declared in
    [recipes/models.py] and [users/models.py], as properties of a state. *)
Record integrity (st : State) : Prop := mkIntegrity {
  int_users : NoDup (user_table st);
  int_catalog : NoDup (map ingredient_id (ingredient_table st));
  int_recipe_pk : NoDup (recipe_ids st);
  int_recipe_name :
    forall r1 r2, In r1 (recipe_table st) -> In r2 (recipe_table st) ->
                  recipe_author r1 = recipe_author r2 ->
                  recipe_name r1 = recipe_name r2 ->
                  recipe_id r1 = recipe_id r2;
  int_recipe_time : Forall (fun r => 0 <= cooking_time r) (recipe_table st);
  int_recipe_author :
    Forall (fun r => In (recipe_author r) (user_table st)) (recipe_table st);
  int_ri_pk : NoDup (map ri_id (recipeingredients st));
  int_ri_unique : NoDup (existing_pairs st);
  int_ri_amount : Forall (fun ri => 0 <= ri_amount ri) (recipeingredients st);
  int_ri_recipe :
    Forall (fun ri => In (ri_recipe ri) (recipe_ids st)) (recipeingredients st);
  int_ri_ingredient :
    Forall (fun ri => catalog_has st (ri_ingredient ri) = true)
           (recipeingredients st);
  int_tags_unique : NoDup (recipe_tags st);
  int_tags_recipe : Forall (fun rt => In (fst rt) (recipe_ids st)) (recipe_tags st);
  int_favorite :
    Forall (fun p => In (fst p) (user_table st) /\ In (snd p) (recipe_ids st))
           (favorite_table st);
  int_shoppingcart :
    Forall (fun p => In (fst p) (user_table st) /\ In (snd p) (recipe_ids st))
           (shoppingcart_table st);
  int_subscription :
    Forall (fun p => In (fst p) (user_table st) /\ In (snd p) (user_table st))
           (subscription_table st)
}.

(** The user a request acts for, if it reaches the recipe views. *)
Definition actor (req : request) : option Z :=
  match req with
  | ReqCreateRecipe user _ => Some user
  | ReqUpdateRecipe user _ _ => Some user
  | ReqDestroyRecipe user _ => Some user
  | ReqFavorite _ user _ => Some user
  | ReqShoppingCart _ user _ => Some user
  | ReqSubscribe _ user _ => Some user
  | ReqRegister _ | ReqCatalog _ | ReqAdminSubscription _ _ => None
  end.

(** The requests that cannot touch the shopping list of [user]: anything
    about favorites, subscriptions and registration, and a cart request of
    another user. *)
Definition cart_neutral (user : Z) (req : request) : bool :=
  match req with
  | ReqFavorite _ _ _ | ReqSubscribe _ _ _ | ReqAdminSubscription _ _
  | ReqRegister _ => true
  | ReqShoppingCart _ user' _ => negb (user' =? user)
  | ReqCreateRecipe _ _ | ReqUpdateRecipe _ _ _ | ReqDestroyRecipe _ _
  | ReqCatalog _ => false
  end.

(** The total the shopping list of [user] carries for the text [key], 0
    when no line has that text. *)
Definition listed_total (leb : string -> string -> bool) (user : Z)
  (st : State) (key : string) : Z :=
  getd key (ingredient_data (shopping_queryset leb user st)).

(** The sum of the amounts of the through rows of one recipe rendered as
    [key]. *)
Definition recipe_total (st : State) (recipe : Z) (key : string) : Z :=
  sumZ (map ri_amount
            (filter (ri_key_is st key)
                    (filter (fun ri => ri_recipe ri =? recipe)
                            (recipeingredients st)))).

(* ================================================================== *)
(** * Part II: properties *)
(* ================================================================== *)

Example str_15 : str 15 = "15". Proof. reflexivity. Qed.
Example str_0 : str 0 = "0". Proof. reflexivity. Qed.
Example str_neg : str (-3) = "-3". Proof. reflexivity. Qed.
Example int_of_str_ex :
  map int_of_str [" 5 "; "+5"; "-5"; "1_0"; "_1"; "1_"; "1__0"; "- 5"; ""; "abc"; "00"]
  = [Some 5; Some 5; Some (-5); Some 10; None; None; None; None; None; None; Some 0].
Proof. reflexivity. Qed.

(** ** Builtins *)

Lemma hkey_eqb_eq (a b : hkey) : hkey_eqb a b = true <-> a = b.
Proof.
  destruct a, b; simpl; split; intros H; try discriminate; try reflexivity.
  - apply Z.eqb_eq in H. now subst.
  - inversion H. apply Z.eqb_refl.
  - apply String.eqb_eq in H. now subst.
  - inversion H. apply String.eqb_refl.
Qed.

Lemma set_mem_In (k : hkey) (s : list hkey) : set_mem k s = true <-> In k s.
Proof.
  unfold set_mem. rewrite existsb_exists. split.
  - intros [x [Hin Heq]]. apply hkey_eqb_eq in Heq. now subst.
  - intros Hin. exists k. split; [assumption | now apply hkey_eqb_eq].
Qed.

Lemma set_mem_not_In (k : hkey) (s : list hkey) : set_mem k s = false <-> ~ In k s.
Proof.
  rewrite <- set_mem_In. destruct (set_mem k s); split; intros H;
    try discriminate; try reflexivity; try (intros H'; discriminate).
  exfalso. now apply H.
Qed.

Lemma set_add_fresh (k : hkey) (s : list hkey) :
  ~ In k s -> set_add k s = k :: s.
Proof.
  intros H. unfold set_add. apply set_mem_not_In in H. now rewrite H.
Qed.

(** ** [validate]: one entry *)

Lemma check_ingredient_absent (d : dict) (s : list hkey) :
  dict_get d "amount" = None \/ dict_get d "id" = None ->
  check_ingredient (JDict d) s = Raise IncompleteIngredient.
Proof.
  intros [H | H]; simpl; rewrite H; simpl.
  - reflexivity.
  - now rewrite orb_true_r.
Qed.

Lemma check_ingredient_reads (d : dict) (n : Z) (k : hkey) (s : list hkey) :
  entry_reads d n k ->
  check_ingredient (JDict d) s =
    if n >? 0
    then if set_mem k s then Raise DuplicateIngredient else Ok (set_add k s)
    else Raise InvalidAmount.
Proof.
  intros (a & i & Ha & Hta & Hint & Hi & Hti & Hk).
  simpl. rewrite Ha, Hi, Hta, Hti. simpl. rewrite Hint, Hk.
  now destruct (n >? 0).
Qed.


(** ** [validate]: the loop *)

Lemma check_ingredients_clean (pre : list dict) (rest : list json)
  (s s' : list hkey) :
  clean_from s pre s' ->
  check_ingredients (map JDict pre ++ rest) s = check_ingredients rest s'.
Proof.
  induction 1 as [s | s d ds s' n k Hr Hn Hk Hc IH]; simpl.
  - reflexivity.
  - change (check_ingredient (JDict d) s) with (check_ingredient (JDict d) s).
    assert (E : check_ingredient (JDict d) s = Ok (k :: s)).
    { rewrite (check_ingredient_reads d n k s Hr).
      replace (n >? 0) with true by (symmetry; apply Z.gtb_lt; lia).
      apply set_mem_not_In in Hk as Hk'. rewrite Hk'.
      now rewrite set_add_fresh. }
    unfold check_ingredient in E |- *. rewrite E. exact IH.
Qed.




(** ** [validate]: the whole function *)

Lemma check_fields_first_missing (p : dict) (pre : list string) (f : string)
  (post : list string) :
  Forall (fun g => truthy (dict_get p g) = true) pre ->
  truthy (dict_get p f) = false ->
  check_fields p (pre ++ f :: post) = Raise (MissingField f).
Proof.
  induction 1 as [|g pre Hg _ IH]; intros Hf; simpl.
  - now rewrite Hf.
  - rewrite Hg. simpl. now apply IH.
Qed.

Lemma check_fields_filled (p : dict) (fields : list string) :
  Forall (fun g => truthy (dict_get p g) = true) fields ->
  check_fields p fields = Ok tt.
Proof.
  induction 1 as [|g fields Hg _ IH]; simpl; [reflexivity |].
  now rewrite Hg.
Qed.

Lemma validate_loop {A : Type} (p : dict) (data : A) (items : list json) :
  Forall (fun g => truthy (dict_get p g) = true) required_fields ->
  dict_get p "ingredients" = Some (JList items) ->
  validate p data =
    match check_ingredients items [] with
    | Raise e => Raise e
    | Ok _ => Ok data
    end.
Proof.
  intros Hf Hi. unfold validate.
  rewrite (check_fields_filled _ _ Hf), Hi. reflexivity.
Qed.



(** C4.  An entry whose [amount] is the integer 0 is turned away as if the
    amount had not been given: [not ingredient.get('amount')] holds for 0,
    so the check that follows, [not int(amount) > 0] with its message
    "cannot be less than 1", is never reached for it.  The same amount sent
    as the text "0" does reach it, and an amount that is no number makes
    [int] raise [ValueError] before any [ValidationError] is built. *)
Theorem validate_amount_zero :
  validate (body_with (JList [JDict (entry (Some (JInt 1)) (Some (JInt 0)))])) tt
    = Raise IncompleteIngredient
  /\ IncompleteIngredient <> InvalidAmount
  /\ validate (body_with (JList [JDict (entry (Some (JInt 1)) (Some (JStr "0")))])) tt
    = Raise InvalidAmount
  /\ validate (body_with (JList [JDict (entry (Some (JInt 1)) (Some (JInt (-1))))])) tt
    = Raise InvalidAmount
  /\ validate (body_with (JList [JDict (entry (Some (JInt 1)) (Some (JStr "abc")))])) tt
    = Raise ValueError.
Proof.
  repeat split; try reflexivity.
  unfold IncompleteIngredient, InvalidAmount. intros H. inversion H.
Qed.

(** C5, as stated, fails: with every required member filled in and an
    entry that gives no [amount], the answer is [InvalidAmount], because an
    earlier entry with a negative amount is examined in full first.  The
    loop does not finish the presence check of all entries before it looks
    at any amount. *)
Lemma validate_not_phased :
  ~ (forall (p : dict) (ds : list dict),
        Forall (fun g => truthy (dict_get p g) = true) required_fields ->
        dict_get p "ingredients" = Some (JList (map JDict ds)) ->
        (exists d, In d ds /\
                   (dict_get d "amount" = None \/ dict_get d "id" = None)) ->
        validate p tt = Raise IncompleteIngredient).
Proof.
  intros H.
  specialize (H (body_with (JList (map JDict
                   [entry (Some (JInt 1)) (Some (JInt (-1)));
                    entry (Some (JInt 2)) None])))
                [entry (Some (JInt 1)) (Some (JInt (-1)));
                 entry (Some (JInt 2)) None]).
  assert (E : validate (body_with (JList (map JDict
                   [entry (Some (JInt 1)) (Some (JInt (-1)));
                    entry (Some (JInt 2)) None]))) tt = Raise InvalidAmount)
    by reflexivity.
  rewrite E in H.
  assert (C : @Raise unit InvalidAmount = Raise IncompleteIngredient).
  { apply H.
    - repeat constructor.
    - reflexivity.
    - exists (entry (Some (JInt 2)) None). split; [right; now left | now left]. }
  inversion C.
Qed.

(** C5, amended.  [validate] first tests [tags], [ingredients], [name],
    [text], [cooking_time] in this order and raises [MissingField] for the
    first one that is not filled in, whatever the ingredients are.  With all
    five filled in it walks the entries in the order submitted and applies
    three checks to an entry before it moves to the next one: [id] and
    [amount] are given ([IncompleteIngredient]), the amount is greater than
    0 ([InvalidAmount]), the id was not used by an earlier entry
    ([DuplicateIngredient]).  The first check that fails, at the first entry
    that fails one, decides the error, whatever follows that entry; when no
    entry fails, the data is returned. *)
Theorem validate_first_failure :
  forall (A : Type) (p : dict) (data : A),
    (forall pre f post,
        required_fields = (pre ++ f :: post)%list ->
        Forall (fun g => truthy (dict_get p g) = true) pre ->
        truthy (dict_get p f) = false ->
        validate p data = Raise (MissingField f))
    /\
    (forall pre d post seen,
        Forall (fun g => truthy (dict_get p g) = true) required_fields ->
        dict_get p "ingredients" = Some (JList (map JDict (pre ++ d :: post))) ->
        clean_from [] pre seen ->
        ((dict_get d "amount" = None \/ dict_get d "id" = None) ->
         validate p data = Raise IncompleteIngredient)
        /\ (forall n k, entry_reads d n k -> n <= 0 ->
                        validate p data = Raise InvalidAmount)
        /\ (forall n k, entry_reads d n k -> n > 0 -> In k seen ->
                        validate p data = Raise DuplicateIngredient))
    /\
    (forall ds seen,
        Forall (fun g => truthy (dict_get p g) = true) required_fields ->
        dict_get p "ingredients" = Some (JList (map JDict ds)) ->
        clean_from [] ds seen ->
        validate p data = Ok data).
Proof.
  intros A p data. split; [| split].
  - intros pre f post Hreq Hpre Hf. unfold validate.
    rewrite Hreq, (check_fields_first_missing p pre f post Hpre Hf).
    reflexivity.
  - intros pre d post seen Hf Hi Hc.
    assert (E : validate p data =
                match check_ingredients (JDict d :: map JDict post) seen with
                | Raise e => Raise e
                | Ok _ => Ok data
                end).
    { rewrite (validate_loop p data _ Hf Hi).
      rewrite map_app. cbn [map].
      now rewrite (check_ingredients_clean pre _ [] seen Hc). }
    split; [| split].
    + intros Habs. rewrite E. cbn [check_ingredients].
      now rewrite (check_ingredient_absent d seen Habs).
    + intros n k Hr Hn. rewrite E. cbn [check_ingredients].
      rewrite (check_ingredient_reads d n k seen Hr).
      replace (n >? 0) with false; [reflexivity |].
      symmetry. rewrite Z.gtb_ltb. apply Z.ltb_ge. lia.
    + intros n k Hr Hn Hin. rewrite E. cbn [check_ingredients].
      rewrite (check_ingredient_reads d n k seen Hr).
      replace (n >? 0) with true by (symmetry; apply Z.gtb_lt; lia).
      apply set_mem_In in Hin. now rewrite Hin.
  - intros ds seen Hf Hi Hc.
    rewrite (validate_loop p data _ Hf Hi).
    rewrite <- (app_nil_r (map JDict ds)).
    now rewrite (check_ingredients_clean ds [] [] seen Hc).
Qed.

Lemma entry_reads_int (i a : Z) :
  i <> 0 -> a <> 0 ->
  entry_reads (entry (Some (JInt i)) (Some (JInt a))) a (KInt i).
Proof.
  intros Hi Ha. exists (JInt a), (JInt i). simpl.
  repeat split; apply negb_true_iff, Z.eqb_neq; assumption.
Defined.

Lemma validate_first_failure_witness :
  validate (body_with (JList (map JDict
     ([entry (Some (JInt 1)) (Some (JInt 2))]
      ++ entry (Some (JInt 1)) (Some (JInt 3)) :: [])))) tt
  = Raise DuplicateIngredient
  /\
  validate (body_with (JList (map JDict
     ([entry (Some (JInt 1)) (Some (JInt 2))]
      ++ entry (Some (JInt 7)) (Some (JInt (-1)))
      :: [entry (Some (JInt 2)) None])))) tt
  = Raise InvalidAmount.
Proof.
  assert (Hc : clean_from [] [entry (Some (JInt 1)) (Some (JInt 2))] [KInt 1]).
  { apply (clean_cons [] _ [] [KInt 1] 2 (KInt 1)).
    - apply entry_reads_int; lia.
    - lia.
    - intros [].
    - constructor. }
  split.
  - refine (proj2 (proj2 (proj1 (proj2
             (validate_first_failure unit _ tt)) _ _ _ [KInt 1] _ _ Hc))
             3 (KInt 1) _ _ _).
    + repeat constructor.
    + reflexivity.
    + apply entry_reads_int; lia.
    + lia.
    + now left.
  - refine (proj1 (proj2 (proj1 (proj2
             (validate_first_failure unit _ tt)) _ _ _ [KInt 1] _ _ Hc))
             (-1) (KInt 7) _ _).
    + repeat constructor.
    + reflexivity.
    + apply entry_reads_int; lia.
    + lia.
Defined.


(** What "the same id" means to the check: the value as it was submitted,
    so the number 1 and the text "1" are two ids for [validate]. *)
Example validate_ids_as_submitted :
  validate (body_with (JList (map JDict
     [entry (Some (JInt 1)) (Some (JInt 2));
      entry (Some (JStr "1")) (Some (JInt 3))]))) tt
  = Ok tt.
Proof. reflexivity. Qed.


(** ** The shopping list: aggregation *)

Lemma mem_str_In (k : string) (l : list string) : mem_str k l = true <-> In k l.
Proof.
  unfold mem_str. rewrite existsb_exists. split.
  - intros [x [Hin Heq]]. apply String.eqb_eq in Heq. now subst.
  - intros Hin. exists k. split; [assumption | apply String.eqb_refl].
Qed.

Lemma mem_str_app (k : string) (l1 l2 : list string) :
  mem_str k (l1 ++ l2) = mem_str k l1 || mem_str k l2.
Proof. unfold mem_str. apply existsb_app. Qed.

Lemma fold_item_lines (l : list (string * Z)) (acc : list string) :
  fold_left (fun il kv => app il [item_line kv]) l acc
  = (acc ++ map item_line l)%list.
Proof.
  revert acc. induction l as [|kv l IH]; intros acc; simpl.
  - now rewrite app_nil_r.
  - rewrite IH, <- app_assoc. reflexivity.
Qed.

Lemma create_ingredient_list_lines (queryset : list Row) :
  create_ingredient_list queryset
  = (header_line ++ nl) :: map item_line (ingredient_data queryset).
Proof. unfold create_ingredient_list. now rewrite fold_item_lines. Qed.

Lemma iadd_keys (k : string) (a : Z) (d : list (string * Z)) :
  map fst (dict_iadd k a d)
  = (map fst d ++ if mem_str k (map fst d) then [] else [k])%list.
Proof.
  induction d as [|[k' v] d IH]; simpl; [reflexivity |].
  rewrite (String.eqb_sym k k').
  destruct (String.eqb k' k); simpl.
  - now rewrite app_nil_r.
  - now rewrite IH.
Qed.

Lemma iadd_getd (k : string) (a : Z) (d : list (string * Z)) (k' : string) :
  getd k' (dict_iadd k a d)
  = if String.eqb k k' then getd k' d + a else getd k' d.
Proof.
  induction d as [|[k0 v] d IH]; simpl.
  - destruct (String.eqb k k'); reflexivity.
  - destruct (String.eqb_spec k0 k) as [-> | Hne]; simpl.
    + destruct (String.eqb k k'); reflexivity.
    + destruct (String.eqb_spec k0 k') as [-> | Hne'].
      * destruct (String.eqb_spec k k') as [-> | _]; [contradiction | reflexivity].
      * exact IH.
Qed.

Lemma first_from_seen_ext (rows : list Row) (s1 s2 : list string) :
  (forall k, mem_str k s1 = mem_str k s2) ->
  first_from s1 rows = first_from s2 rows.
Proof.
  revert s1 s2. induction rows as [|r rows IH]; intros s1 s2 H; simpl.
  - reflexivity.
  - rewrite (H (row_key r)). destruct (mem_str (row_key r) s2).
    + now apply IH.
    + f_equal. apply IH. intros k. simpl. now rewrite H.
Qed.

Lemma fold_iadd_keys (rows : list Row) (d : list (string * Z)) :
  map fst (fold_left (fun d r => dict_iadd (row_key r) (amount r) d) rows d)
  = (map fst d ++ map row_key (first_from (map fst d) rows))%list.
Proof.
  revert d. induction rows as [|r rows IH]; intros d; simpl.
  - now rewrite app_nil_r.
  - rewrite IH, iadd_keys.
    destruct (mem_str (row_key r) (map fst d)) eqn:Hm.
    + now rewrite app_nil_r.
    + rewrite <- app_assoc. simpl. do 3 f_equal.
      apply first_from_seen_ext. intros k.
      rewrite mem_str_app. simpl. rewrite orb_false_r. apply orb_comm.
Qed.

Lemma total_for_cons (k : string) (r : Row) (rows : list Row) :
  total_for k (r :: rows)
  = if String.eqb (row_key r) k then amount r + total_for k rows
    else total_for k rows.
Proof.
  unfold total_for. simpl. now destruct (String.eqb (row_key r) k).
Qed.

Lemma fold_iadd_getd (rows : list Row) (d : list (string * Z)) (k : string) :
  getd k (fold_left (fun d r => dict_iadd (row_key r) (amount r) d) rows d)
  = getd k d + total_for k rows.
Proof.
  revert d. induction rows as [|r rows IH]; intros d.
  - unfold total_for. simpl. lia.
  - cbn [fold_left]. rewrite IH, iadd_getd, total_for_cons.
    destruct (String.eqb (row_key r) k); lia.
Qed.

Lemma first_from_spec (rows : list Row) (seen : list string) :
  NoDup (map row_key (first_from seen rows))
  /\ (forall r, In r (first_from seen rows) ->
                In r rows /\ ~ In (row_key r) seen)
  /\ (forall r, In r rows ->
                In (row_key r) seen \/
                exists r', In r' (first_from seen rows) /\ row_key r' = row_key r).
Proof.
  revert seen. induction rows as [|r rows IH]; intros seen.
  - simpl. split; [constructor | split; intros r []].
  - simpl. destruct (mem_str (row_key r) seen) eqn:Hm.
    + destruct (IH seen) as (Hnd & Hin & Hcov). repeat split.
      * assumption.
      * right. now apply Hin.
      * now apply Hin.
      * intros r0 [<- | H0]; [left; now apply mem_str_In | now apply Hcov].
    + destruct (IH (row_key r :: seen)) as (Hnd & Hin & Hcov).
      assert (Hns : ~ In (row_key r) seen).
      { intros H. apply mem_str_In in H. congruence. }
      repeat split.
      * simpl. constructor; [| assumption].
        intros H. apply in_map_iff in H as (r' & Hk & Hr').
        apply Hin in Hr' as [_ Hr']. apply Hr'. left. now symmetry.
      * destruct H as [<- | H]; [now left | right; now apply Hin].
      * destruct H as [<- | H]; [assumption |].
        apply Hin in H as [_ H]. intros H'. apply H. now right.
      * intros r0 [<- | H0].
        -- right. exists r. split; [now left | reflexivity].
        -- destruct (Hcov r0 H0) as [[E | Hs] | (r' & Hr' & E)].
           ++ right. exists r. split; [now left | assumption].
           ++ now left.
           ++ right. exists r'. split; [now right | assumption].
Qed.

Lemma rebuild_from_keys (d : list (string * Z)) :
  NoDup (map fst d) -> d = map (fun k => (k, getd k d)) (map fst d).
Proof.
  induction d as [|[k v] d IH]; intros Hnd; [reflexivity |].
  simpl in *. inversion Hnd as [|? ? Hk Hnd']; subst.
  rewrite String.eqb_refl. f_equal.
  rewrite (IH Hnd') at 1.
  apply map_ext_in. intros k' Hk'.
  destruct (String.eqb_spec k k') as [-> | _]; [contradiction | reflexivity].
Qed.

(** The aggregated data, group by group: the groups come in the order in
    which their key first occurs, each with the sum of its rows. *)
Lemma ingredient_data_groups (rows : list Row) :
  ingredient_data rows
  = map (fun r => (row_key r, total_for (row_key r) rows)) (first_rows rows).
Proof.
  unfold ingredient_data, first_rows.
  pose proof (fold_iadd_keys rows []) as Hk. simpl in Hk.
  destruct (first_from_spec rows []) as (Hnd & _ & _).
  rewrite <- Hk in Hnd.
  rewrite (rebuild_from_keys _ Hnd), Hk, map_map.
  apply map_ext. intros r. now rewrite fold_iadd_getd.
Qed.

Lemma ingredient_data_keys_nodup (rows : list Row) :
  NoDup (map fst (ingredient_data rows)).
Proof.
  rewrite ingredient_data_groups, map_map. simpl.
  now destruct (first_from_spec rows []) as (Hnd & _ & _).
Qed.

Lemma ingredient_data_In (rows : list Row) (key : string) (total : Z) :
  In (key, total) (ingredient_data rows) <->
  (exists r, In r rows /\ row_key r = key) /\ total = total_for key rows.
Proof.
  rewrite ingredient_data_groups.
  destruct (first_from_spec rows []) as (_ & Hin & Hcov).
  rewrite in_map_iff. split.
  - intros (r & E & Hr). inversion E; subst. split; [| reflexivity].
    exists r. split; [now apply Hin | reflexivity].
  - intros [(r & Hr & <-) ->].
    destruct (Hcov r Hr) as [[] | (r' & Hr' & E)].
    exists r'. split; [now rewrite E | assumption].
Qed.

(** ** The shopping list: the queryset *)

Lemma total_for_perm (k : string) (l l' : list Row) :
  Permutation l l' -> total_for k l = total_for k l'.
Proof.
  induction 1 as [| x l l' _ IH | x y l | l l' l'' _ IH1 _ IH2].
  - reflexivity.
  - rewrite !total_for_cons, IH. reflexivity.
  - rewrite !total_for_cons.
    destruct (String.eqb (row_key x) k), (String.eqb (row_key y) k); lia.
  - congruence.
Qed.

Lemma pair_eqb_eq (a b : Z * Z) : pair_eqb a b = true <-> a = b.
Proof.
  destruct a as [a1 a2], b as [b1 b2]. unfold pair_eqb. simpl.
  rewrite andb_true_iff, !Z.eqb_eq. split.
  - intros [-> ->]. reflexivity.
  - intros E. inversion E. auto.
Qed.

Lemma mem_pair_In (p : Z * Z) (t : list (Z * Z)) : mem_pair p t = true <-> In p t.
Proof.
  unfold mem_pair. rewrite existsb_exists. split.
  - intros [x [Hin Heq]]. apply pair_eqb_eq in Heq. now subst.
  - intros Hin. exists p. split; [assumption | now apply pair_eqb_eq].
Qed.

Lemma mem_pair_not_In (p : Z * Z) (t : list (Z * Z)) :
  mem_pair p t = false <-> ~ In p t.
Proof.
  rewrite <- mem_pair_In. destruct (mem_pair p t); split; intros H;
    try discriminate; try reflexivity; try (intros H'; discriminate).
  exfalso. now apply H.
Qed.

(** Under the uniqueness of [(user, recipe)] a through row meets at most
    one cart row of the user. *)
Lemma join_cart_unique {B : Type} (user recipe : Z) (L : list B)
  (cart : list (Z * Z)) :
  NoDup cart ->
  flat_map (fun c => if (fst c =? user) && (snd c =? recipe) then L else []) cart
  = if mem_pair (user, recipe) cart then L else [].
Proof.
  induction 1 as [|c cart Hc Hnd IH]; [reflexivity |].
  cbn [flat_map]. rewrite IH. unfold mem_pair. cbn [existsb].
  fold (mem_pair (user, recipe) cart).
  unfold pair_eqb at 1. cbn [fst snd].
  rewrite (Z.eqb_sym user), (Z.eqb_sym recipe).
  destruct ((fst c =? user) && (snd c =? recipe)) eqn:E; simpl.
  - apply andb_true_iff in E as [E1 E2].
    apply Z.eqb_eq in E1, E2. destruct c as [c1 c2]; simpl in *; subst.
    apply mem_pair_not_In in Hc. rewrite Hc. apply app_nil_r.
  - reflexivity.
Qed.

Lemma cart_rows_unique (user : Z) (st : State) :
  NoDup (shoppingcart_table st) ->
  cart_rows user st = flat_map (row_list st) (cart_ingredients user st).
Proof.
  intros Hnd. unfold cart_rows, cart_ingredients.
  induction (recipeingredients st) as [|ri l IH]; [reflexivity |].
  cbn [flat_map filter]. rewrite IH.
  rewrite (join_cart_unique user (ri_recipe ri) _ _ Hnd).
  destruct (mem_pair (user, ri_recipe ri) (shoppingcart_table st)).
  - cbn [flat_map]. unfold row_list at 2, ri_row.
    now destruct (find _ (ingredient_table st)).
  - reflexivity.
Qed.

Lemma total_for_row_list (st : State) (key : string)
  (l : list RecipeIngredients) :
  total_for key (flat_map (row_list st) l)
  = sumZ (map ri_amount (filter (ri_key_is st key) l)).
Proof.
  induction l as [|ri l IH]; [reflexivity |].
  cbn [flat_map filter]. unfold row_list at 1, ri_key_is at 1.
  destruct (ri_row st ri) as [r|] eqn:E.
  - cbn [app]. rewrite total_for_cons, IH.
    assert (Ha : amount r = ri_amount ri).
    { unfold ri_row in E. destruct (find _ (ingredient_table st));
        inversion E; reflexivity. }
    destruct (String.eqb (row_key r) key); [| reflexivity].
    cbn [map]. unfold sumZ at 2. cbn [fold_right]. fold (sumZ (map ri_amount (filter (ri_key_is st key) l))).
    now rewrite Ha.
  - exact IH.
Qed.

Lemma In_row_list (st : State) (l : list RecipeIngredients) (key : string) :
  (exists r, In r (flat_map (row_list st) l) /\ row_key r = key) <->
  (exists ri, In ri l /\ ri_key_is st key ri = true).
Proof.
  split.
  - intros (r & Hr & Hk). apply in_flat_map in Hr as (ri & Hri & Hr).
    exists ri. split; [assumption |].
    unfold row_list in Hr. unfold ri_key_is.
    destruct (ri_row st ri) as [r'|]; [| destruct Hr].
    destruct Hr as [<- | []]. rewrite Hk. apply String.eqb_refl.
  - intros (ri & Hri & Hk). unfold ri_key_is in Hk.
    destruct (ri_row st ri) as [r|] eqn:E; [| discriminate].
    exists r. split; [| now apply String.eqb_eq].
    apply in_flat_map. exists ri. split; [assumption |].
    unfold row_list. rewrite E. now left.
Qed.

Section Sorting.

Variable leb : string -> string -> bool.

Lemma insert_by_name_perm (r : Row) (l : list Row) :
  Permutation (insert_by_name leb r l) (r :: l).
Proof.
  induction l as [|x l IH]; simpl; [reflexivity |].
  destruct (leb (ingredient__name r) (ingredient__name x)); [reflexivity |].
  rewrite IH. apply perm_swap.
Qed.

Lemma order_by_name_perm (l : list Row) :
  Permutation (order_by_name leb l) l.
Proof.
  induction l as [|x l IH]; simpl; [reflexivity |].
  rewrite insert_by_name_perm. now constructor.
Qed.

Hypothesis leb_total : forall a b, leb a b = true \/ leb b a = true.
Hypothesis leb_trans :
  forall a b c, leb a b = true -> leb b c = true -> leb a c = true.

Lemma insert_by_name_sorted (r : Row) (l : list Row) :
  StronglySorted (name_le leb) l ->
  StronglySorted (name_le leb) (insert_by_name leb r l).
Proof.
  induction 1 as [|x l Hs IH Hall]; simpl.
  - repeat constructor.
  - destruct (leb (ingredient__name r) (ingredient__name x)) eqn:E.
    + constructor; [now constructor |].
      constructor; [exact E |].
      eapply Forall_impl; [| exact Hall].
      intros y Hy. unfold name_le in *. eapply leb_trans; eassumption.
    + constructor; [exact IH |].
      rewrite Forall_forall. intros y Hy.
      apply (Permutation_in _ (insert_by_name_perm r l)) in Hy.
      destruct Hy as [<- | Hy].
      * unfold name_le. destruct (leb_total (ingredient__name r) (ingredient__name x));
          [congruence | assumption].
      * rewrite Forall_forall in Hall. now apply Hall.
Qed.

Lemma order_by_name_sorted (l : list Row) :
  StronglySorted (name_le leb) (order_by_name leb l).
Proof.
  induction l as [|x l IH]; simpl; [constructor |].
  now apply insert_by_name_sorted.
Qed.

End Sorting.

Lemma first_from_sorted (R : Row -> Row -> Prop) (rows : list Row)
  (seen : list string) :
  StronglySorted R rows -> StronglySorted R (first_from seen rows).
Proof.
  intros H. revert seen. induction H as [|r rows Hs IH Hall]; intros seen; simpl.
  - constructor.
  - destruct (mem_str (row_key r) seen); [apply IH |].
    constructor; [apply IH |].
    rewrite Forall_forall in *. intros y Hy. apply Hall.
    now apply (first_from_spec rows (row_key r :: seen)).
Qed.

(** ** The shopping list: the report *)

Lemma shopping_data_In (leb : string -> string -> bool) (st : State)
  (user : Z) (key : string) (total : Z) :
  NoDup (shoppingcart_table st) ->
  In (key, total) (ingredient_data (shopping_queryset leb user st)) <->
  (exists ri, In ri (cart_ingredients user st) /\ ri_key_is st key ri = true)
  /\ total = cart_total user st key.
Proof.
  intros Hnd. rewrite ingredient_data_In. unfold shopping_queryset.
  rewrite (total_for_perm key _ _ (order_by_name_perm leb (cart_rows user st))).
  rewrite (cart_rows_unique user st Hnd), total_for_row_list.
  fold (cart_total user st key).
  rewrite <- In_row_list, <- (cart_rows_unique user st Hnd).
  split; intros [(r & Hr & Hk) Ht]; (split; [| exact Ht]); exists r;
    (split; [| exact Hk]).
  - now apply (Permutation_in _ (order_by_name_perm leb _)).
  - now apply (Permutation_in _ (Permutation_sym (order_by_name_perm leb _))).
Qed.

(** C1, as stated, fails: two catalog entries that differ in name and unit
    but render to the same text ["Salt (g) (kg)"] are summed into one
    group, so the pair [("Salt", "g) (kg")] with 5 in the cart has no line
    of its own carrying 5. *)
Lemma shopping_list_not_by_pair :
  ~ (forall (leb : string -> string -> bool) (st : State) (user : Z),
        NoDup (shoppingcart_table st) ->
        forall name unit,
          (exists ri, In ri (cart_ingredients user st) /\
                      ri_pair_is st name unit ri = true) ->
          In (name ++ " (" ++ unit ++ ")", pair_total user st name unit)
             (ingredient_data (shopping_queryset leb user st))).
Proof.
  intros H.
  specialize (H String.leb clash_state 1).
  assert (Hnd : NoDup (shoppingcart_table clash_state)).
  { simpl. constructor; [intros [] | constructor]. }
  specialize (H Hnd "Salt" "g) (kg").
  assert (Hex : exists ri, In ri (cart_ingredients 1 clash_state) /\
                           ri_pair_is clash_state "Salt" "g) (kg" ri = true).
  { exists (mkRecipeIngredients 1 1 1 5). split; [now left | reflexivity]. }
  specialize (H Hex).
  vm_compute in H. destruct H as [H | []]. inversion H.
Qed.

(** C1, amended.  For every user the list is built from the through rows
    of exactly the recipes in that user's cart; the rows are grouped by the
    text [name (unit)] they are rendered as, each text has one line, and the
    line carries the sum of the amounts of all the rows rendered so.  For a
    name and unit whose text no other pair in the cart renders to, that is
    the sum over the rows with this name and unit.  The cart rows are
    assumed unique per user and recipe, as the model's constraint has them
    in every reachable state ([reachable_wf]). *)
Theorem shopping_list_groups_by_label :
  forall (leb : string -> string -> bool) (st : State) (user : Z),
    NoDup (shoppingcart_table st) ->
    create_ingredient_list (shopping_queryset leb user st)
    = (header_line ++ nl)
        :: map item_line (ingredient_data (shopping_queryset leb user st))
    /\ NoDup (map fst (ingredient_data (shopping_queryset leb user st)))
    /\ (forall ri, In ri (cart_ingredients user st) <->
                   In ri (recipeingredients st) /\
                   In (user, ri_recipe ri) (shoppingcart_table st))
    /\ (forall key total,
          In (key, total) (ingredient_data (shopping_queryset leb user st)) <->
          (exists ri, In ri (cart_ingredients user st) /\
                      ri_key_is st key ri = true)
          /\ total = cart_total user st key)
    /\ (forall name unit,
          (forall ri, In ri (cart_ingredients user st) ->
                      ri_key_is st (name ++ " (" ++ unit ++ ")") ri = true ->
                      ri_pair_is st name unit ri = true) ->
          cart_total user st (name ++ " (" ++ unit ++ ")")
          = pair_total user st name unit).
Proof.
  intros leb st user Hnd. repeat split.
  - apply create_ingredient_list_lines.
  - apply ingredient_data_keys_nodup.
  - unfold cart_ingredients in H. now apply filter_In in H.
  - unfold cart_ingredients in H. apply filter_In in H.
    now apply mem_pair_In.
  - intros [H1 H2]. unfold cart_ingredients. apply filter_In.
    split; [assumption | now apply mem_pair_In].
  - now apply (shopping_data_In leb st user key total Hnd).
  - now apply (shopping_data_In leb st user key total Hnd).
  - intros H. now apply (shopping_data_In leb st user key total Hnd).
  - intros name unit Hinj. unfold cart_total, pair_total.
    f_equal. f_equal.
    induction (cart_ingredients user st) as [|ri l IH]; [reflexivity |].
    cbn [filter].
    assert (E : ri_key_is st (name ++ " (" ++ unit ++ ")") ri
                = ri_pair_is st name unit ri).
    { destruct (ri_key_is st (name ++ " (" ++ unit ++ ")") ri) eqn:Ek.
      - symmetry. apply Hinj; [now left | assumption].
      - unfold ri_key_is in Ek. unfold ri_pair_is.
        destruct (ri_row st ri) as [r|]; [| reflexivity].
        destruct (String.eqb_spec (ingredient__name r) name) as [En|];
          [| reflexivity].
        destruct (String.eqb_spec (ingredient__measurement_unit r) unit) as [Eu|];
          [| reflexivity].
        unfold row_key in Ek. rewrite En, Eu, String.eqb_refl in Ek.
        discriminate. }
    rewrite E. destruct (ri_pair_is st name unit ri).
    + f_equal. apply IH. intros ri' Hri'. apply Hinj. now right.
    + apply IH. intros ri' Hri'. apply Hinj. now right.
Qed.

(** The example of the specification: salt at 5 and at 10 in two recipes of the
    cart gives the one line with 15. *)
Lemma shopping_list_groups_by_label_witness :
  NoDup (shoppingcart_table salt_state)
  /\ In ("Salt (g)", 15)
        (ingredient_data (shopping_queryset String.leb 1 salt_state)).
Proof.
  assert (Hnd : NoDup (shoppingcart_table salt_state)).
  { simpl. constructor.
    - intros [H | []]. inversion H.
    - constructor; [intros [] | constructor]. }
  split; [exact Hnd |].
  apply (proj1 (proj2 (proj2 (proj2
           (shopping_list_groups_by_label String.leb salt_state 1 Hnd))))).
  split.
  - exists (mkRecipeIngredients 1 1 1 5). split; [now left | reflexivity].
  - reflexivity.
Defined.

Example salt_report :
  create_ingredient_list (shopping_queryset String.leb 1 salt_state)
  = [header_line ++ nl; "Salt (g) - 15 " ++ nl].
Proof. reflexivity. Qed.

Lemma append_assoc (a b c : string) : (a ++ b) ++ c = a ++ (b ++ c).
Proof. induction a as [|x a IH]; simpl; [reflexivity | now rewrite IH]. Qed.

Lemma item_line_format (r : Row) (total : Z) :
  item_line (row_key r, total)
  = ingredient__name r ++ " (" ++ ingredient__measurement_unit r
    ++ ") - " ++ str total ++ " " ++ nl.
Proof.
  unfold item_line, row_key. cbn [fst snd].
  rewrite !append_assoc. reflexivity.
Qed.

Lemma cart_rows_empty (user : Z) (st : State) :
  (forall recipe, ~ In (user, recipe) (shoppingcart_table st)) ->
  cart_rows user st = [].
Proof.
  intros H. unfold cart_rows.
  assert (Hinner : forall (B : Type) (f : Z * Z -> list B) (recipe : Z)
                     (cart : list (Z * Z)),
             (forall c, In c cart -> fst c <> user) ->
             flat_map (fun c => if (fst c =? user) && (snd c =? recipe)
                                then f c else []) cart = []).
  { intros B f recipe cart. induction cart as [|c cart IHc]; intros Hc;
      [reflexivity |].
    cbn [flat_map]. rewrite IHc by (intros c' Hc'; apply Hc; now right).
    rewrite app_nil_r.
    destruct (Z.eqb_spec (fst c) user) as [E | _]; [| reflexivity].
    exfalso. apply (Hc c); [now left | exact E]. }
  assert (Hc : forall c, In c (shoppingcart_table st) -> fst c <> user).
  { intros [u r] Hin E. simpl in E. subst u. exact (H r Hin). }
  induction (recipeingredients st) as [|ri l IH]; [reflexivity |].
  cbn [flat_map]. rewrite IH, app_nil_r.
  exact (Hinner Row
           (fun _ => match find (fun i => ingredient_id i =? ri_ingredient ri)
                                (ingredient_table st) with
                     | Some i => [mkRow (ingredient_name i) (measurement_unit i)
                                        (ri_amount ri)]
                     | None => []
                     end)
           (ri_recipe ri) (shoppingcart_table st) Hc).
Qed.

Lemma cart_rows_own (user : Z) (st : State) :
  cart_rows user st
  = flat_map
      (fun ri =>
         flat_map (fun c => if snd c =? ri_recipe ri then row_list st ri else [])
                  (filter (fun c => fst c =? user) (shoppingcart_table st)))
      (recipeingredients st).
Proof.
  unfold cart_rows. apply flat_map_ext. intros ri.
  induction (shoppingcart_table st) as [|c cart IH]; [reflexivity |].
  cbn [flat_map filter]. destruct (fst c =? user); cbn [andb flat_map].
  - rewrite IH. f_equal. unfold row_list, ri_row.
    destruct (snd c =? ri_recipe ri); [| reflexivity].
    now destruct (find _ (ingredient_table st)).
  - exact IH.
Qed.

(** C7.  The report is the header line ["Список продуктов: "] followed by
    one line [{name} ({unit}) - {total} ] for each aggregated group, every
    line closed by a line feed; the groups come by ingredient name in the
    ascending order of the store's collation; a user with nothing in the
    cart gets the header line alone, as an ordinary response. *)
Theorem shopping_list_report :
  forall (leb : string -> string -> bool),
    (forall a b, leb a b = true \/ leb b a = true) ->
    (forall a b c, leb a b = true -> leb b c = true -> leb a c = true) ->
    forall (st : State) (user : Z),
      create_ingredient_list (shopping_queryset leb user st)
      = ("Список продуктов: " ++ nl)
          :: map (fun r =>
                    ingredient__name r ++ " (" ++ ingredient__measurement_unit r
                    ++ ") - "
                    ++ str (total_for (row_key r) (shopping_queryset leb user st))
                    ++ " " ++ nl)
                 (first_rows (shopping_queryset leb user st))
      /\ ingredient_data (shopping_queryset leb user st)
         = map (fun r => (row_key r,
                          total_for (row_key r) (shopping_queryset leb user st)))
               (first_rows (shopping_queryset leb user st))
      /\ StronglySorted (name_le leb) (first_rows (shopping_queryset leb user st))
      /\ (forall r, In r (first_rows (shopping_queryset leb user st)) ->
                    In r (cart_rows user st))
      /\ ((forall recipe, ~ In (user, recipe) (shoppingcart_table st)) ->
          create_ingredient_list (shopping_queryset leb user st)
          = ["Список продуктов: " ++ nl])
      /\ download_shopping_cart leb user st
         = (Ok (mkHttpResponse
                  (String.concat ""
                     (create_ingredient_list (shopping_queryset leb user st)))
                  "text/plain" "attachment; filename=Список_покупок.txt"),
            st).
Proof.
  intros leb Htot Htrans st user. repeat split.
  - rewrite create_ingredient_list_lines, ingredient_data_groups, map_map.
    f_equal. apply map_ext. intros r. apply item_line_format.
  - apply ingredient_data_groups.
  - apply first_from_sorted. now apply order_by_name_sorted.
  - intros r Hr. apply (first_from_spec _ []) in Hr as [Hr _].
    unfold shopping_queryset in Hr.
    now apply (Permutation_in _ (order_by_name_perm leb _)) in Hr.
  - intros Hempty. unfold shopping_queryset.
    now rewrite (cart_rows_empty user st Hempty).
Qed.

(** The byte order of [String.leb] is one such collation. *)
Lemma string_leb_trans (a b c : string) :
  String.leb a b = true -> String.leb b c = true -> String.leb a c = true.
Proof.
  unfold String.leb. revert b c.
  induction a as [|x a IH]; intros [|y b] [|z c]; simpl; try congruence.
  unfold Ascii.compare.
  destruct (N.compare_spec (N_of_ascii x) (N_of_ascii y)) as [Exy | Lxy | Gxy];
  destruct (N.compare_spec (N_of_ascii y) (N_of_ascii z)) as [Eyz | Lyz | Gyz];
  destruct (N.compare_spec (N_of_ascii x) (N_of_ascii z)) as [Exz | Lxz | Gxz];
  try congruence; try lia; try (intros; reflexivity).
  apply IH.
Qed.

Lemma shopping_list_report_witness :
  create_ingredient_list (shopping_queryset String.leb 1 salt_state)
  = ["Список продуктов: " ++ nl; "Salt (g) - 15 " ++ nl].
Proof.
  rewrite (proj1 (shopping_list_report String.leb String.leb_total
                    string_leb_trans salt_state 1)).
  reflexivity.
Defined.

(** C10.  The response to a download is determined by the catalog, the
    through rows and the cart rows of the asking user: two states that
    agree on these give the same response to the character, whatever else
    they hold (carts of other users, favorites, subscriptions), and the
    download leaves the state as it found it. *)
Theorem download_depends_on_own_cart :
  forall (leb : string -> string -> bool) (st1 st2 : State) (user : Z),
    ingredient_table st1 = ingredient_table st2 ->
    recipeingredients st1 = recipeingredients st2 ->
    filter (fun c => fst c =? user) (shoppingcart_table st1)
    = filter (fun c => fst c =? user) (shoppingcart_table st2) ->
    fst (download_shopping_cart leb user st1)
    = fst (download_shopping_cart leb user st2)
    /\ snd (download_shopping_cart leb user st1) = st1
    /\ snd (download_shopping_cart leb user st2) = st2.
Proof.
  intros leb st1 st2 user Hi Hr Hc.
  assert (E : cart_rows user st1 = cart_rows user st2).
  { rewrite !cart_rows_own, Hr, Hc. apply flat_map_ext. intros ri.
    apply flat_map_ext. intros c. unfold row_list, ri_row. now rewrite Hi. }
  unfold download_shopping_cart, bind, get_state, ret, shopping_queryset.
  cbn [fst snd]. now rewrite E.
Qed.

Lemma download_depends_on_own_cart_witness :
  fst (download_shopping_cart String.leb 1 salt_state)
  = fst (download_shopping_cart String.leb 1 salt_state_busy).
Proof.
  apply (download_depends_on_own_cart String.leb salt_state salt_state_busy 1);
    reflexivity.
Defined.

(** ** Toggles *)

Lemma filter_pair_absent (p : Z * Z) (t : list (Z * Z)) :
  ~ In p t -> filter (pair_eqb p) t = [].
Proof.
  induction t as [|q t IH]; intros H; [reflexivity |].
  simpl. destruct (pair_eqb p q) eqn:E.
  - apply pair_eqb_eq in E. subst. exfalso. apply H. now left.
  - apply IH. intros H'. apply H. now right.
Qed.

Lemma count_pair_absent (p : Z * Z) (t : list (Z * Z)) :
  ~ In p t -> count_pair p t = O.
Proof. intros H. unfold count_pair. now rewrite filter_pair_absent. Qed.

Lemma count_pair_present (p : Z * Z) (t : list (Z * Z)) :
  NoDup t -> In p t -> count_pair p t = 1%nat.
Proof.
  unfold count_pair. induction 1 as [|q t Hq Hnd IH]; intros Hin; [destruct Hin |].
  simpl. destruct (pair_eqb p q) eqn:E.
  - apply pair_eqb_eq in E. subst q. now rewrite filter_pair_absent.
  - destruct Hin as [-> | Hin]; [| now apply IH].
    assert (pair_eqb p p = true) by now apply pair_eqb_eq. congruence.
Qed.

Lemma remove_pair_In (p q : Z * Z) (t : list (Z * Z)) :
  In q (filter (fun x => negb (pair_eqb p x)) t) <-> In q t /\ q <> p.
Proof.
  rewrite filter_In, negb_true_iff. split; intros [H1 H2]; split; try assumption.
  - intros ->. assert (pair_eqb p p = true) by now apply pair_eqb_eq. congruence.
  - destruct (pair_eqb p q) eqn:E; [| reflexivity].
    apply pair_eqb_eq in E. now subst.
Qed.


Lemma find_recipe_id (pk : Z) (st : State) (r : Recipe) :
  find_recipe pk st = Some r -> recipe_id r = pk /\ In r (recipe_table st).
Proof.
  unfold find_recipe. intros H. apply find_some in H as [H1 H2].
  apply Z.eqb_eq in H2. now split.
Qed.

Lemma memZ_In (x : Z) (l : list Z) : memZ x l = true <-> In x l.
Proof.
  unfold memZ. rewrite existsb_exists. split.
  - intros [y [Hy E]]. apply Z.eqb_eq in E. now subst.
  - intros H. exists x. split; [assumption | apply Z.eqb_refl].
Qed.

Lemma create_recipe_user_absent (model : join_model) (st : State)
  (user pk : Z) (r : Recipe) :
  find_recipe pk st = Some r ->
  ~ In (user, pk) (join_table model st) ->
  recipe_user_action model POST user pk st
  = (Ok (mkResponse (RecipeListData pk (recipe_name r) (recipe_image r)
                       (cooking_time r)) HTTP_201_CREATED),
     set_join_table model (join_table model st ++ [(user, pk)])%list st).
Proof.
  intros Hr Habs. destruct (find_recipe_id pk st r Hr) as [Hid _].
  unfold recipe_user_action, create_recipe_user, bind, get_recipe_or_404,
    get_or_create, ret.
  rewrite Hr, Hid, (count_pair_absent _ _ Habs). reflexivity.
Qed.

Lemma create_recipe_user_present (model : join_model) (st : State)
  (user pk : Z) (r : Recipe) :
  NoDup (join_table model st) ->
  find_recipe pk st = Some r ->
  In (user, pk) (join_table model st) ->
  recipe_user_action model POST user pk st = (AlreadyExists_recipe pk, st).
Proof.
  intros Hnd Hr Hin. destruct (find_recipe_id pk st r Hr) as [Hid _].
  unfold recipe_user_action, create_recipe_user, bind, get_recipe_or_404,
    get_or_create, ret.
  rewrite Hr, Hid, (count_pair_present _ _ Hnd Hin). reflexivity.
Qed.

Lemma delete_recipe_user_absent (model : join_model) (st : State)
  (user pk : Z) (r : Recipe) :
  find_recipe pk st = Some r ->
  ~ In (user, pk) (join_table model st) ->
  recipe_user_action model DELETE user pk st = (NotFound_recipe, st).
Proof.
  intros Hr Habs. destruct (find_recipe_id pk st r Hr) as [Hid _].
  unfold recipe_user_action, delete_recipe_user, bind, get_recipe_or_404,
    get_join_or_404, ret.
  rewrite Hr, Hid, (count_pair_absent _ _ Habs). reflexivity.
Qed.

Lemma delete_recipe_user_present (model : join_model) (st : State)
  (user pk : Z) (r : Recipe) :
  NoDup (join_table model st) ->
  find_recipe pk st = Some r ->
  In (user, pk) (join_table model st) ->
  recipe_user_action model DELETE user pk st
  = (Ok (mkResponse (Message ("Рецепт с id = " ++ str pk ++ " удален."))
           HTTP_204_NO_CONTENT),
     set_join_table model
       (filter (fun p => negb (pair_eqb (user, pk) p)) (join_table model st)) st).
Proof.
  intros Hnd Hr Hin. destruct (find_recipe_id pk st r Hr) as [Hid _].
  unfold recipe_user_action, delete_recipe_user, bind, get_recipe_or_404,
    get_join_or_404, join_delete, ret.
  rewrite Hr, Hid, (count_pair_present _ _ Hnd Hin). reflexivity.
Qed.

Lemma subscribe_unfold (method : http_method) (st : State) (user pk : Z) :
  In pk (user_table st) ->
  subscribe method user pk st
  = match method with
    | DELETE =>
        if mem_pair (user, pk) (subscription_table st)
        then (Ok (mkResponse NoBody HTTP_204_NO_CONTENT),
              set_subscription_table
                (filter (fun p => negb (pair_eqb (user, pk) p))
                        (subscription_table st)) st)
        else (NotFound_subscription, st)
    | POST =>
        if mem_pair (user, pk) (subscription_table st)
        then (AlreadyExists_subscription, st)
        else if pk =? user then (SelfSubscription, st)
        else (Ok (mkResponse (SubscriptionData pk) HTTP_201_CREATED),
              set_subscription_table
                (subscription_table st ++ [(user, pk)])%list st)
    end.
Proof.
  intros Hu. apply memZ_In in Hu.
  unfold subscribe, bind, get_user_or_404, get_state. rewrite Hu.
  destruct method.
  - destruct (mem_pair (user, pk) (subscription_table st)) eqn:Hm;
      [reflexivity |].
    destruct (pk =? user) eqn:Hs; [reflexivity |].
    unfold subscription_create, ret. rewrite Hm, (Z.eqb_sym user pk), Hs.
    reflexivity.
  - destruct (mem_pair (user, pk) (subscription_table st)); reflexivity.
Qed.



(** ** Well-formed states *)

Lemma hoare_ret {A : Type} (P : State -> Prop) (a : A) (Q : A -> State -> Prop)
  (E : State -> Prop) :
  (forall st, P st -> Q a st) -> hoare P (ret a) Q E.
Proof. intros H st HP. simpl. now apply H. Qed.

Lemma hoare_raise {A : Type} (P : State -> Prop) (e : exn)
  (Q : A -> State -> Prop) (E : State -> Prop) :
  (forall st, P st -> E st) -> hoare P (@raise A e) Q E.
Proof. intros H st HP. simpl. now apply H. Qed.

Lemma hoare_bind {A B : Type} (P : State -> Prop) (m : M A) (k : A -> M B)
  (Q : A -> State -> Prop) (R : B -> State -> Prop) (E : State -> Prop) :
  hoare P m Q E -> (forall a, hoare (Q a) (k a) R E) -> hoare P (bind m k) R E.
Proof.
  intros Hm Hk st HP. unfold bind. specialize (Hm st HP).
  destruct (m st) as [[a | e] st']; [now apply Hk | assumption].
Qed.

Lemma hoare_weaken {A : Type} (P P' : State -> Prop) (m : M A)
  (Q Q' : A -> State -> Prop) (E E' : State -> Prop) :
  hoare P m Q E ->
  (forall st, P' st -> P st) ->
  (forall a st, Q a st -> Q' a st) ->
  (forall st, E st -> E' st) ->
  hoare P' m Q' E'.
Proof.
  intros H HP HQ HE st HP'. specialize (H st (HP st HP')).
  destruct (m st) as [[a | e] st']; auto.
Qed.

Lemma NoDup_snoc {A : Type} (l : list A) (x : A) :
  NoDup l -> ~ In x l -> NoDup (l ++ [x]).
Proof.
  intros Hnd Hx. apply NoDup_app; [assumption | repeat constructor; intros [] | ].
  intros a Ha [<- | []]. contradiction.
Qed.

Lemma Forall_filter_keep {A : Type} (P : A -> Prop) (f : A -> bool) (l : list A) :
  Forall P l -> Forall P (filter f l).
Proof.
  rewrite !Forall_forall. intros H x Hx. apply filter_In in Hx as [Hx _]. auto.
Qed.

Ltac wf_fields H :=
  destruct H as [Hrecipes Htags Hri Hri_ids Hfav Hcart Hsub Hself].

Lemma wf_empty : wf empty_state.
Proof.
  constructor; simpl; try constructor. intros u [].
Qed.

Lemma recipe_objects_create_wf (author : Z) (name text image : string)
  (ctime : Z) :
  hoare wf (recipe_objects_create author name text image ctime)
        (fun r st => wf_with (recipe_id r) st) wf.
Proof.
  intros st H. unfold recipe_objects_create.
  destruct (recipe_name_taken _ _ _ _ || _); [assumption |].
  wf_fields H. split; [constructor |]; simpl; try assumption; try lia.
  - apply Forall_app. split.
    + eapply Forall_impl; [| exact Hrecipes]. simpl. intros; lia.
    + repeat constructor. simpl. lia.
  - eapply Forall_impl; [| exact Htags]. simpl. intros; lia.
  - eapply Forall_impl; [| exact Hri]. simpl. intros; lia.
Qed.

Lemma tags_set_wf (recipe : Z) (tags : list Z) :
  hoare (wf_with recipe) (tags_set recipe tags)
        (fun _ => wf_with recipe) (wf_with recipe).
Proof.
  intros st [H Hlt]. unfold tags_set.
  wf_fields H. split; [constructor |]; simpl; try assumption.
  apply Forall_app. split.
  - now apply Forall_filter_keep.
  - rewrite Forall_forall. intros rt Hrt.
    apply in_map_iff in Hrt as (t & <- & _). exact Hlt.
Qed.

Lemma tags_clear_wf (recipe : Z) :
  hoare (wf_with recipe) (tags_clear recipe)
        (fun _ => wf_with recipe) (wf_with recipe).
Proof.
  intros st [H Hlt]. unfold tags_clear.
  wf_fields H. split; [constructor |]; simpl; try assumption.
  now apply Forall_filter_keep.
Qed.

Lemma ingredients_clear_wf (recipe : Z) :
  hoare (wf_with recipe) (ingredients_clear recipe)
        (fun _ => wf_with recipe) (wf_with recipe).
Proof.
  intros st [H Hlt]. unfold ingredients_clear.
  wf_fields H. split; [constructor |]; simpl; try assumption;
    now apply Forall_filter_keep.
Qed.

Lemma resolve_ingredients_frame (recipe : Z) (ingredients : list (Z * Z))
  (st : State) :
  snd (resolve_ingredients recipe ingredients st) = st
  /\ forall xs, fst (resolve_ingredients recipe ingredients st) = Ok xs ->
                Forall (fun x => un_recipe x = recipe) xs.
Proof.
  induction ingredients as [|ing rest [IH1 IH2]]; simpl.
  - split; [reflexivity |]. intros xs E. inversion E. constructor.
  - unfold bind, get_ingredient.
    destruct (find _ (ingredient_table st)) as [i|]; [| split; [reflexivity | discriminate]].
    destruct (resolve_ingredients recipe rest st) as [[xs | e] st'] eqn:E;
      simpl in *; subst st'.
    + split; [reflexivity |]. intros xs' E'. inversion E'; subst.
      constructor; [reflexivity | now apply IH2].
    + split; [reflexivity | discriminate].
Qed.

Lemma assign_ids_spec (n : Z) (xs : list UnsavedRecipeIngredient) :
  forall ri, In ri (assign_ids n xs) ->
    n <= ri_id ri < n + Z.of_nat (List.length xs)
    /\ exists x, In x xs /\ ri_recipe ri = un_recipe x
                 /\ ri_ingredient ri = un_ingredient x
                 /\ ri_amount ri = un_amount x.
Proof.
  revert n. induction xs as [|x xs IH]; intros n ri Hin; [destruct Hin |].
  cbn [assign_ids List.length] in *. destruct Hin as [<- | Hin].
  - simpl. split; [lia |]. exists x. repeat split. now left.
  - destruct (IH _ _ Hin) as [Hid (x' & Hx' & Hrest)].
    split; [lia |]. exists x'. split; [now right | assumption].
Qed.

Lemma bulk_create_wf (recipe : Z) (xs : list UnsavedRecipeIngredient) :
  Forall (fun x => un_recipe x = recipe) xs ->
  hoare (wf_with recipe) (bulk_create xs)
        (fun _ => wf_with recipe) (wf_with recipe).
Proof.
  intros Hxs st [H Hlt]. unfold bulk_create.
  destruct (ri_batch_ok xs _); [| now split].
  wf_fields H. split; [constructor |]; simpl; try assumption.
  - apply Forall_app. split; [assumption |].
    rewrite Forall_forall. intros ri Hin.
    apply assign_ids_spec in Hin as [_ (x & Hx & E & _)].
    rewrite Forall_forall in Hxs. rewrite E, (Hxs x Hx). exact Hlt.
  - apply Forall_app. split.
    + eapply Forall_impl; [| exact Hri_ids]. simpl. intros; lia.
    + rewrite Forall_forall. intros ri Hin.
      apply assign_ids_spec in Hin as [Hid _]. lia.
Qed.

Lemma create_recipe_ingredient_wf (recipe : Z) (ingredients : list (Z * Z)) :
  hoare (wf_with recipe) (create_recipe_ingredient recipe ingredients)
        (fun _ => wf_with recipe) (wf_with recipe).
Proof.
  intros st H. unfold create_recipe_ingredient, bind.
  destruct (resolve_ingredients_frame recipe ingredients st) as [Hst Hxs].
  destruct (resolve_ingredients recipe ingredients st) as [[xs | e] st'];
    simpl in *; subst st'; [| assumption].
  apply (bulk_create_wf recipe xs (Hxs xs eq_refl) st H).
Qed.

Lemma recipe_save_wf (r : Recipe) :
  hoare (wf_with (recipe_id r)) (recipe_save r)
        (fun _ => wf_with (recipe_id r)) (wf_with (recipe_id r)).
Proof.
  intros st [H Hlt]. unfold recipe_save.
  destruct (recipe_name_taken _ _ _ _ || _); [now split |].
  wf_fields H.
  destruct (find_recipe (recipe_id r) st);
    (split; [constructor |]); simpl; try assumption.
  - rewrite Forall_forall in *. intros r' Hin.
    apply in_map_iff in Hin as (old & <- & Hold).
    destruct (recipe_id old =? recipe_id r); [assumption | now apply Hrecipes].
  - apply Forall_app. split; [assumption | now repeat constructor].
Qed.

Lemma wf_with_wf (recipe : Z) (st : State) : wf_with recipe st -> wf st.
Proof. now intros [H _]. Qed.

Lemma create_wf (author : Z) (vd : ValidatedData) :
  hoare wf (create author vd) (fun _ => wf) wf.
Proof.
  unfold create.
  eapply hoare_bind; [apply recipe_objects_create_wf |]. intros r.
  apply hoare_weaken with (P := wf_with (recipe_id r))
                          (Q := fun _ => wf_with (recipe_id r))
                          (E := wf_with (recipe_id r));
    [| auto | intros ? ?; apply wf_with_wf | apply wf_with_wf].
  eapply hoare_bind; [apply tags_set_wf |]. intros ?.
  eapply hoare_bind; [apply create_recipe_ingredient_wf |]. intros ?.
  now apply hoare_ret.
Qed.

Lemma update_wf (instance : Recipe) (vd : ValidatedData) :
  hoare (wf_with (recipe_id instance)) (update instance vd) (fun _ => wf) wf.
Proof.
  unfold update.
  apply hoare_weaken with (P := wf_with (recipe_id instance))
                          (Q := fun _ => wf_with (recipe_id instance))
                          (E := wf_with (recipe_id instance));
    [| auto | intros ? ?; apply wf_with_wf | apply wf_with_wf].
  eapply hoare_bind; [apply ingredients_clear_wf |]. intros ?.
  eapply hoare_bind; [apply tags_clear_wf |]. intros ?.
  eapply hoare_bind with (Q := fun r st => recipe_id r = recipe_id instance
                                           /\ wf_with (recipe_id instance) st).
  - unfold super_update.
    eapply hoare_bind; [apply (recipe_save_wf (mkRecipe _ _ _ _ _ _)) |].
    intros ?. apply hoare_ret. simpl. auto.
  - intros r st [E H]. revert st H. rewrite E.
    change (hoare (wf_with (recipe_id instance))
              (tags_set (recipe_id instance) (vd_tags vd) ;;;
               create_recipe_ingredient (recipe_id instance)
                 (vd_recipeingredients vd) ;;; ret r)
              (fun _ => wf_with (recipe_id instance))
              (wf_with (recipe_id instance))).
    eapply hoare_bind; [apply tags_set_wf |]. intros ?.
    eapply hoare_bind; [apply create_recipe_ingredient_wf |]. intros ?.
    now apply hoare_ret.
Qed.

Lemma get_recipe_or_404_wf (pk : Z) :
  hoare wf (get_recipe_or_404 pk)
        (fun r st => wf_with (recipe_id r) st /\ recipe_id r = pk) wf.
Proof.
  intros st H. unfold get_recipe_or_404.
  destruct (find_recipe pk st) as [r|] eqn:E; [| assumption].
  apply find_recipe_id in E as [Hid Hin].
  split; [split |]; try assumption.
  destruct H as [Hrecipes _ _ _ _ _ _ _].
  rewrite Forall_forall in Hrecipes. now apply Hrecipes.
Qed.

Lemma recipe_delete_wf (pk : Z) :
  hoare wf (recipe_delete pk) (fun _ => wf) wf.
Proof.
  intros st H. unfold recipe_delete. wf_fields H.
  constructor; simpl; try assumption;
    try (now apply Forall_filter_keep); now apply NoDup_filter.
Qed.

Lemma set_join_table_wf (model : join_model) (t : list (Z * Z)) (st : State) :
  wf st -> NoDup t -> wf (set_join_table model t st).
Proof.
  intros H Hnd. wf_fields H. destruct model; constructor; simpl; assumption.
Qed.

Lemma join_table_wf (model : join_model) (st : State) :
  wf st -> NoDup (join_table model st).
Proof. intros H. wf_fields H. now destruct model. Qed.

Lemma count_pair_zero (p : Z * Z) (t : list (Z * Z)) :
  count_pair p t = O -> ~ In p t.
Proof.
  unfold count_pair. intros H Hin.
  assert (Hf : In p (filter (pair_eqb p) t)).
  { apply filter_In. split; [assumption | now apply pair_eqb_eq]. }
  destruct (filter (pair_eqb p) t); [destruct Hf | discriminate].
Qed.

Lemma recipe_user_action_wf (model : join_model) (method : http_method)
  (user pk : Z) :
  hoare wf (recipe_user_action model method user pk) (fun _ => wf) wf.
Proof.
  intros st H. pose proof (join_table_wf model st H) as Hnd.
  unfold recipe_user_action, create_recipe_user, delete_recipe_user, bind,
    get_recipe_or_404, get_or_create, get_join_or_404, join_delete, ret.
  destruct method; destruct (find_recipe pk st) as [r|]; try assumption.
  - destruct (count_pair (user, recipe_id r) (join_table model st))
      as [|[|n]] eqn:Ec; simpl; try assumption.
    apply set_join_table_wf; [assumption |].
    apply NoDup_snoc; [assumption | now apply count_pair_zero].
  - destruct (count_pair (user, recipe_id r) (join_table model st))
      as [|[|n]] eqn:Ec; simpl; try assumption.
    apply set_join_table_wf; [assumption | now apply NoDup_filter].
Qed.

Lemma subscription_create_wf (user author : Z) :
  hoare wf (subscription_create user author) (fun _ => wf) wf.
Proof.
  intros st H. unfold subscription_create.
  destruct (mem_pair (user, author) (subscription_table st)) eqn:Hm;
    [assumption |].
  destruct (user =? author) eqn:Hs; [assumption |].
  simpl. apply mem_pair_not_In in Hm. apply Z.eqb_neq in Hs.
  wf_fields H. constructor; simpl; try assumption.
  - now apply NoDup_snoc.
  - intros u Hin. apply in_app_iff in Hin as [Hin | [E | []]].
    + now apply (Hself u).
    + inversion E. congruence.
Qed.

Lemma subscribe_wf (method : http_method) (user pk : Z) :
  hoare wf (subscribe method user pk) (fun _ => wf) wf.
Proof.
  intros st H. unfold subscribe, bind, get_user_or_404, get_state.
  destruct (memZ pk (user_table st)); [| assumption].
  destruct method.
  - destruct (mem_pair (user, pk) (subscription_table st)) eqn:Hm;
      [assumption |].
    destruct (pk =? user) eqn:Hs; [assumption |].
    unfold subscription_create, ret. rewrite Hm, (Z.eqb_sym user pk), Hs.
    simpl. apply mem_pair_not_In in Hm. apply Z.eqb_neq in Hs.
    wf_fields H. constructor; simpl; try assumption.
    + now apply NoDup_snoc.
    + intros u Hin. apply in_app_iff in Hin as [Hin | [E | []]].
      * now apply (Hself u).
      * inversion E. congruence.
  - destruct (mem_pair (user, pk) (subscription_table st)); simpl;
      [| assumption].
    wf_fields H. constructor; simpl; try assumption.
    + now apply NoDup_filter.
    + intros u Hin. apply filter_In in Hin as [Hin _]. now apply (Hself u).
Qed.

Lemma void_wf {A : Type} (P : State -> Prop) (m : M A) :
  hoare P m (fun _ => wf) wf -> hoare P (void m) (fun _ => wf) wf.
Proof.
  intros H. unfold void. eapply hoare_bind; [exact H |].
  intros ?. now apply hoare_ret.
Qed.

Lemma serve_wf (req : request) : hoare wf (serve req) (fun _ => wf) wf.
Proof.
  destruct req as [user | i | user vd | user pk vd | user pk
                  | method user pk | method user pk | method user pk
                  | user author];
    cbn [serve].
  - intros st H. destruct (memZ user (user_table st)); [assumption |].
    wf_fields H. constructor; assumption.
  - intros st H. destruct (existsb _ (ingredient_table st)); [assumption |].
    wf_fields H. constructor; assumption.
  - intros st H. destruct (memZ user (user_table st)); [| assumption].
    apply (void_wf wf (create user vd) (create_wf user vd) st H).
  - eapply hoare_bind; [apply get_recipe_or_404_wf |]. intros r.
    destruct (is_author r user).
    + apply void_wf. eapply hoare_weaken; [apply update_wf | | |]; auto.
      now intros st [H _].
    + apply hoare_raise. now intros st [[H _] _].
  - eapply hoare_bind; [apply get_recipe_or_404_wf |]. intros r.
    destruct (is_author r user).
    + eapply hoare_weaken; [apply recipe_delete_wf | | |]; auto.
      now intros st [[H _] _].
    + apply hoare_raise. now intros st [[H _] _].
  - intros st H. destruct (memZ user (user_table st)); [| assumption].
    apply (void_wf wf _ (recipe_user_action_wf Favorite method user pk) st H).
  - intros st H. destruct (memZ user (user_table st)); [| assumption].
    apply (void_wf wf _ (recipe_user_action_wf ShoppingCart method user pk) st H).
  - intros st H. destruct (memZ user (user_table st)); [| assumption].
    apply (void_wf wf _ (subscribe_wf method user pk) st H).
  - intros st H. destruct (memZ user (user_table st) && memZ author (user_table st));
      [| assumption].
    apply (subscription_create_wf user author st H).
Qed.

(** Every state the service can get into is well formed. *)
Lemma reachable_wf (st : State) : reachable st -> wf st.
Proof.
  induction 1 as [| st req _ IH]; [apply wf_empty |].
  unfold after. pose proof (serve_wf req st IH) as H.
  destruct (serve req st) as [[[] | e] st']; exact H.
Qed.

(** C9.  In every state the service can get into, a registered user who
    asks to subscribe to themselves is answered [SelfSubscription] and the
    state stays as it is, whatever else the state holds; no such state
    holds a subscription of a user to themselves; and the store itself
    refuses such a row ([Subscription.Meta.constraints]). *)
Theorem no_self_subscription :
  forall (st : State),
    reachable st ->
    (forall user, In user (user_table st) ->
                  subscribe POST user user st = (SelfSubscription, st))
    /\ (forall user, ~ In (user, user) (subscription_table st))
    /\ (forall user, subscription_create user user st = (Raise IntegrityError, st)).
Proof.
  intros st Hreach. pose proof (reachable_wf st Hreach) as H.
  destruct H as [_ _ _ _ _ _ _ Hself].
  split; [| split; [exact Hself |]];
    [| intros user; unfold subscription_create;
       now rewrite Z.eqb_refl, orb_true_r].
  intros user Hu. rewrite (subscribe_unfold POST st user user Hu).
  pose proof (Hself user) as Hn. apply mem_pair_not_In in Hn.
  now rewrite Hn, Z.eqb_refl.
Qed.

Lemma no_self_subscription_witness :
  subscribe POST 1 1 (after (ReqRegister 1) empty_state)
  = (SelfSubscription, after (ReqRegister 1) empty_state).
Proof.
  refine (proj1 (no_self_subscription (after (ReqRegister 1) empty_state) _) 1 _).
  - apply reach_after. apply reach_empty.
  - simpl. now left.
Defined.

(** ** The composer: running [create] and [update] *)

Lemma resolve_ingredients_known (recipe : Z) (ingredients : list (Z * Z))
  (st : State) :
  forallb (fun ing => catalog_has st (fst ing)) ingredients = true ->
  resolve_ingredients recipe ingredients st
  = (Ok (unsaved_rows recipe ingredients), st).
Proof.
  induction ingredients as [|ing rest IH]; intros H; [reflexivity |].
  cbn [forallb] in H. apply andb_true_iff in H as [H1 H2].
  cbn [resolve_ingredients]. unfold bind, get_ingredient.
  unfold catalog_has in H1.
  destruct (find (fun i => ingredient_id i =? fst ing) (ingredient_table st))
    as [i|] eqn:E.
  - rewrite (IH H2). apply find_some in E as [_ E]. apply Z.eqb_eq in E.
    unfold ret, unsaved_rows. cbn [map]. now rewrite E.
  - exfalso. apply existsb_exists in H1 as (i & Hi & Hi').
    pose proof (find_none _ _ E i Hi) as Hn. cbv beta in Hn. congruence.
Qed.

Lemma resolve_ingredients_unknown (recipe : Z) (ingredients : list (Z * Z))
  (st : State) :
  forallb (fun ing => catalog_has st (fst ing)) ingredients = false ->
  resolve_ingredients recipe ingredients st = (Raise DoesNotExist, st).
Proof.
  induction ingredients as [|ing rest IH]; intros H; [discriminate |].
  cbn [forallb] in H. cbn [resolve_ingredients]. unfold bind, get_ingredient.
  destruct (find (fun i => ingredient_id i =? fst ing) (ingredient_table st))
    as [i|] eqn:E; [| reflexivity].
  assert (H1 : catalog_has st (fst ing) = true).
  { unfold catalog_has. apply existsb_exists. exists i.
    apply find_some in E. exact E. }
  rewrite H1 in H. simpl in H. now rewrite (IH H).
Qed.

Lemma create_recipe_ingredient_run (recipe : Z) (ingredients : list (Z * Z))
  (st : State) :
  create_recipe_ingredient recipe ingredients st
  = if forallb (fun ing => catalog_has st (fst ing)) ingredients
    then
      if ri_batch_ok (unsaved_rows recipe ingredients) (existing_pairs st)
      then (Ok tt,
            set_recipeingredients
              (recipeingredients st
               ++ assign_ids (next_ri_id st) (unsaved_rows recipe ingredients))%list
              (next_ri_id st + Z.of_nat (List.length ingredients)) st)
      else (Raise IntegrityError, st)
    else (Raise DoesNotExist, st).
Proof.
  unfold create_recipe_ingredient, bind.
  destruct (forallb _ ingredients) eqn:E.
  - rewrite (resolve_ingredients_known _ _ _ E). unfold bulk_create.
    fold (existing_pairs st). unfold unsaved_rows at 3. now rewrite length_map.
  - now rewrite (resolve_ingredients_unknown _ _ _ E).
Qed.


Lemma assign_ids_read (recipe n : Z) (ingredients : list (Z * Z)) :
  map (fun ri => (ri_ingredient ri, ri_amount ri))
      (filter (fun ri => ri_recipe ri =? recipe)
              (assign_ids n (unsaved_rows recipe ingredients)))
  = ingredients.
Proof.
  revert n. induction ingredients as [|[i a] rest IH]; intros n; [reflexivity |].
  cbn [unsaved_rows map assign_ids filter]. fold (unsaved_rows recipe rest).
  cbn [ri_recipe un_recipe]. rewrite Z.eqb_refl.
  cbn [map ri_ingredient ri_amount un_ingredient un_amount fst snd].
  now rewrite IH.
Qed.

Lemma filter_none {A : Type} (f : A -> bool) (l : list A) :
  (forall x, In x l -> f x = false) -> filter f l = [].
Proof.
  induction l as [|x l IH]; intros H; [reflexivity |].
  simpl. rewrite (H x (or_introl eq_refl)). apply IH.
  intros y Hy. apply H. now right.
Qed.

Lemma filter_all {A : Type} (f : A -> bool) (l : list A) :
  (forall x, In x l -> f x = true) -> filter f l = l.
Proof.
  induction l as [|x l IH]; intros H; [reflexivity |].
  simpl. rewrite (H x (or_introl eq_refl)). f_equal. apply IH.
  intros y Hy. apply H. now right.
Qed.

Lemma dedup_In (x : Z) (l : list Z) : In x (dedup l) <-> In x l.
Proof.
  induction l as [|y l IH]; [reflexivity |].
  simpl. destruct (memZ y l) eqn:E.
  - rewrite IH. split; [now right |]. intros [<- | H]; [| assumption].
    now apply memZ_In.
  - simpl. now rewrite IH.
Qed.

Lemma tags_set_fresh (recipe : Z) (tags : list Z) (st : State) :
  (forall rt, In rt (recipe_tags st) -> fst rt <> recipe) ->
  tags_set recipe tags st
  = (Ok tt,
     set_recipe_tags
       (recipe_tags st ++ map (fun t => (recipe, t)) (dedup tags))%list st).
Proof.
  intros H. unfold tags_set.
  assert (Hkept : filter (fun rt => negb (fst rt =? recipe) || memZ (snd rt) tags)
                         (recipe_tags st) = recipe_tags st).
  { apply filter_all. intros rt Hrt.
    apply orb_true_iff. left. apply negb_true_iff, Z.eqb_neq. now apply H. }
  rewrite Hkept.
  rewrite (filter_all (fun t => negb (mem_pair (recipe, t) (recipe_tags st)))).
  - reflexivity.
  - intros t _. apply negb_true_iff, mem_pair_not_In.
    intros Hin. now apply (H _ Hin).
Qed.

Lemma create_run (author : Z) (vd : ValidatedData) (st : State) :
  wf st ->
  create author vd st
  = if recipe_name_taken (next_recipe_id st) author (vd_name vd) st
       || (vd_cooking_time vd <? 0)
    then (Raise IntegrityError, st)
    else if forallb (fun ing => catalog_has st (fst ing)) (vd_recipeingredients vd)
    then
      if ri_batch_ok (unsaved_rows (next_recipe_id st) (vd_recipeingredients vd))
                     (existing_pairs st)
      then (Ok (new_recipe author vd st),
            with_ingredients (next_recipe_id st) (vd_recipeingredients vd)
              (with_recipe_and_tags author vd st))
      else (Raise IntegrityError, with_recipe_and_tags author vd st)
    else (Raise DoesNotExist, with_recipe_and_tags author vd st).
Proof.
  intros H. unfold create, bind at 1, recipe_objects_create.
  destruct (recipe_name_taken _ _ _ _ || _); [reflexivity |].
  fold (new_recipe author vd st). cbn [recipe_id new_recipe].
  unfold bind at 1.
  rewrite tags_set_fresh.
  - change (set_recipe_tags _ _) with (with_recipe_and_tags author vd st).
    unfold bind. rewrite create_recipe_ingredient_run.
    change (catalog_has (with_recipe_and_tags author vd st))
      with (catalog_has st).
    change (existing_pairs (with_recipe_and_tags author vd st))
      with (existing_pairs st).
    destruct (forallb _ (vd_recipeingredients vd)); [| reflexivity].
    destruct (ri_batch_ok _ _); reflexivity.
  - simpl. intros rt Hrt. destruct H as [_ Htags _ _ _ _ _ _].
    rewrite Forall_forall in Htags. specialize (Htags rt Hrt). lia.
Qed.

Lemma find_recipe_In (r : Recipe) (st : State) :
  In r (recipe_table st) -> exists r', find_recipe (recipe_id r) st = Some r'.
Proof.
  intros H. unfold find_recipe.
  destruct (find (fun r' => recipe_id r' =? recipe_id r) (recipe_table st))
    as [r'|] eqn:E; [eauto |].
  pose proof (find_none _ _ E r H) as Hn. cbv beta in Hn.
  rewrite Z.eqb_refl in Hn. discriminate.
Qed.

Lemma update_run (instance : Recipe) (vd : ValidatedData) (st : State) :
  In instance (recipe_table st) ->
  update instance vd st
  = if recipe_name_taken (recipe_id instance) (recipe_author instance)
         (vd_name vd) st
       || (vd_cooking_time vd <? 0)
    then (Raise IntegrityError, without_associations (recipe_id instance) st)
    else if forallb (fun ing => catalog_has st (fst ing)) (vd_recipeingredients vd)
    then
      if ri_batch_ok (unsaved_rows (recipe_id instance) (vd_recipeingredients vd))
                     (existing_pairs (without_associations (recipe_id instance) st))
      then (Ok (updated_recipe instance vd),
            with_ingredients (recipe_id instance) (vd_recipeingredients vd)
              (with_saved_recipe instance vd st))
      else (Raise IntegrityError, with_saved_recipe instance vd st)
    else (Raise DoesNotExist, with_saved_recipe instance vd st).
Proof.
  intros Hin. destruct (find_recipe_In instance st Hin) as [r' Hfind].
  unfold update, bind at 1, ingredients_clear.
  unfold bind at 1, tags_clear. cbn [recipe_tags set_recipeingredients].
  change (set_recipe_tags _ _) with (without_associations (recipe_id instance) st).
  unfold bind at 1, super_update. fold (updated_recipe instance vd).
  unfold bind at 1, recipe_save.
  cbn [recipe_id recipe_author recipe_name cooking_time updated_recipe].
  change (recipe_name_taken (recipe_id instance) (recipe_author instance)
            (vd_name vd) (without_associations (recipe_id instance) st))
    with (recipe_name_taken (recipe_id instance) (recipe_author instance)
            (vd_name vd) st).
  destruct (recipe_name_taken _ _ _ _ || _); [reflexivity |].
  change (find_recipe (recipe_id instance)
            (without_associations (recipe_id instance) st))
    with (find_recipe (recipe_id instance) st).
  rewrite Hfind. unfold ret at 1. unfold bind at 1.
  rewrite tags_set_fresh.
  - change (set_recipe_tags _ _) with (with_saved_recipe instance vd st).
    unfold bind. rewrite create_recipe_ingredient_run.
    change (catalog_has (with_saved_recipe instance vd st)) with (catalog_has st).
    change (existing_pairs (with_saved_recipe instance vd st))
      with (existing_pairs (without_associations (recipe_id instance) st)).
    destruct (forallb _ (vd_recipeingredients vd)); [| reflexivity].
    destruct (ri_batch_ok _ _); reflexivity.
  - simpl. intros rt Hrt. apply filter_In in Hrt as [_ Hrt].
    apply negb_true_iff, Z.eqb_neq in Hrt. exact Hrt.
Qed.

(** ** The composer: reading back *)

Lemma read_ingredients_with (recipe : Z) (ingredients : list (Z * Z))
  (st : State) :
  (forall ri, In ri (recipeingredients st) -> ri_recipe ri <> recipe) ->
  read_ingredients recipe (with_ingredients recipe ingredients st)
  = rev ingredients.
Proof.
  intros H. unfold read_ingredients, with_ingredients. simpl.
  rewrite filter_app, map_app, assign_ids_read.
  rewrite (filter_none (fun ri => ri_recipe ri =? recipe) (recipeingredients st)).
  - reflexivity.
  - intros ri Hri. apply Z.eqb_neq. now apply H.
Qed.

Lemma read_ingredients_none (recipe : Z) (st : State) :
  (forall ri, In ri (recipeingredients st) -> ri_recipe ri <> recipe) ->
  read_ingredients recipe st = [].
Proof.
  intros H. unfold read_ingredients. rewrite filter_none; [reflexivity |].
  intros ri Hri. apply Z.eqb_neq. now apply H.
Qed.

Lemma read_tags_appended (recipe : Z) (tags : list Z) (old : list (Z * Z)) :
  (forall rt, In rt old -> fst rt <> recipe) ->
  map snd (filter (fun rt => fst rt =? recipe)
                  (old ++ map (fun t => (recipe, t)) tags))
  = tags.
Proof.
  intros H. rewrite filter_app, (filter_none _ old).
  - simpl. induction tags as [|t tags IH]; [reflexivity |].
    simpl. rewrite Z.eqb_refl. simpl. now rewrite IH.
  - intros rt Hrt. apply Z.eqb_neq. now apply H.
Qed.

Lemma wf_fresh_recipe (st : State) :
  wf st ->
  (forall ri, In ri (recipeingredients st) -> ri_recipe ri <> next_recipe_id st)
  /\ (forall rt, In rt (recipe_tags st) -> fst rt <> next_recipe_id st).
Proof.
  intros H. wf_fields H. rewrite Forall_forall in Htags, Hri. split.
  - intros ri Hin. specialize (Hri ri Hin). lia.
  - intros rt Hin. specialize (Htags rt Hin). lia.
Qed.

Lemma cleared_recipe (recipe : Z) (st : State) :
  (forall ri,
      In ri (filter (fun ri => negb (ri_recipe ri =? recipe)) (recipeingredients st)) ->
      ri_recipe ri <> recipe)
  /\ (forall rt,
         In rt (filter (fun rt => negb (fst rt =? recipe)) (recipe_tags st)) ->
         fst rt <> recipe).
Proof.
  split; intros x Hx; apply filter_In in Hx as [_ Hx];
    now apply negb_true_iff, Z.eqb_neq in Hx.
Qed.



(** C2, as stated, fails: with an ingredient key the catalog does not
    hold, [create] raises and leaves the recipe row behind. *)
Lemma create_not_atomic :
  ~ (forall (st : State) (author : Z) (vd : ValidatedData) (e : exn)
            (st' : State),
        create author vd st = (Raise e, st') -> st' = st).
Proof.
  intros H.
  specialize (H bare_state 1 (soup_fields [(1, 2)]) DoesNotExist
                (snd (create 1 (soup_fields [(1, 2)]) bare_state)) eq_refl).
  apply (f_equal recipe_table) in H. discriminate H.
Qed.

(** C2, amended.  [create] and [update] open no transaction; each call to
    the store is committed as it is made.  [create]: when the store
    rejects the recipe row nothing is written and the state is as before;
    when an ingredient key is not in the catalog ([DoesNotExist]) or the
    bulk insert is rejected ([IntegrityError]) the recipe row and its tags
    stay, with no ingredient rows; otherwise the row, its tags and all
    ingredient rows are there.  [update]: the old ingredient rows and tags
    of the recipe are deleted first and stay deleted whatever follows; when
    the store rejects the saved row nothing else has changed; on
    [DoesNotExist] or a rejected bulk insert the row is saved with the new
    tags and no ingredient rows; otherwise the new tags and all new
    ingredient rows are there. *)
Theorem create_update_outcomes :
  forall (st : State) (vd : ValidatedData),
    wf st ->
    (forall author,
        let pk := next_recipe_id st in
        let rejected :=
          recipe_name_taken pk author (vd_name vd) st || (vd_cooking_time vd <? 0) in
        let known :=
          forallb (fun ing => catalog_has st (fst ing)) (vd_recipeingredients vd) in
        let fits :=
          ri_batch_ok (unsaved_rows pk (vd_recipeingredients vd)) (existing_pairs st) in
        let partial := with_recipe_and_tags author vd st in
        let complete := with_ingredients pk (vd_recipeingredients vd) partial in
        (rejected = true -> create author vd st = (Raise IntegrityError, st))
        /\ (rejected = false -> known = false ->
            create author vd st = (Raise DoesNotExist, partial))
        /\ (rejected = false -> known = true -> fits = false ->
            create author vd st = (Raise IntegrityError, partial))
        /\ (rejected = false -> known = true -> fits = true ->
            create author vd st = (Ok (new_recipe author vd st), complete))
        /\ (In (new_recipe author vd st) (recipe_table partial)
            /\ read_tags pk partial = dedup (vd_tags vd)
            /\ read_ingredients pk partial = []
            /\ partial <> st)
        /\ (In (new_recipe author vd st) (recipe_table complete)
            /\ read_tags pk complete = dedup (vd_tags vd)
            /\ read_ingredients pk complete = rev (vd_recipeingredients vd)))
    /\
    (forall instance,
        In instance (recipe_table st) ->
        let pk := recipe_id instance in
        let rejected :=
          recipe_name_taken pk (recipe_author instance) (vd_name vd) st
          || (vd_cooking_time vd <? 0) in
        let known :=
          forallb (fun ing => catalog_has st (fst ing)) (vd_recipeingredients vd) in
        let cleared := without_associations pk st in
        let fits :=
          ri_batch_ok (unsaved_rows pk (vd_recipeingredients vd))
                      (existing_pairs cleared) in
        let partial := with_saved_recipe instance vd st in
        let complete := with_ingredients pk (vd_recipeingredients vd) partial in
        (rejected = true -> update instance vd st = (Raise IntegrityError, cleared))
        /\ (rejected = false -> known = false ->
            update instance vd st = (Raise DoesNotExist, partial))
        /\ (rejected = false -> known = true -> fits = false ->
            update instance vd st = (Raise IntegrityError, partial))
        /\ (rejected = false -> known = true -> fits = true ->
            update instance vd st = (Ok (updated_recipe instance vd), complete))
        /\ (recipe_table cleared = recipe_table st
            /\ read_tags pk cleared = []
            /\ read_ingredients pk cleared = [])
        /\ (In (updated_recipe instance vd) (recipe_table partial)
            /\ read_tags pk partial = dedup (vd_tags vd)
            /\ read_ingredients pk partial = [])
        /\ (In (updated_recipe instance vd) (recipe_table complete)
            /\ read_tags pk complete = dedup (vd_tags vd)
            /\ read_ingredients pk complete = rev (vd_recipeingredients vd))).
Proof.
  intros st vd Hwf. split.
  - intros author pk rejected known fits partial complete.
    pose proof (create_run author vd st Hwf) as Hrun.
    fold pk rejected known fits partial complete in Hrun.
    destruct (wf_fresh_recipe st Hwf) as [Hri Htags].
    split; [| split; [| split; [| split; [| split]]]].
    + intros E. now rewrite Hrun, E.
    + intros E1 E2. now rewrite Hrun, E1, E2.
    + intros E1 E2 E3. now rewrite Hrun, E1, E2, E3.
    + intros E1 E2 E3. now rewrite Hrun, E1, E2, E3.
    + split; [| split; [| split]].
      * simpl. apply in_app_iff. right. now left.
      * unfold read_tags. simpl. now apply read_tags_appended.
      * now apply read_ingredients_none.
      * intros E. apply (f_equal next_recipe_id) in E. simpl in E. lia.
    + split; [| split].
      * simpl. apply in_app_iff. right. now left.
      * unfold read_tags. simpl. now apply read_tags_appended.
      * now apply read_ingredients_with.
  - intros instance Hin pk rejected known cleared fits partial complete.
    pose proof (update_run instance vd st Hin) as Hrun.
    fold pk rejected known cleared fits partial complete in Hrun.
    destruct (cleared_recipe pk st) as [Hri Htags].
    assert (Hrow : In (updated_recipe instance vd)
                      (map (fun r' => if recipe_id r' =? recipe_id instance
                                      then updated_recipe instance vd else r')
                           (recipe_table st))).
    { apply in_map_iff. exists instance. now rewrite Z.eqb_refl. }
    split; [| split; [| split; [| split; [| split; [| split]]]]].
    + intros E. now rewrite Hrun, E.
    + intros E1 E2. now rewrite Hrun, E1, E2.
    + intros E1 E2 E3. now rewrite Hrun, E1, E2, E3.
    + intros E1 E2 E3. now rewrite Hrun, E1, E2, E3.
    + split; [reflexivity | split].
      * unfold read_tags. simpl. rewrite filter_none; [reflexivity |].
        intros rt Hrt. apply Z.eqb_neq. now apply Htags.
      * now apply read_ingredients_none.
    + split; [exact Hrow | split].
      * unfold read_tags. simpl. now apply read_tags_appended.
      * now apply read_ingredients_none.
    + split; [exact Hrow | split].
      * unfold read_tags. simpl. now apply read_tags_appended.
      * now apply read_ingredients_with.
Qed.

Lemma bare_state_reachable : reachable bare_state.
Proof. exact (reach_after empty_state (ReqRegister 1) reach_empty). Defined.

Lemma pantry_state_reachable : reachable pantry_state.
Proof.
  exact (reach_after _ (ReqCatalog (mkIngredient 2 "B" "g"))
           (reach_after _ (ReqCatalog (mkIngredient 1 "A" "g"))
              bare_state_reachable)).
Defined.

Lemma create_update_outcomes_witness :
  create 1 (soup_fields [(1, 2)]) bare_state
  = (Raise DoesNotExist, with_recipe_and_tags 1 (soup_fields [(1, 2)]) bare_state)
  /\ with_recipe_and_tags 1 (soup_fields [(1, 2)]) bare_state <> bare_state.
Proof.
  pose proof (proj1 (create_update_outcomes bare_state (soup_fields [(1, 2)])
                       (reachable_wf _ bare_state_reachable)) 1) as H.
  cbv zeta in H. split.
  - apply (proj1 (proj2 H)); reflexivity.
  - apply (proj2 (proj2 (proj2 (proj1 (proj2 (proj2 (proj2 (proj2 H)))))))).
Defined.



(** ** User names *)

Lemma ascii_lower_m (c : ascii) :
  ascii_lower c = "m"%char -> c = "m"%char \/ c = "M"%char.
Proof.
  destruct c as [[] [] [] [] [] [] [] []]; vm_compute; intros H;
    try discriminate H; auto.
Qed.

Lemma ascii_lower_e (c : ascii) :
  ascii_lower c = "e"%char -> c = "e"%char \/ c = "E"%char.
Proof.
  destruct c as [[] [] [] [] [] [] [] []]; vm_compute; intros H;
    try discriminate H; auto.
Qed.

Lemma lower_me (v : string) :
  lower v = "me" <-> v = "me" \/ v = "Me" \/ v = "mE" \/ v = "ME".
Proof.
  split.
  - destruct v as [|c1 [|c2 [|c3 v]]]; simpl; intros H; try discriminate H.
    inversion H as [[H1 H2]].
    destruct (ascii_lower_m c1 H1) as [-> | ->],
             (ascii_lower_e c2 H2) as [-> | ->]; auto.
  - intros [-> | [-> | [-> | ->]]]; reflexivity.
Qed.

(** [validate_username] turns away the name "me" in each of its four
    spellings and nothing else; every other name comes back unchanged. *)
Theorem validate_username_only_me :
  forall (value : string),
    (validate_username value = Raise me_not_allowed
     <-> value = "me" \/ value = "Me" \/ value = "mE" \/ value = "ME")
    /\ (validate_username value = Ok value
        <-> ~ (value = "me" \/ value = "Me" \/ value = "mE" \/ value = "ME")).
Proof.
  intros value. unfold validate_username. rewrite <- lower_me.
  destruct (String.eqb_spec (lower value) "me") as [E | E]; split; split;
    intros H; try discriminate H; try reflexivity; try assumption;
    try contradiction; try (intros H'; contradiction).
Qed.

(** ** Flags and toggles *)

Lemma join_table_set (model : join_model) (t : list (Z * Z)) (st : State) :
  join_table model (set_join_table model t st) = t
  /\ join_table (other_model model) (set_join_table model t st)
     = join_table (other_model model) st.
Proof. now destruct model. Qed.

Lemma exists_pair_In (recipe user : Z) (t : list (Z * Z)) :
  existsb (fun p => (snd p =? recipe) && (fst p =? user)) t = true
  <-> In (user, recipe) t.
Proof.
  rewrite existsb_exists. split.
  - intros ([a b] & Hin & H). simpl in H.
    apply andb_true_iff in H as [H1 H2]. apply Z.eqb_eq in H1, H2. now subst.
  - intros H. exists (user, recipe). simpl. now rewrite !Z.eqb_refl.
Qed.

Lemma get_flag_In (model : join_model) (user pk : Z) (st : State) :
  get_flag model (Some (AuthUser user)) pk st = true
  <-> In (user, pk) (join_table model st).
Proof. destruct model; apply exists_pair_In. Qed.

Lemma bool_eq_iff (a b : bool) : (a = true <-> b = true) -> a = b.
Proof. destruct a, b; intros [H1 H2]; auto; symmetry; auto. Qed.

Lemma get_flag_table (model : join_model) (x : option request_user) (pk : Z)
  (st st' : State) :
  join_table model st' = join_table model st ->
  get_flag model x pk st' = get_flag model x pk st.
Proof.
  intros E. destruct x as [[|u]|]; try (now destruct model).
  apply bool_eq_iff. now rewrite !get_flag_In, E.
Qed.

(** After a POST to [favorite] or [shopping_cart] for an existing recipe
    the flag the serializer shows to that user for that recipe is set,
    after a DELETE it is not, whatever the answer was; the flags of every
    other user and recipe, the flag of the other kind, and what an
    anonymous reader sees (never set) stay as they were.  The table is
    assumed to satisfy its uniqueness constraint. *)
Theorem toggle_sets_flag :
  forall (model : join_model) (method : http_method) (user pk : Z)
         (st : State) (r : Recipe),
    NoDup (join_table model st) ->
    find_recipe pk st = Some r ->
    get_flag model (Some (AuthUser user)) pk
             (snd (recipe_user_action model method user pk st))
    = match method with POST => true | DELETE => false end
    /\ (forall user' pk',
           (user', pk') <> (user, pk) ->
           get_flag model (Some (AuthUser user')) pk'
                    (snd (recipe_user_action model method user pk st))
           = get_flag model (Some (AuthUser user')) pk' st)
    /\ (forall x pk',
           get_flag (other_model model) x pk'
                    (snd (recipe_user_action model method user pk st))
           = get_flag (other_model model) x pk' st)
    /\ (forall pk' st0, get_flag model (Some AnonymousUser) pk' st0 = false).
Proof.
  intros model method user pk st r Hnd Hr.
  assert (Hanon : forall pk' st0, get_flag model (Some AnonymousUser) pk' st0 = false)
    by (intros; now destruct model).
  destruct (mem_pair (user, pk) (join_table model st)) eqn:Hm;
    [apply mem_pair_In in Hm as Hin | apply mem_pair_not_In in Hm as Habs];
    destruct method.
  - rewrite (create_recipe_user_present model st user pk r Hnd Hr Hin).
    cbn [snd]. repeat split; auto. now apply get_flag_In.
  - rewrite (delete_recipe_user_present model st user pk r Hnd Hr Hin).
    cbn [snd].
    destruct (join_table_set model
                (filter (fun p => negb (pair_eqb (user, pk) p)) (join_table model st))
                st) as [E1 E2].
    repeat split; auto.
    + destruct (get_flag model (Some (AuthUser user)) pk _) eqn:F; [| reflexivity].
      apply get_flag_In in F. rewrite E1 in F.
      apply remove_pair_In in F as [_ F]. now contradiction F.
    + intros user' pk' Hne. apply bool_eq_iff.
      rewrite !get_flag_In, E1, remove_pair_In. tauto.
    + intros x pk'. now apply get_flag_table.
  - rewrite (create_recipe_user_absent model st user pk r Hr Habs).
    cbn [snd].
    destruct (join_table_set model (join_table model st ++ [(user, pk)])%list st)
      as [E1 E2].
    repeat split; auto.
    + apply get_flag_In. rewrite E1, in_app_iff. right. now left.
    + intros user' pk' Hne. apply bool_eq_iff.
      rewrite !get_flag_In, E1, in_app_iff. split; [| tauto].
      intros [H | [H | []]]; [assumption |]. now contradiction Hne.
    + intros x pk'. now apply get_flag_table.
  - rewrite (delete_recipe_user_absent model st user pk r Hr Habs).
    cbn [snd]. repeat split; auto.
    destruct (get_flag model (Some (AuthUser user)) pk st) eqn:F; [| reflexivity].
    apply get_flag_In in F. contradiction.
Qed.

Lemma toggle_sets_flag_witness :
  get_is_favorited (Some (AuthUser 1)) 1
    (snd (recipe_user_action Favorite POST 1 1 salt_state)) = true
  /\ get_is_favorited (Some (AuthUser 1)) 1 salt_state = false.
Proof.
  split; [| reflexivity].
  refine (proj1 (toggle_sets_flag Favorite POST 1 1 salt_state
                   (mkRecipe 1 1 "Soup" "Boil." "soup.png" 10) _ _)).
  - constructor.
  - reflexivity.
Defined.

Lemma get_is_subscribed_In (user author : Z) (st : State) :
  get_is_subscribed (Some (AuthUser user)) author st = true
  <-> In (user, author) (subscription_table st).
Proof. apply exists_pair_In. Qed.

(** After a DELETE to [subscribe] for an existing author the asking user
    is shown as not subscribed to that author, after a POST for an author
    other than themselves as subscribed, whatever the answer was; what is
    shown for every other pair of user and author stays as it was. *)
Theorem subscribe_sets_flag :
  forall (user author : Z) (st : State),
    In author (user_table st) ->
    get_is_subscribed (Some (AuthUser user)) author
                      (snd (subscribe DELETE user author st)) = false
    /\ (author <> user ->
        get_is_subscribed (Some (AuthUser user)) author
                          (snd (subscribe POST user author st)) = true)
    /\ (forall method user' author',
           (user', author') <> (user, author) ->
           get_is_subscribed (Some (AuthUser user')) author'
                             (snd (subscribe method user author st))
           = get_is_subscribed (Some (AuthUser user')) author' st).
Proof.
  intros user author st Hu. split; [| split].
  - rewrite (subscribe_unfold DELETE st user author Hu).
    destruct (mem_pair (user, author) (subscription_table st)) eqn:Hm; cbn [snd].
    + destruct (get_is_subscribed _ author _) eqn:F; [| reflexivity].
      apply get_is_subscribed_In in F. simpl in F.
      apply remove_pair_In in F as [_ F]. now contradiction F.
    + destruct (get_is_subscribed _ author st) eqn:F; [| reflexivity].
      apply get_is_subscribed_In, mem_pair_In in F. congruence.
  - intros Hne. rewrite (subscribe_unfold POST st user author Hu).
    destruct (mem_pair (user, author) (subscription_table st)) eqn:Hm; cbn [snd].
    + apply get_is_subscribed_In. now apply mem_pair_In.
    + apply Z.eqb_neq in Hne. rewrite Hne. cbn [snd].
      apply get_is_subscribed_In. simpl. rewrite in_app_iff. right. now left.
  - intros method user' author' Hne.
    rewrite (subscribe_unfold method st user author Hu).
    destruct method;
      destruct (mem_pair (user, author) (subscription_table st)); cbn [snd];
      try reflexivity.
    + destruct (author =? user); cbn [snd]; [reflexivity |].
      apply bool_eq_iff. rewrite !get_is_subscribed_In. simpl.
      rewrite in_app_iff. split; [| tauto].
      intros [H | [H | []]]; [assumption |]. symmetry in H. contradiction.
    + apply bool_eq_iff. rewrite !get_is_subscribed_In. simpl.
      rewrite remove_pair_In. tauto.
Qed.

Lemma subscribe_sets_flag_witness :
  get_is_subscribed (Some (AuthUser 2)) 1
    (snd (subscribe DELETE 2 1 salt_state_busy)) = false
  /\ get_is_subscribed (Some (AuthUser 2)) 1 salt_state_busy = true.
Proof.
  split; [| reflexivity].
  refine (proj1 (subscribe_sets_flag 2 1 salt_state_busy _)).
  simpl. now left.
Defined.

(** ** The list of subscriptions *)

Lemma insert_id_perm (x : Z) (l : list Z) : Permutation (insert_id x l) (x :: l).
Proof.
  induction l as [|y l IH]; simpl; [reflexivity |].
  destruct (x <=? y); [reflexivity |]. rewrite IH. apply perm_swap.
Qed.

Lemma order_by_id_perm (l : list Z) : Permutation (order_by_id l) l.
Proof.
  induction l as [|x l IH]; simpl; [reflexivity |].
  rewrite insert_id_perm. now constructor.
Qed.

Lemma insert_id_sorted (x : Z) (l : list Z) :
  ~ In x l -> StronglySorted Z.lt l -> StronglySorted Z.lt (insert_id x l).
Proof.
  intros Hx Hs. induction Hs as [|y l Hs IH Hall]; simpl.
  - repeat constructor.
  - assert (Hxy : x <> y) by (intros ->; apply Hx; now left).
    destruct (Z.leb_spec x y).
    + constructor; [now constructor |].
      constructor; [lia |].
      eapply Forall_impl; [| exact Hall]. simpl. intros; lia.
    + constructor.
      * apply IH. intros H'. apply Hx. now right.
      * rewrite Forall_forall in *. intros z Hz.
        apply (Permutation_in _ (insert_id_perm x l)) in Hz.
        destruct Hz as [<- | Hz]; [lia | now apply Hall].
Qed.

Lemma order_by_id_sorted (l : list Z) :
  NoDup l -> StronglySorted Z.lt (order_by_id l).
Proof.
  induction 1 as [|x l Hx Hnd IH]; simpl; [constructor |].
  apply insert_id_sorted; [| assumption].
  intros H. apply Hx. now apply (Permutation_in _ (order_by_id_perm l)).
Qed.

Lemma flat_map_if_filter {A : Type} (f : A -> bool) (l : list A) :
  flat_map (fun a => if f a then [a] else []) l = filter f l.
Proof.
  induction l as [|a l IH]; [reflexivity |].
  simpl. rewrite IH. now destruct (f a).
Qed.

Lemma filter_sorted {A : Type} (R : A -> A -> Prop) (f : A -> bool) (l : list A) :
  StronglySorted R l -> StronglySorted R (filter f l).
Proof.
  induction 1 as [|x l Hs IH Hall]; simpl; [constructor |].
  destruct (f x); [| assumption].
  constructor; [assumption |]. now apply Forall_filter_keep.
Qed.

Lemma subscriptions_queryset_filter (user : Z) (st : State) :
  NoDup (subscription_table st) ->
  subscriptions_queryset user st
  = filter (fun a => mem_pair (user, a) (subscription_table st))
           (order_by_id (user_table st)).
Proof.
  intros Hnd. unfold subscriptions_queryset.
  rewrite <- flat_map_if_filter. apply flat_map_ext. intros a.
  apply (join_cart_unique user a [a] _ Hnd).
Qed.

(** The users listed by [subscriptions] are exactly the registered authors
    the asking user has a subscription to, each once and by ascending key;
    each of them is shown to that user as subscribed; and when no
    subscription of a user to themselves is stored, as in every reachable
    state, the asking user is not in their own list. *)
Theorem subscriptions_lists_followed :
  forall (user : Z) (st : State),
    NoDup (user_table st) ->
    NoDup (subscription_table st) ->
    (forall author,
        In author (subscriptions_queryset user st)
        <-> In author (user_table st) /\ In (user, author) (subscription_table st))
    /\ StronglySorted Z.lt (subscriptions_queryset user st)
    /\ (forall author,
           In author (subscriptions_queryset user st) ->
           get_is_subscribed (Some (AuthUser user)) author st = true)
    /\ ((forall u, ~ In (u, u) (subscription_table st)) ->
        ~ In user (subscriptions_queryset user st)).
Proof.
  intros user st Hu Hs.
  assert (Hin : forall author,
             In author (subscriptions_queryset user st)
             <-> In author (user_table st)
                 /\ In (user, author) (subscription_table st)).
  { intros author. rewrite (subscriptions_queryset_filter user st Hs).
    rewrite filter_In, mem_pair_In. split; intros [H1 H2]; split; try assumption.
    - now apply (Permutation_in _ (order_by_id_perm _)).
    - now apply (Permutation_in _ (Permutation_sym (order_by_id_perm _))). }
  split; [exact Hin | split; [| split]].
  - rewrite (subscriptions_queryset_filter user st Hs).
    apply filter_sorted. now apply order_by_id_sorted.
  - intros author H. apply get_is_subscribed_In. now apply Hin.
  - intros Hself H. apply Hin in H as [_ H]. now apply (Hself user).
Qed.

Lemma subscriptions_lists_followed_witness :
  In 1 (subscriptions_queryset 2 salt_state_busy)
  <-> In 1 (user_table salt_state_busy)
      /\ In (2, 1) (subscription_table salt_state_busy).
Proof.
  refine (proj1 (subscriptions_lists_followed 2 salt_state_busy _ _) 1).
  - simpl. constructor; [intros [H | []]; discriminate H |].
    constructor; [intros [] | constructor].
  - simpl. constructor; [intros [] | constructor].
Defined.

(** ** The recipes of a followed author *)

(** Whatever [recipes_limit] is, the recipes shown for an author are a
    prefix of the author's recipes, so never more than [recipes_count]; a
    limit that reads as [n >= 0] shows the first [n] (the text "0" shows
    none), no limit or an empty one shows all; a limit that is no integer
    or is negative makes the serializer raise. *)
Theorem get_recipes_limited :
  forall (recipes_limit : option string) (recipes : list Recipe),
    (forall l,
        get_recipes recipes_limit recipes = Ok l ->
        (exists k, l = map recipe_list_data (firstn k recipes))
        /\ Z.of_nat (List.length l) <= get_recipes_count recipes)
    /\ (forall s n,
           recipes_limit = Some s -> s <> "" -> int_of_str s = Some n -> 0 <= n ->
           get_recipes recipes_limit recipes
           = Ok (map recipe_list_data (firstn (Z.to_nat n) recipes)))
    /\ get_recipes (Some "0") recipes = Ok []
    /\ get_recipes (Some "") recipes = Ok (map recipe_list_data recipes)
    /\ get_recipes None recipes = Ok (map recipe_list_data recipes)
    /\ (forall e,
           get_recipes recipes_limit recipes = Raise e ->
           exists s, recipes_limit = Some s /\ s <> ""
                     /\ (int_of_str s = None
                         \/ exists n, int_of_str s = Some n /\ n < 0)).
Proof.
  intros recipes_limit recipes.
  assert (Hprefix : forall l,
             get_recipes recipes_limit recipes = Ok l ->
             exists k, l = map recipe_list_data (firstn k recipes)).
  { intros l H. unfold get_recipes in H. destruct recipes_limit as [s|].
    - destruct (String.eqb s ""); simpl in H.
      + inversion H. exists (List.length recipes). now rewrite firstn_all.
      + destruct (int_of_str s) as [n|]; [| discriminate].
        destruct (n <? 0); [discriminate |]. inversion H. eauto.
    - inversion H. exists (List.length recipes). now rewrite firstn_all. }
  split; [| split; [| split; [| split; [| split]]]]; try reflexivity.
  - intros l H. split; [now apply Hprefix |].
    destruct (Hprefix l H) as [k ->]. unfold get_recipes_count.
    rewrite length_map, length_firstn. lia.
  - intros s n -> Hs Hn Hpos. unfold get_recipes.
    apply String.eqb_neq in Hs. rewrite Hs, Hn. simpl.
    replace (n <? 0) with false by (symmetry; apply Z.ltb_ge; lia).
    reflexivity.
  - intros e H. unfold get_recipes in H. destruct recipes_limit as [s|];
      [| discriminate].
    destruct (String.eqb_spec s "") as [-> | Hs]; simpl in H; [discriminate |].
    exists s. repeat split; try assumption.
    destruct (int_of_str s) as [n|]; [| now left].
    right. exists n. split; [reflexivity |].
    destruct (Z.ltb_spec n 0); [assumption | discriminate].
Qed.

Lemma get_recipes_limited_witness :
  get_recipes (Some "1") (recipe_table salt_state)
  = Ok [RecipeListData 1 "Soup" "soup.png" 10].
Proof.
  refine (proj1 (proj2 (get_recipes_limited (Some "1") (recipe_table salt_state)))
            "1" 1 eq_refl _ eq_refl _).
  - discriminate.
  - lia.
Defined.

(** ** The recipe filters *)

Lemma join_pair_unique (A : Type) (user recipe : Z) (L : list A)
  (t : list (Z * Z)) :
  NoDup t ->
  flat_map (fun p => if (snd p =? recipe) && (fst p =? user) then L else []) t
  = if existsb (fun p => (snd p =? recipe) && (fst p =? user)) t then L else [].
Proof.
  intros Hnd.
  rewrite (flat_map_ext _ (fun c => if (fst c =? user) && (snd c =? recipe)
                                    then L else []))
    by (intros p; now rewrite andb_comm).
  rewrite (join_cart_unique user recipe L t Hnd).
  replace (mem_pair (user, recipe) t)
    with (existsb (fun p => (snd p =? recipe) && (fst p =? user)) t);
    [reflexivity |].
  apply bool_eq_iff. now rewrite mem_pair_In, exists_pair_In.
Qed.

Lemma filter_comm {A : Type} (f g : A -> bool) (l : list A) :
  filter f (filter g l) = filter g (filter f l).
Proof.
  induction l as [|a l IH]; [reflexivity |].
  simpl. destruct (f a) eqn:Ef, (g a) eqn:Eg; simpl;
    rewrite ?Ef, ?Eg, IH; reflexivity.
Qed.

(** With [is_favorited] (or [is_in_shopping_cart]) switched on by a
    registered user, the filter keeps exactly the recipes that the
    serializer shows to that user with the flag set, each once and in the
    order of the queryset; switched off, left out, or asked by an anonymous
    reader it keeps every recipe, the flagged ones too; and the two filters
    can be applied in either order.  The tables are assumed to satisfy
    their uniqueness constraint. *)
Theorem recipe_filters_follow_flags :
  forall (user : Z) (queryset : list Recipe) (st : State),
    NoDup (favorite_table st) ->
    NoDup (shoppingcart_table st) ->
    filter_favorited (AuthUser user) queryset (Some true) st
    = filter (fun r => get_is_favorited (Some (AuthUser user)) (recipe_id r) st)
             queryset
    /\ filter_shopping_cart (AuthUser user) queryset (Some true) st
       = filter (fun r => get_is_in_shopping_cart (Some (AuthUser user))
                            (recipe_id r) st)
                queryset
    /\ (forall x value,
           value <> Some true ->
           filter_favorited x queryset value st = queryset
           /\ filter_shopping_cart x queryset value st = queryset)
    /\ (forall value,
           filter_favorited AnonymousUser queryset value st = queryset
           /\ filter_shopping_cart AnonymousUser queryset value st = queryset)
    /\ filter_favorited (AuthUser user)
         (filter_shopping_cart (AuthUser user) queryset (Some true) st)
         (Some true) st
       = filter_shopping_cart (AuthUser user)
           (filter_favorited (AuthUser user) queryset (Some true) st)
           (Some true) st.
Proof.
  intros user queryset st Hf Hc.
  assert (F : forall qs,
             filter_favorited (AuthUser user) qs (Some true) st
             = filter (fun r => get_is_favorited (Some (AuthUser user))
                                  (recipe_id r) st) qs).
  { intros qs. unfold filter_favorited. rewrite <- flat_map_if_filter.
    apply flat_map_ext. intros r.
    apply (join_pair_unique Recipe user (recipe_id r) [r] _ Hf). }
  assert (C : forall qs,
             filter_shopping_cart (AuthUser user) qs (Some true) st
             = filter (fun r => get_is_in_shopping_cart (Some (AuthUser user))
                                  (recipe_id r) st) qs).
  { intros qs. unfold filter_shopping_cart. rewrite <- flat_map_if_filter.
    apply flat_map_ext. intros r.
    apply (join_pair_unique Recipe user (recipe_id r) [r] _ Hc). }
  split; [apply F | split; [apply C | split; [| split]]].
  - intros x [[|]|] Hv; try (now contradiction Hv); split; reflexivity.
  - intros [[|]|]; split; reflexivity.
  - rewrite !F, !C. apply filter_comm.
Qed.

Lemma recipe_filters_follow_flags_witness :
  filter_shopping_cart (AuthUser 2) (recipe_table salt_state_busy) (Some true)
    salt_state_busy
  = filter (fun r => get_is_in_shopping_cart (Some (AuthUser 2)) (recipe_id r)
                       salt_state_busy)
           (recipe_table salt_state_busy).
Proof.
  refine (proj1 (proj2 (recipe_filters_follow_flags 2
                          (recipe_table salt_state_busy) salt_state_busy _ _))).
  - simpl. constructor; [intros [] | constructor].
  - simpl.
    repeat (constructor;
            [simpl; intros H;
             repeat (destruct H as [H | H]; [discriminate H |]); exact H |]).
    constructor.
Defined.

(** ** What [validate] has accepted *)






(** ** Nothing is lost in the aggregation *)

Lemma iadd_sum (k : string) (a : Z) (d : list (string * Z)) :
  sumZ (map snd (dict_iadd k a d)) = sumZ (map snd d) + a.
Proof.
  unfold sumZ. induction d as [|[k' v] d IH]; simpl; [lia |].
  destruct (String.eqb k' k); simpl; lia.
Qed.

Lemma ingredient_data_sum (rows : list Row) :
  sumZ (map snd (ingredient_data rows)) = sumZ (map amount rows).
Proof.
  unfold ingredient_data.
  assert (G : forall d,
             sumZ (map snd (fold_left (fun d r => dict_iadd (row_key r) (amount r) d)
                                      rows d))
             = sumZ (map snd d) + sumZ (map amount rows)).
  { induction rows as [|r rows IH]; intros d; simpl.
    - unfold sumZ. simpl. lia.
    - rewrite IH, iadd_sum. unfold sumZ. simpl. lia. }
  rewrite G. unfold sumZ. simpl. lia.
Qed.

Lemma sumZ_perm (l l' : list Z) : Permutation l l' -> sumZ l = sumZ l'.
Proof.
  unfold sumZ. induction 1; simpl; lia.
Qed.

Lemma row_list_amounts (st : State) (l : list RecipeIngredients) :
  Forall (fun ri => catalog_has st (ri_ingredient ri) = true) l ->
  map amount (flat_map (row_list st) l) = map ri_amount l.
Proof.
  induction 1 as [|ri l Hri _ IH]; [reflexivity |].
  cbn [flat_map]. rewrite map_app, IH. unfold row_list, ri_row.
  unfold catalog_has in Hri.
  destruct (find (fun i => ingredient_id i =? ri_ingredient ri)
                 (ingredient_table st)) as [i|] eqn:E; [reflexivity |].
  exfalso. apply existsb_exists in Hri as (i & Hi & Hi').
  pose proof (find_none _ _ E i Hi) as Hn. cbv beta in Hn. congruence.
Qed.

(** The totals printed on a shopping list add up to the amounts of the
    rows the list was built from, whatever the order of the store; when
    the cart rows are unique and every through row names an ingredient of
    the catalog, that is the sum of the amounts of all through rows of the
    recipes in the cart. *)
Theorem shopping_list_conserves_amounts :
  forall (leb : string -> string -> bool) (st : State) (user : Z),
    sumZ (map snd (ingredient_data (shopping_queryset leb user st)))
    = sumZ (map amount (cart_rows user st))
    /\ (NoDup (shoppingcart_table st) ->
        Forall (fun ri => catalog_has st (ri_ingredient ri) = true)
               (recipeingredients st) ->
        sumZ (map snd (ingredient_data (shopping_queryset leb user st)))
        = sumZ (map ri_amount (cart_ingredients user st))).
Proof.
  intros leb st user.
  assert (E : sumZ (map snd (ingredient_data (shopping_queryset leb user st)))
              = sumZ (map amount (cart_rows user st))).
  { rewrite ingredient_data_sum. apply sumZ_perm. apply Permutation_map.
    apply order_by_name_perm. }
  split; [exact E |].
  intros Hnd Hfk. rewrite E, (cart_rows_unique user st Hnd).
  rewrite row_list_amounts; [reflexivity |].
  unfold cart_ingredients. now apply Forall_filter_keep.
Qed.

Lemma shopping_list_conserves_amounts_witness :
  sumZ (map snd (ingredient_data (shopping_queryset String.leb 1 salt_state)))
  = sumZ (map ri_amount (cart_ingredients 1 salt_state)).
Proof.
  refine (proj2 (shopping_list_conserves_amounts String.leb salt_state 1) _ _).
  - simpl. constructor; [intros [H | []]; discriminate H |].
    constructor; [intros [] | constructor].
  - simpl. repeat constructor.
Defined.

(** ** Adding and removing again *)

Lemma set_join_table_same (model : join_model) (st : State) :
  set_join_table model (join_table model st) st = st.
Proof. now destruct model, st. Qed.

Lemma set_join_table_twice (model : join_model) (t t' : list (Z * Z))
  (st : State) :
  set_join_table model t' (set_join_table model t st) = set_join_table model t' st.
Proof. now destruct model. Qed.

Lemma remove_appended (p : Z * Z) (t : list (Z * Z)) :
  ~ In p t -> filter (fun x => negb (pair_eqb p x)) (t ++ [p]) = t.
Proof.
  intros H. rewrite filter_app. simpl.
  replace (pair_eqb p p) with true by (symmetry; now apply pair_eqb_eq).
  simpl. rewrite app_nil_r. apply filter_all.
  intros x Hx. apply negb_true_iff.
  destruct (pair_eqb p x) eqn:E; [| reflexivity].
  apply pair_eqb_eq in E. now subst.
Qed.

(** A recipe put into the favorites (or the cart) and taken out again
    leaves the state exactly as it was before, and so does a subscription
    made and cancelled; the two answers are 201 and 204. *)
Theorem add_then_remove_restores :
  (forall (model : join_model) (user pk : Z) (st : State) (r : Recipe),
      find_recipe pk st = Some r ->
      ~ In (user, pk) (join_table model st) ->
      exists data data' st1,
        recipe_user_action model POST user pk st
        = (Ok (mkResponse data HTTP_201_CREATED), st1)
        /\ recipe_user_action model DELETE user pk st1
           = (Ok (mkResponse data' HTTP_204_NO_CONTENT), st))
  /\
  (forall (user author : Z) (st : State),
      In author (user_table st) ->
      author <> user ->
      ~ In (user, author) (subscription_table st) ->
      exists data st1,
        subscribe POST user author st
        = (Ok (mkResponse data HTTP_201_CREATED), st1)
        /\ subscribe DELETE user author st1
           = (Ok (mkResponse NoBody HTTP_204_NO_CONTENT), st)).
Proof.
  split.
  - intros model user pk st r Hr Habs.
    destruct (find_recipe_id pk st r Hr) as [Hid _].
    exists (RecipeListData pk (recipe_name r) (recipe_image r) (cooking_time r)),
      (Message ("Рецепт с id = " ++ str pk ++ " удален.")),
      (set_join_table model (join_table model st ++ [(user, pk)])%list st).
    split; [now apply create_recipe_user_absent |].
    assert (Hr1 : find_recipe pk (set_join_table model
                     (join_table model st ++ [(user, pk)])%list st) = Some r)
      by now destruct model.
    unfold recipe_user_action, delete_recipe_user, bind, get_recipe_or_404,
      get_join_or_404, join_delete, ret.
    rewrite Hr1, Hid.
    destruct (join_table_set model (join_table model st ++ [(user, pk)])%list st)
      as [E _].
    rewrite E. unfold count_pair. rewrite filter_app.
    rewrite (filter_pair_absent _ _ Habs). simpl.
    replace (pair_eqb (user, pk) (user, pk)) with true
      by (symmetry; now apply pair_eqb_eq).
    simpl. rewrite E.
    change (fun p : Z * Z => negb (pair_eqb (user, pk) p))
      with (fun x : Z * Z => negb (pair_eqb (user, pk) x)).
    rewrite (remove_appended _ _ Habs), set_join_table_twice,
      set_join_table_same.
    reflexivity.
  - intros user author st Hu Hne Habs.
    exists (SubscriptionData author),
      (set_subscription_table (subscription_table st ++ [(user, author)])%list st).
    apply mem_pair_not_In in Habs as Hm. apply Z.eqb_neq in Hne as Hs.
    split.
    + now rewrite (subscribe_unfold POST st user author Hu), Hm, Hs.
    + rewrite (subscribe_unfold DELETE _ user author) by exact Hu.
      cbn [subscription_table set_subscription_table].
      replace (mem_pair (user, author) (subscription_table st ++ [(user, author)]))
        with true.
      * rewrite (remove_appended _ _ Habs). now destruct st.
      * symmetry. apply mem_pair_In, in_app_iff. right. now left.
Qed.

Lemma add_then_remove_restores_witness :
  exists data data' st1,
    recipe_user_action Favorite POST 1 1 salt_state
    = (Ok (mkResponse data HTTP_201_CREATED), st1)
    /\ recipe_user_action Favorite DELETE 1 1 st1
       = (Ok (mkResponse data' HTTP_204_NO_CONTENT), salt_state).
Proof.
  refine (proj1 add_then_remove_restores Favorite 1 1 salt_state
            (mkRecipe 1 1 "Soup" "Boil." "soup.png" 10) eq_refl _).
  intros [].
Defined.

(** ** The cart and the totals *)

Lemma mem_pair_app (p : Z * Z) (t t' : list (Z * Z)) :
  mem_pair p (t ++ t') = mem_pair p t || mem_pair p t'.
Proof. unfold mem_pair. apply existsb_app. Qed.

Lemma mem_pair_removed (p q : Z * Z) (t : list (Z * Z)) :
  mem_pair q (filter (fun x => negb (pair_eqb p x)) t)
  = mem_pair q t && negb (pair_eqb p q).
Proof.
  apply bool_eq_iff.
  rewrite andb_true_iff, negb_true_iff, !mem_pair_In, remove_pair_In.
  split; intros [H1 H2]; split; try assumption.
  - destruct (pair_eqb p q) eqn:E; [| reflexivity].
    apply pair_eqb_eq in E. now subst.
  - intros ->. assert (pair_eqb p p = true) by now apply pair_eqb_eq. congruence.
Qed.

Lemma sum_filter_split (g p q : RecipeIngredients -> bool)
  (l : list RecipeIngredients) :
  (forall ri, In ri l -> p ri && q ri = false) ->
  sumZ (map ri_amount (filter g (filter (fun ri => p ri || q ri) l)))
  = sumZ (map ri_amount (filter g (filter p l)))
    + sumZ (map ri_amount (filter g (filter q l))).
Proof.
  unfold sumZ. induction l as [|ri l IH]; intros H; [reflexivity |].
  assert (IH' := IH (fun x Hx => H x (or_intror Hx))).
  specialize (H ri (or_introl eq_refl)).
  cbn [filter]. destruct (p ri), (q ri); try discriminate H; cbn [orb filter];
    destruct (g ri); cbn [map fold_right]; lia.
Qed.

Lemma cart_total_table (user : Z) (t : list (Z * Z)) (st : State) (key : string) :
  cart_total user (set_shoppingcart_table t st) key
  = sumZ (map ri_amount
              (filter (ri_key_is st key)
                      (filter (fun ri => mem_pair (user, ri_recipe ri) t)
                              (recipeingredients st)))).
Proof. reflexivity. Qed.

Lemma cart_total_same (user : Z) (st : State) (key : string) :
  cart_total user st key
  = cart_total user (set_shoppingcart_table (shoppingcart_table st) st) key.
Proof. reflexivity. Qed.

Lemma cart_total_step :
  forall (user pk : Z) (st : State) (r : Recipe),
    NoDup (shoppingcart_table st) ->
    find_recipe pk st = Some r ->
    (~ In (user, pk) (shoppingcart_table st) ->
     forall key,
       cart_total user (snd (shopping_cart POST user pk st)) key
       = cart_total user st key + recipe_total st pk key)
    /\ (In (user, pk) (shoppingcart_table st) ->
        forall key,
          cart_total user (snd (shopping_cart DELETE user pk st)) key
          = cart_total user st key - recipe_total st pk key)
    /\ (forall method user' key,
           user' <> user ->
           cart_total user' (snd (shopping_cart method user pk st)) key
           = cart_total user' st key).
Proof.
  intros user pk st r Hnd Hr. unfold shopping_cart.
  assert (Hq : forall u ri,
             pair_eqb (u, ri_recipe ri) (user, pk)
             = (u =? user) && (ri_recipe ri =? pk)) by reflexivity.
  split; [| split].
  - intros Habs key.
    rewrite (create_recipe_user_absent ShoppingCart st user pk r Hr Habs).
    cbn [snd set_join_table join_table]. rewrite cart_total_table.
    rewrite (filter_ext
               (fun ri => mem_pair (user, ri_recipe ri)
                            (shoppingcart_table st ++ [(user, pk)]))
               (fun ri => mem_pair (user, ri_recipe ri) (shoppingcart_table st)
                          || (ri_recipe ri =? pk))).
    + rewrite sum_filter_split; [reflexivity |].
      intros ri _. destruct (Z.eqb_spec (ri_recipe ri) pk) as [E | _];
        [| apply andb_false_r].
      rewrite E. apply mem_pair_not_In in Habs. now rewrite Habs.
    + intros ri. rewrite mem_pair_app. f_equal. unfold mem_pair. simpl.
      unfold pair_eqb. simpl. now rewrite Z.eqb_refl, orb_false_r.
  - intros Hin key.
    rewrite (delete_recipe_user_present ShoppingCart st user pk r Hnd Hr Hin).
    cbn [snd set_join_table join_table]. rewrite cart_total_table.
    enough (E : cart_total user st key
                = sumZ (map ri_amount
                          (filter (ri_key_is st key)
                             (filter (fun ri =>
                                        mem_pair (user, ri_recipe ri)
                                          (filter (fun p => negb (pair_eqb (user, pk) p))
                                                  (shoppingcart_table st)))
                                     (recipeingredients st))))
                  + recipe_total st pk key) by lia.
    unfold cart_total, cart_ingredients, recipe_total.
    rewrite <- (sum_filter_split (ri_key_is st key)
                  (fun ri => mem_pair (user, ri_recipe ri)
                               (filter (fun p => negb (pair_eqb (user, pk) p))
                                       (shoppingcart_table st)))
                  (fun ri => ri_recipe ri =? pk)).
    + f_equal. f_equal. f_equal. apply filter_ext. intros ri.
      rewrite mem_pair_removed. unfold pair_eqb. simpl.
      rewrite Z.eqb_refl. simpl. rewrite (Z.eqb_sym pk).
      destruct (Z.eqb_spec (ri_recipe ri) pk) as [E | _].
      * rewrite E. apply mem_pair_In in Hin. now rewrite Hin.
      * simpl. now rewrite andb_true_r, orb_false_r.
    + intros ri _. rewrite mem_pair_removed. unfold pair_eqb. simpl.
      rewrite Z.eqb_refl. simpl. rewrite (Z.eqb_sym pk).
      destruct (ri_recipe ri =? pk); simpl;
        [now rewrite andb_false_r | apply andb_false_r].
  - intros method user' key Hne. apply Z.eqb_neq in Hne.
    destruct (mem_pair (user, pk) (shoppingcart_table st)) eqn:Hm;
      [apply mem_pair_In in Hm as Hin | apply mem_pair_not_In in Hm as Habs];
      destruct method.
    + now rewrite (create_recipe_user_present ShoppingCart st user pk r Hnd Hr Hin).
    + rewrite (delete_recipe_user_present ShoppingCart st user pk r Hnd Hr Hin).
      cbn [snd set_join_table join_table].
      rewrite cart_total_table, (cart_total_same user' st key), cart_total_table.
      f_equal. f_equal. f_equal. apply filter_ext. intros ri.
      rewrite mem_pair_removed. unfold pair_eqb at 1. simpl.
      rewrite (Z.eqb_sym user), Hne. simpl. apply andb_true_r.
    + rewrite (create_recipe_user_absent ShoppingCart st user pk r Hr Habs).
      cbn [snd set_join_table join_table].
      rewrite cart_total_table, (cart_total_same user' st key), cart_total_table.
      f_equal. f_equal. f_equal. apply filter_ext. intros ri.
      rewrite mem_pair_app. unfold mem_pair at 2. simpl.
      unfold pair_eqb. simpl. rewrite Hne. simpl. now rewrite orb_false_r.
    + now rewrite (delete_recipe_user_absent ShoppingCart st user pk r Hr Habs).
Qed.

Lemma getd_In (key : string) (v : Z) (d : list (string * Z)) :
  NoDup (map fst d) -> In (key, v) d -> getd key d = v.
Proof.
  induction d as [|[k w] d IH]; intros Hnd Hin; [destruct Hin |].
  simpl in Hnd. inversion Hnd as [|? ? Hk Hd]; subst. simpl.
  destruct Hin as [E | Hin].
  - inversion E; subst. now rewrite String.eqb_refl.
  - destruct (String.eqb_spec k key) as [-> | _]; [| now apply IH].
    exfalso. apply Hk. now apply (in_map fst _ (key, v)).
Qed.

Lemma getd_absent (key : string) (d : list (string * Z)) :
  ~ In key (map fst d) -> getd key d = 0.
Proof.
  induction d as [|[k w] d IH]; intros Habs; [reflexivity |].
  simpl. destruct (String.eqb_spec k key) as [-> | _].
  - exfalso. apply Habs. now left.
  - apply IH. intros H. apply Habs. now right.
Qed.

Lemma listed_total_cart (leb : string -> string -> bool) (user : Z)
  (st : State) (key : string) :
  NoDup (shoppingcart_table st) ->
  listed_total leb user st key = cart_total user st key.
Proof.
  intros Hnd. unfold listed_total.
  destruct (in_dec string_dec key
              (map fst (ingredient_data (shopping_queryset leb user st))))
    as [Hin | Habs].
  - apply in_map_iff in Hin as ([k v] & E & Hin). simpl in E. subst k.
    rewrite (getd_In key v _ (ingredient_data_keys_nodup _) Hin).
    now apply (shopping_data_In leb st user key v Hnd) in Hin as [_ ->].
  - rewrite (getd_absent _ _ Habs). unfold cart_total.
    destruct (filter (ri_key_is st key) (cart_ingredients user st))
      as [|ri l] eqn:E; [reflexivity |].
    exfalso. apply Habs.
    assert (Hri : In ri (filter (ri_key_is st key) (cart_ingredients user st)))
      by (rewrite E; now left).
    apply filter_In in Hri as [Hri Hk].
    apply (in_map fst _ (key, cart_total user st key)).
    apply (shopping_data_In leb st user key _ Hnd).
    split; [now exists ri | reflexivity].
Qed.

Lemma recipe_user_action_nodup (model : join_model) (method : http_method)
  (user pk : Z) (st : State) (r : Recipe) :
  NoDup (join_table model st) ->
  find_recipe pk st = Some r ->
  NoDup (join_table model (snd (recipe_user_action model method user pk st))).
Proof.
  intros Hnd Hr.
  destruct (mem_pair (user, pk) (join_table model st)) eqn:Hm;
    [apply mem_pair_In in Hm as Hin | apply mem_pair_not_In in Hm as Habs];
    destruct method.
  - now rewrite (create_recipe_user_present model st user pk r Hnd Hr Hin).
  - rewrite (delete_recipe_user_present model st user pk r Hnd Hr Hin).
    cbn [snd]. rewrite (proj1 (join_table_set model _ st)).
    now apply NoDup_filter.
  - rewrite (create_recipe_user_absent model st user pk r Hr Habs).
    cbn [snd]. rewrite (proj1 (join_table_set model _ st)).
    now apply NoDup_snoc.
  - now rewrite (delete_recipe_user_absent model st user pk r Hr Habs).
Qed.

(** Putting a recipe into the cart raises the total the user's shopping
    list carries for each text by what the rows of that recipe hold under
    that text, taking it out lowers it by as much, and neither changes a
    total on the list of another user.  A text without a line counts as 0;
    the cart rows are assumed unique per user and recipe. *)
Theorem cart_total_follows_cart :
  forall (leb : string -> string -> bool) (user pk : Z) (st : State)
         (r : Recipe),
    NoDup (shoppingcart_table st) ->
    find_recipe pk st = Some r ->
    (~ In (user, pk) (shoppingcart_table st) ->
     forall key,
       listed_total leb user (snd (shopping_cart POST user pk st)) key
       = listed_total leb user st key + recipe_total st pk key)
    /\ (In (user, pk) (shoppingcart_table st) ->
        forall key,
          listed_total leb user (snd (shopping_cart DELETE user pk st)) key
          = listed_total leb user st key - recipe_total st pk key)
    /\ (forall method user' key,
           user' <> user ->
           listed_total leb user' (snd (shopping_cart method user pk st)) key
           = listed_total leb user' st key).
Proof.
  intros leb user pk st r Hnd Hr.
  assert (Hnd' : forall method,
             NoDup (shoppingcart_table (snd (shopping_cart method user pk st)))).
  { intros method.
    exact (recipe_user_action_nodup ShoppingCart method user pk st r Hnd Hr). }
  destruct (cart_total_step user pk st r Hnd Hr) as (Hadd & Hdel & Hother).
  split; [| split].
  - intros Habs key.
    rewrite (listed_total_cart leb user _ key (Hnd' POST)),
      (listed_total_cart leb user st key Hnd).
    now apply Hadd.
  - intros Hin key.
    rewrite (listed_total_cart leb user _ key (Hnd' DELETE)),
      (listed_total_cart leb user st key Hnd).
    now apply Hdel.
  - intros method user' key Hne.
    rewrite (listed_total_cart leb user' _ key (Hnd' method)),
      (listed_total_cart leb user' st key Hnd).
    now apply Hother.
Qed.

Lemma cart_total_follows_cart_witness :
  listed_total String.leb 1 (snd (shopping_cart DELETE 1 1 salt_state)) "Salt (g)"
  = listed_total String.leb 1 salt_state "Salt (g)"
    - recipe_total salt_state 1 "Salt (g)".
Proof.
  refine (proj1 (proj2 (cart_total_follows_cart String.leb 1 1 salt_state
                          (mkRecipe 1 1 "Soup" "Boil." "soup.png" 10) _ eq_refl))
            _ "Salt (g)").
  - simpl. constructor; [intros [H | []]; discriminate H |].
    constructor; [intros [] | constructor].
  - simpl. now left.
Defined.

(** ** The constraints of the store *)

Ltac int_fields H :=
  destruct H as [Husers Hcat Hpk Hname Htime Hauthor Hripk Hriu Hria Hrir
                 Hrii Htu Htr Hfav Hcart Hsub].

Lemma integrity_empty : integrity empty_state.
Proof.
  constructor; simpl; try constructor. intros r1 r2 [].
Qed.

Lemma NoDup_map_filter {A B : Type} (f : A -> B) (g : A -> bool) (l : list A) :
  NoDup (map f l) -> NoDup (map f (filter g l)).
Proof.
  induction l as [|a l IH]; simpl; intros H; [constructor |].
  inversion H as [|? ? Ha Hl]; subst.
  destruct (g a); simpl; [| now apply IH].
  constructor; [| now apply IH].
  intros Hin. apply Ha. apply in_map_iff in Hin as (x & E & Hx).
  apply filter_In in Hx as [Hx _]. rewrite <- E. now apply in_map.
Qed.

Lemma recipe_ids_replace (r : Recipe) (t : list Recipe) :
  map recipe_id
      (map (fun r' => if recipe_id r' =? recipe_id r then r else r') t)
  = map recipe_id t.
Proof.
  rewrite map_map. apply map_ext. intros r'.
  destruct (Z.eqb_spec (recipe_id r') (recipe_id r)); congruence.
Qed.

Lemma recipe_ids_delete (pk x : Z) (t : list Recipe) :
  In x (map recipe_id t) -> x <> pk ->
  In x (map recipe_id (filter (fun r => negb (recipe_id r =? pk)) t)).
Proof.
  intros H Hne. apply in_map_iff in H as (r & <- & Hr).
  apply in_map_iff. exists r. split; [reflexivity |].
  apply filter_In. split; [assumption |]. now apply negb_true_iff, Z.eqb_neq.
Qed.

Lemma assign_ids_keys (n : Z) (xs : list UnsavedRecipeIngredient) :
  NoDup (map ri_id (assign_ids n xs))
  /\ forall k, In k (map ri_id (assign_ids n xs)) -> n <= k.
Proof.
  revert n. induction xs as [|x xs IH]; intros n; simpl.
  - split; [constructor | intros k []].
  - destruct (IH (n + 1)) as [Hnd Hge]. split.
    + constructor; [| assumption]. intros H. specialize (Hge _ H). lia.
    + intros k [<- | H]; [lia |]. specialize (Hge _ H). lia.
Qed.

Lemma assign_ids_pairs (n : Z) (xs : list UnsavedRecipeIngredient) :
  map (fun ri => (ri_recipe ri, ri_ingredient ri)) (assign_ids n xs)
  = map (fun x => (un_recipe x, un_ingredient x)) xs.
Proof.
  revert n. induction xs as [|x xs IH]; intros n; simpl; [reflexivity |].
  now rewrite IH.
Qed.

Lemma ri_batch_ok_spec (xs : list UnsavedRecipeIngredient) (t : list (Z * Z)) :
  ri_batch_ok xs t = true ->
  NoDup t ->
  NoDup (t ++ map (fun x => (un_recipe x, un_ingredient x)) xs)
  /\ Forall (fun x => 0 <= un_amount x) xs.
Proof.
  revert t. induction xs as [|x xs IH]; intros t H Hnd; simpl.
  - rewrite app_nil_r. split; [assumption | constructor].
  - cbn [ri_batch_ok] in H. apply andb_true_iff in H as [H1 H2].
    unfold ri_conflict in H1. apply negb_true_iff, orb_false_iff in H1 as [Hm Ha].
    apply mem_pair_not_In in Hm. apply Z.ltb_ge in Ha.
    destruct (IH _ H2) as [Hnd' Hpos]; [now constructor |].
    split; [| now constructor].
    apply (Permutation_NoDup (l := ((un_recipe x, un_ingredient x) :: t)
                                    ++ map (fun x => (un_recipe x, un_ingredient x)) xs));
      [| exact Hnd'].
    simpl. apply Permutation_middle.
Qed.

Lemma In_ids_app (x : Z) (t : list Recipe) (r : Recipe) :
  In x (map recipe_id t) -> In x (map recipe_id (t ++ [r])).
Proof. intros H. rewrite map_app, in_app_iff. now left. Qed.

Lemma dedup_NoDup (l : list Z) : NoDup (dedup l).
Proof.
  induction l as [|y l IH]; [constructor |].
  simpl. destruct (memZ y l) eqn:E; [assumption |].
  constructor; [| assumption].
  rewrite dedup_In, <- memZ_In. congruence.
Qed.

Lemma NoDup_tags_appended (recipe : Z) (tags : list Z) (old : list (Z * Z)) :
  NoDup old ->
  (forall rt, In rt old -> fst rt <> recipe) ->
  NoDup (old ++ map (fun t => (recipe, t)) (dedup tags)).
Proof.
  intros Hnd Hold. apply NoDup_app.
  - assumption.
  - pose proof (dedup_NoDup tags) as Hd.
    induction Hd as [|t l Ht _ IHd]; simpl; constructor; [| assumption].
    intros Hin. apply in_map_iff in Hin as (t' & E & Ht').
    inversion E; subst. contradiction.
  - intros rt Hrt Hnew. apply in_map_iff in Hnew as (t & <- & _).
    now apply (Hold _ Hrt).
Qed.

Lemma int_with_recipe_and_tags (author : Z) (vd : ValidatedData) (st : State) :
  wf st -> integrity st ->
  In author (user_table st) ->
  recipe_name_taken (next_recipe_id st) author (vd_name vd) st = false ->
  0 <= vd_cooking_time vd ->
  integrity (with_recipe_and_tags author vd st).
Proof.
  intros Hwf H Hau Hn Ht. int_fields H.
  destruct (wf_fresh_recipe st Hwf) as [_ Htagsfresh].
  destruct Hwf as [Hids _ _ _ _ _ _ _]. rewrite Forall_forall in Hids.
  assert (Hmono : forall x, In x (recipe_ids st) ->
                            In x (recipe_ids (with_recipe_and_tags author vd st)))
    by (intros x; apply In_ids_app).
  constructor; simpl; try assumption.
  - unfold recipe_ids. simpl. rewrite map_app. apply NoDup_snoc; [assumption |].
    simpl. intros Hin. apply in_map_iff in Hin as (r & E & Hr).
    specialize (Hids r Hr). lia.
  - intros r1 r2 H1 H2 Ea En.
    assert (Hold : forall r, In r (recipe_table st) ->
                             recipe_author r = author ->
                             recipe_name r = vd_name vd -> False).
    { intros r Hr Ea' En'. unfold recipe_name_taken in Hn.
      assert (Hex : existsb (fun r => negb (recipe_id r =? next_recipe_id st)
                                      && (recipe_author r =? author)
                                      && String.eqb (recipe_name r) (vd_name vd))
                            (recipe_table st) = true).
      { apply existsb_exists. exists r. split; [assumption |].
        rewrite Ea', En', Z.eqb_refl, String.eqb_refl.
        specialize (Hids r Hr).
        replace (recipe_id r =? next_recipe_id st) with false; [reflexivity |].
        symmetry. apply Z.eqb_neq. lia. }
      congruence. }
    apply in_app_iff in H1 as [H1 | [<- | []]];
      apply in_app_iff in H2 as [H2 | [<- | []]].
    + now apply Hname.
    + exfalso. simpl in Ea, En. now apply (Hold r1 H1).
    + exfalso. simpl in Ea, En. now apply (Hold r2 H2).
    + reflexivity.
  - apply Forall_app. split; [assumption | now repeat constructor].
  - apply Forall_app. split; [assumption | now repeat constructor].
  - eapply Forall_impl; [| exact Hrir]. intros ri. apply Hmono.
  - now apply NoDup_tags_appended.
  - apply Forall_app. split.
    + eapply Forall_impl; [| exact Htr]. intros rt. apply Hmono.
    + rewrite Forall_forall. intros rt Hrt.
      apply in_map_iff in Hrt as (t & <- & _). simpl.
      unfold recipe_ids. simpl. rewrite map_app, in_app_iff. right. now left.
  - eapply Forall_impl; [| exact Hfav]. intros p [H1 H2]. split; auto.
  - eapply Forall_impl; [| exact Hcart]. intros p [H1 H2]. split; auto.
Qed.

Lemma int_with_ingredients (recipe : Z) (ingredients : list (Z * Z))
  (st : State) :
  integrity st ->
  Forall (fun ri => ri_id ri < next_ri_id st) (recipeingredients st) ->
  In recipe (recipe_ids st) ->
  forallb (fun ing => catalog_has st (fst ing)) ingredients = true ->
  ri_batch_ok (unsaved_rows recipe ingredients) (existing_pairs st) = true ->
  integrity (with_ingredients recipe ingredients st).
Proof.
  intros H Hids Hrec Hknown Hfits. int_fields H.
  destruct (ri_batch_ok_spec _ _ Hfits Hriu) as [Hnd Hpos].
  assert (Hnew : forall ri,
             In ri (assign_ids (next_ri_id st) (unsaved_rows recipe ingredients)) ->
             ri_recipe ri = recipe
             /\ 0 <= ri_amount ri
             /\ catalog_has st (ri_ingredient ri) = true).
  { intros ri Hri. apply assign_ids_spec in Hri as [_ (x & Hx & E1 & E2 & E3)].
    rewrite Forall_forall in Hpos. specialize (Hpos x Hx).
    unfold unsaved_rows in Hx. apply in_map_iff in Hx as (ing & <- & Hing).
    simpl in *. rewrite forallb_forall in Hknown.
    rewrite E1, E2, E3. repeat split; [assumption | now apply Hknown]. }
  constructor; simpl; try assumption.
  - rewrite map_app.
    destruct (assign_ids_keys (next_ri_id st) (unsaved_rows recipe ingredients))
      as [Hnd' Hge].
    apply NoDup_app; try assumption.
    intros k Hk Hk'. specialize (Hge k Hk').
    apply in_map_iff in Hk as (ri & <- & Hri).
    rewrite Forall_forall in Hids. specialize (Hids ri Hri). lia.
  - unfold existing_pairs. simpl. rewrite map_app, assign_ids_pairs. exact Hnd.
  - apply Forall_app. split; [assumption |].
    rewrite Forall_forall. intros ri Hri. now apply Hnew.
  - apply Forall_app. split; [assumption |].
    rewrite Forall_forall. intros ri Hri.
    destruct (Hnew ri Hri) as [-> _]. exact Hrec.
  - apply Forall_app. split; [assumption |].
    rewrite Forall_forall. intros ri Hri. now apply Hnew.
Qed.

Lemma int_without_associations (recipe : Z) (st : State) :
  integrity st -> integrity (without_associations recipe st).
Proof.
  intros H. int_fields H.
  constructor; simpl; try assumption;
    try (now apply Forall_filter_keep).
  - now apply NoDup_map_filter.
  - unfold existing_pairs. simpl. now apply NoDup_map_filter.
  - now apply NoDup_filter.
Qed.

Lemma int_with_saved_recipe (instance : Recipe) (vd : ValidatedData)
  (st : State) :
  integrity st ->
  In instance (recipe_table st) ->
  recipe_name_taken (recipe_id instance) (recipe_author instance)
    (vd_name vd) st = false ->
  0 <= vd_cooking_time vd ->
  integrity (with_saved_recipe instance vd st).
Proof.
  intros H Hin Hn Ht. int_fields H.
  destruct (cleared_recipe (recipe_id instance) st) as [_ Htagsfresh].
  assert (Hids : recipe_ids (with_saved_recipe instance vd st) = recipe_ids st).
  { unfold recipe_ids. simpl.
    apply (recipe_ids_replace (updated_recipe instance vd)). }
  assert (Hau : In (recipe_author instance) (user_table st)).
  { rewrite Forall_forall in Hauthor. now apply Hauthor. }
  assert (Hrow : forall r,
             In r (map (fun r' => if recipe_id r' =? recipe_id instance
                                  then updated_recipe instance vd else r')
                       (recipe_table st)) ->
             (r = updated_recipe instance vd)
             \/ (In r (recipe_table st) /\ recipe_id r <> recipe_id instance)).
  { intros r Hr. apply in_map_iff in Hr as (r' & E & Hr').
    destruct (Z.eqb_spec (recipe_id r') (recipe_id instance)).
    - now left.
    - right. subst r'. now split. }
  assert (Hold : forall r, In r (recipe_table st) ->
                           recipe_id r <> recipe_id instance ->
                           recipe_author r = recipe_author instance ->
                           recipe_name r = vd_name vd -> False).
  { intros r Hr Hne Ea En. unfold recipe_name_taken in Hn.
    assert (Hex : existsb (fun r => negb (recipe_id r =? recipe_id instance)
                                    && (recipe_author r =? recipe_author instance)
                                    && String.eqb (recipe_name r) (vd_name vd))
                          (recipe_table st) = true).
    { apply existsb_exists. exists r. split; [assumption |].
      rewrite Ea, En, Z.eqb_refl, String.eqb_refl.
      apply Z.eqb_neq in Hne. now rewrite Hne. }
    congruence. }
  constructor; try rewrite Hids; simpl; try assumption.
  - intros r1 r2 H1 H2 Ea En.
    destruct (Hrow r1 H1) as [-> | [H1' N1]], (Hrow r2 H2) as [-> | [H2' N2]].
    + reflexivity.
    + exfalso. simpl in Ea, En. now apply (Hold r2 H2' N2).
    + exfalso. simpl in Ea, En. now apply (Hold r1 H1' N1).
    + now apply Hname.
  - rewrite Forall_forall in *. intros r Hr.
    destruct (Hrow r Hr) as [-> | [Hr' _]]; [exact Ht | now apply Htime].
  - rewrite Forall_forall in *. intros r Hr.
    destruct (Hrow r Hr) as [-> | [Hr' _]]; [exact Hau | now apply Hauthor].
  - now apply NoDup_map_filter.
  - unfold existing_pairs. simpl. now apply NoDup_map_filter.
  - now apply Forall_filter_keep.
  - now apply Forall_filter_keep.
  - now apply Forall_filter_keep.
  - apply NoDup_tags_appended; [now apply NoDup_filter | exact Htagsfresh].
  - apply Forall_app. split; [now apply Forall_filter_keep |].
    rewrite Forall_forall. intros rt Hrt.
    apply in_map_iff in Hrt as (t & <- & _). simpl.
    unfold recipe_ids. now apply in_map.
Qed.

Lemma create_int (author : Z) (vd : ValidatedData) (st : State) :
  wf st -> integrity st -> In author (user_table st) ->
  integrity (snd (create author vd st)).
Proof.
  intros Hwf H Hau. rewrite (create_run author vd st Hwf).
  destruct (recipe_name_taken _ _ _ _) eqn:Hn; [exact H |].
  destruct (vd_cooking_time vd <? 0) eqn:Ht; [exact H |].
  apply Z.ltb_ge in Ht. cbn [orb].
  pose proof (int_with_recipe_and_tags author vd st Hwf H Hau Hn Ht) as Hmid.
  destruct (forallb _ (vd_recipeingredients vd)) eqn:Hk; [| exact Hmid].
  destruct (ri_batch_ok _ _) eqn:Hf; [| exact Hmid].
  cbn [snd]. apply int_with_ingredients; try assumption.
  - destruct Hwf as [_ _ _ Hids _ _ _ _]. exact Hids.
  - unfold recipe_ids. simpl. rewrite map_app, in_app_iff. right. now left.
Qed.

Lemma update_int (instance : Recipe) (vd : ValidatedData) (st : State) :
  wf st -> integrity st -> In instance (recipe_table st) ->
  integrity (snd (update instance vd st)).
Proof.
  intros Hwf H Hin. rewrite (update_run instance vd st Hin).
  destruct (recipe_name_taken _ _ _ _) eqn:Hn;
    [now apply int_without_associations |].
  destruct (vd_cooking_time vd <? 0) eqn:Ht;
    [now apply int_without_associations |].
  apply Z.ltb_ge in Ht. cbn [orb].
  pose proof (int_with_saved_recipe instance vd st H Hin Hn Ht) as Hmid.
  destruct (forallb _ (vd_recipeingredients vd)) eqn:Hk; [| exact Hmid].
  destruct (ri_batch_ok _ _) eqn:Hf; [| exact Hmid].
  cbn [snd]. apply int_with_ingredients; try assumption.
  - simpl. apply Forall_filter_keep.
    destruct Hwf as [_ _ _ Hids _ _ _ _]. exact Hids.
  - unfold recipe_ids. simpl.
    rewrite (recipe_ids_replace (updated_recipe instance vd)).
    now apply in_map.
Qed.

Lemma recipe_delete_int (pk : Z) (st : State) :
  integrity st -> integrity (snd (recipe_delete pk st)).
Proof.
  intros H. int_fields H.
  assert (Hkeep : forall x, In x (recipe_ids st) -> x <> pk ->
                            In x (recipe_ids (snd (recipe_delete pk st))))
    by (intros x; apply recipe_ids_delete).
  constructor; simpl; try assumption;
    try (now apply Forall_filter_keep).
  - now apply NoDup_map_filter.
  - intros r1 r2 H1 H2. apply filter_In in H1 as [H1 _].
    apply filter_In in H2 as [H2 _]. now apply Hname.
  - now apply NoDup_map_filter.
  - unfold existing_pairs. simpl. now apply NoDup_map_filter.
  - rewrite Forall_forall in *. intros ri Hri.
    apply filter_In in Hri as [Hri Hne].
    apply negb_true_iff, Z.eqb_neq in Hne. apply Hkeep; auto.
  - now apply NoDup_filter.
  - rewrite Forall_forall in *. intros rt Hrt.
    apply filter_In in Hrt as [Hrt Hne].
    apply negb_true_iff, Z.eqb_neq in Hne. apply Hkeep; auto.
  - rewrite Forall_forall in *. intros p Hp.
    apply filter_In in Hp as [Hp Hne].
    apply negb_true_iff, Z.eqb_neq in Hne.
    destruct (Hfav p Hp). split; [assumption | now apply Hkeep].
  - rewrite Forall_forall in *. intros p Hp.
    apply filter_In in Hp as [Hp Hne].
    apply negb_true_iff, Z.eqb_neq in Hne.
    destruct (Hcart p Hp). split; [assumption | now apply Hkeep].
Qed.

Lemma set_join_table_int (model : join_model) (t : list (Z * Z)) (st : State) :
  integrity st ->
  Forall (fun p => In (fst p) (user_table st) /\ In (snd p) (recipe_ids st)) t ->
  integrity (set_join_table model t st).
Proof.
  intros H Ht. int_fields H. destruct model; constructor; simpl; assumption.
Qed.

Lemma join_table_int (model : join_model) (st : State) :
  integrity st ->
  Forall (fun p => In (fst p) (user_table st) /\ In (snd p) (recipe_ids st))
         (join_table model st).
Proof. intros H. int_fields H. now destruct model. Qed.

Lemma recipe_user_action_int (model : join_model) (method : http_method)
  (user pk : Z) (st : State) :
  integrity st -> In user (user_table st) ->
  integrity (snd (recipe_user_action model method user pk st)).
Proof.
  intros H Hu. pose proof (join_table_int model st H) as Hfk.
  unfold recipe_user_action, create_recipe_user, delete_recipe_user, bind,
    get_recipe_or_404, get_or_create, get_join_or_404, join_delete, ret.
  destruct method; destruct (find_recipe pk st) as [r|] eqn:Hr; try assumption.
  - destruct (count_pair (user, recipe_id r) (join_table model st))
      as [|[|n]]; simpl; try assumption.
    apply set_join_table_int; [assumption |].
    apply Forall_app. split; [assumption |].
    repeat constructor; simpl; [assumption |].
    apply find_recipe_id in Hr as [_ Hr]. unfold recipe_ids. now apply in_map.
  - destruct (count_pair (user, recipe_id r) (join_table model st))
      as [|[|n]]; simpl; try assumption.
    apply set_join_table_int; [assumption | now apply Forall_filter_keep].
Qed.

Lemma subscription_create_int (user author : Z) (st : State) :
  integrity st -> In user (user_table st) -> In author (user_table st) ->
  integrity (snd (subscription_create user author st)).
Proof.
  intros H Hu Ha. unfold subscription_create.
  destruct (mem_pair (user, author) (subscription_table st) || (user =? author));
    [assumption |].
  int_fields H. constructor; simpl; try assumption.
  apply Forall_app. split; [assumption | now repeat constructor].
Qed.

Lemma subscribe_int (method : http_method) (user pk : Z) (st : State) :
  integrity st -> In user (user_table st) ->
  integrity (snd (subscribe method user pk st)).
Proof.
  intros H Hu. unfold subscribe, bind, get_user_or_404, get_state.
  destruct (memZ pk (user_table st)) eqn:Hmem; [| assumption].
  apply memZ_In in Hmem. destruct method.
  - destruct (mem_pair (user, pk) (subscription_table st)) eqn:Hm;
      [assumption |].
    destruct (pk =? user) eqn:Hs; [assumption |].
    pose proof (subscription_create_int user pk st H Hu Hmem) as Hc.
    unfold ret. destruct (subscription_create user pk st) as [[[]|e] st'];
      exact Hc.
  - destruct (mem_pair (user, pk) (subscription_table st)); simpl;
      [| assumption].
    int_fields H. constructor; simpl; try assumption.
    now apply Forall_filter_keep.
Qed.

Lemma snd_void {A : Type} (m : M A) (st : State) : snd (void m st) = snd (m st).
Proof.
  unfold void, bind, ret. now destruct (m st) as [[a | e] st'].
Qed.

Lemma after_int (req : request) (st : State) :
  wf st -> integrity st -> integrity (after req st).
Proof.
  intros Hwf H. unfold after.
  destruct req as [user | i | user vd | user pk vd | user pk
                  | method user pk | method user pk | method user pk
                  | user author];
    cbn [serve].
  - destruct (memZ user (user_table st)) eqn:Hm; [assumption |].
    assert (Hnew : ~ In user (user_table st)).
    { intros Hin. apply memZ_In in Hin. congruence. }
    int_fields H. constructor; simpl; try assumption.
    + now apply NoDup_snoc.
    + eapply Forall_impl; [| exact Hauthor]. simpl. intros r Hr.
      apply in_app_iff. now left.
    + eapply Forall_impl; [| exact Hfav]. simpl. intros p [H1 H2].
      split; [apply in_app_iff; now left | assumption].
    + eapply Forall_impl; [| exact Hcart]. simpl. intros p [H1 H2].
      split; [apply in_app_iff; now left | assumption].
    + eapply Forall_impl; [| exact Hsub]. simpl. intros p [H1 H2].
      split; apply in_app_iff; now left.
  - destruct (existsb _ (ingredient_table st)) eqn:Hm; [assumption |].
    int_fields H. constructor; simpl; try assumption.
    + rewrite map_app. apply NoDup_snoc; [assumption |].
      intros Hin. apply in_map_iff in Hin as (i' & E & Hi').
      assert (Hex : existsb (fun i' => ingredient_id i' =? ingredient_id i)
                            (ingredient_table st) = true).
      { apply existsb_exists. exists i'. split; [assumption |].
        now apply Z.eqb_eq. }
      congruence.
    + eapply Forall_impl; [| exact Hrii]. intros ri Hri.
      unfold catalog_has in *. simpl. rewrite existsb_app, Hri. reflexivity.
  - destruct (memZ user (user_table st)) eqn:Hm; [| assumption].
    rewrite snd_void. apply create_int; try assumption. now apply memZ_In.
  - unfold bind, get_recipe_or_404.
    destruct (find_recipe pk st) as [r|] eqn:Hr; [| assumption].
    destruct (is_author r user); [| assumption].
    rewrite snd_void. apply update_int; try assumption.
    now apply (find_recipe_id pk st r).
  - unfold bind, get_recipe_or_404.
    destruct (find_recipe pk st) as [r|] eqn:Hr; [| assumption].
    destruct (is_author r user); [| assumption].
    now apply recipe_delete_int.
  - destruct (memZ user (user_table st)) eqn:Hm; [| assumption].
    rewrite snd_void. apply recipe_user_action_int; [assumption |].
    now apply memZ_In.
  - destruct (memZ user (user_table st)) eqn:Hm; [| assumption].
    rewrite snd_void. apply recipe_user_action_int; [assumption |].
    now apply memZ_In.
  - destruct (memZ user (user_table st)) eqn:Hm; [| assumption].
    rewrite snd_void. apply subscribe_int; [assumption |]. now apply memZ_In.
  - destruct (memZ user (user_table st) && memZ author (user_table st)) eqn:Hm;
      [| assumption].
    apply andb_true_iff in Hm as [H1 H2].
    apply subscription_create_int; [assumption | |]; now apply memZ_In.
Qed.

Lemma reachable_int (st : State) : reachable st -> integrity st.
Proof.
  induction 1 as [| st req Hreach IH]; [apply integrity_empty |].
  apply after_int; [now apply reachable_wf | exact IH].
Qed.

(** In every state the service can get into, the constraints declared by
    the models hold: primary keys and the pairs under a [UniqueConstraint]
    are unique, amounts and cooking times are not negative, and every row
    refers to users, recipes and ingredients that exist, also after a
    recipe was deleted. *)
Theorem reachable_integrity :
  forall (st : State), reachable st -> integrity st.
Proof.
  exact reachable_int.
Qed.

Lemma reachable_integrity_witness :
  integrity (snd (create 1 (soup_fields [(1, 2)]) pantry_state)).
Proof.
  apply (reachable_integrity
           (after (ReqCreateRecipe 1 (soup_fields [(1, 2)])) pantry_state)).
  apply reach_after. exact pantry_state_reachable.
Defined.

(** ** Who can change a recipe *)

Lemma NoDup_map_inj {A B : Type} (f : A -> B) (l : list A) (a b : A) :
  NoDup (map f l) -> In a l -> In b l -> f a = f b -> a = b.
Proof.
  induction l as [|x l IH]; intros Hnd Ha Hb E; [destruct Ha |].
  simpl in Hnd. inversion Hnd as [|? ? Hx Hl]; subst.
  destruct Ha as [-> | Ha], Hb as [-> | Hb]; auto.
  - exfalso. apply Hx. rewrite E. now apply in_map.
  - exfalso. apply Hx. rewrite <- E. now apply in_map.
Qed.

Lemma filter_app_other {A : Type} (f : A -> bool) (l extra : list A) :
  (forall x, In x extra -> f x = false) ->
  filter f (l ++ extra) = filter f l.
Proof.
  intros H. rewrite filter_app, (filter_none f extra H). apply app_nil_r.
Qed.

Lemma filter_filter_other {A : Type} (f g : A -> bool) (l : list A) :
  (forall x, f x = true -> g x = true) ->
  filter f (filter g l) = filter f l.
Proof.
  intros H. induction l as [|x l IH]; [reflexivity |].
  simpl. destruct (g x) eqn:Eg; simpl.
  - now rewrite IH.
  - destruct (f x) eqn:Ef; [| exact IH].
    rewrite (H x Ef) in Eg. discriminate.
Qed.

Lemma reads_with_ingredients_other (x recipe : Z) (ingredients : list (Z * Z))
  (st : State) :
  x <> recipe ->
  read_ingredients x (with_ingredients recipe ingredients st) = read_ingredients x st
  /\ read_tags x (with_ingredients recipe ingredients st) = read_tags x st.
Proof.
  intros Hne. split; [| reflexivity].
  unfold read_ingredients, with_ingredients. simpl.
  rewrite filter_app_other; [reflexivity |].
  intros ri Hri. apply assign_ids_spec in Hri as [_ (u & Hu & E & _)].
  unfold unsaved_rows in Hu. apply in_map_iff in Hu as (ing & <- & _).
  simpl in E. rewrite E. apply Z.eqb_neq. congruence.
Qed.

Lemma reads_appended_tags_other (x recipe : Z) (tags : list Z)
  (old : list (Z * Z)) :
  x <> recipe ->
  filter (fun rt => fst rt =? x) (old ++ map (fun t => (recipe, t)) tags)
  = filter (fun rt => fst rt =? x) old.
Proof.
  intros Hne. apply filter_app_other. intros rt Hrt.
  apply in_map_iff in Hrt as (t & <- & _). simpl. apply Z.eqb_neq. congruence.
Qed.

Lemma reads_cleared_other (x recipe : Z) (st : State) :
  x <> recipe ->
  filter (fun ri => ri_recipe ri =? x)
         (filter (fun ri => negb (ri_recipe ri =? recipe)) (recipeingredients st))
  = filter (fun ri => ri_recipe ri =? x) (recipeingredients st)
  /\ filter (fun rt => fst rt =? x)
            (filter (fun rt => negb (fst rt =? recipe)) (recipe_tags st))
     = filter (fun rt => fst rt =? x) (recipe_tags st).
Proof.
  intros Hne. split; apply filter_filter_other; intros y Hy;
    apply Z.eqb_eq in Hy; apply negb_true_iff, Z.eqb_neq; congruence.
Qed.

Lemma recipe_user_action_frame (model : join_model) (method : http_method)
  (user pk : Z) (st : State) :
  exists t,
    snd (recipe_user_action model method user pk st) = set_join_table model t st
    /\ (t = join_table model st
        \/ t = (join_table model st ++ [(user, pk)])%list
        \/ t = filter (fun p => negb (pair_eqb (user, pk) p)) (join_table model st)).
Proof.
  assert (Hsame : exists t,
             st = set_join_table model t st
             /\ (t = join_table model st
                 \/ t = (join_table model st ++ [(user, pk)])%list
                 \/ t = filter (fun p => negb (pair_eqb (user, pk) p))
                               (join_table model st))).
  { exists (join_table model st). split;
      [symmetry; apply set_join_table_same | now left]. }
  unfold recipe_user_action, create_recipe_user, delete_recipe_user, bind,
    get_recipe_or_404, get_or_create, get_join_or_404, join_delete, ret.
  destruct method; cbv beta;
    (destruct (find_recipe pk st) as [r|] eqn:Hr; [| exact Hsame]);
    apply find_recipe_id in Hr as [Hid _]; cbv beta iota; rewrite Hid;
    destruct (count_pair (user, pk) (join_table model st)) as [|[|n]];
    cbv beta iota; cbn [snd negb fst]; try exact Hsame.
  - eexists. split; [reflexivity | right; now left].
  - eexists. split; [reflexivity | right; now right].
Qed.

Lemma subscribe_frame (method : http_method) (user pk : Z) (st : State) :
  exists t, snd (subscribe method user pk st) = set_subscription_table t st.
Proof.
  unfold subscribe, bind, get_user_or_404, get_state, subscription_create,
    subscription_delete, ret.
  destruct (memZ pk (user_table st));
    [| exists (subscription_table st); now destruct st].
  destruct method.
  - destruct (mem_pair (user, pk) (subscription_table st)) eqn:Hm;
      [exists (subscription_table st); now destruct st |].
    destruct (pk =? user) eqn:Hs;
      [exists (subscription_table st); now destruct st |].
    rewrite Hm, (Z.eqb_sym user pk), Hs. simpl. eexists. reflexivity.
  - destruct (mem_pair (user, pk) (subscription_table st)); simpl;
      [eexists; reflexivity | exists (subscription_table st); now destruct st].
Qed.

Lemma subscription_create_frame (user author : Z) (st : State) :
  exists t, snd (subscription_create user author st) = set_subscription_table t st.
Proof.
  unfold subscription_create.
  destruct (mem_pair (user, author) (subscription_table st) || (user =? author));
    [exists (subscription_table st); now destruct st | eexists; reflexivity].
Qed.

(** A request leaves alone every recipe whose author it does not act for:
    the row stays in the table as it is, and reading its ingredients and
    its tags gives what it gave before.  For a method that is not safe the
    permission class lets nobody but the author through. *)
Theorem recipes_of_others_untouched :
  forall (req : request) (st : State) (r : Recipe),
    wf st -> integrity st ->
    In r (recipe_table st) ->
    actor req <> Some (recipe_author r) ->
    In r (recipe_table (after req st))
    /\ read_ingredients (recipe_id r) (after req st)
       = read_ingredients (recipe_id r) st
    /\ read_tags (recipe_id r) (after req st) = read_tags (recipe_id r) st
    /\ (forall method user,
           is_safe method = false ->
           has_object_permission method user r = true ->
           user = AuthUser (recipe_author r)).
Proof.
  intros req st r Hwf Hint Hr Hact.
  assert (Hperm : forall method user,
             is_safe method = false ->
             has_object_permission method user r = true ->
             user = AuthUser (recipe_author r)).
  { intros method user Hs Hp. unfold has_object_permission in Hp.
    rewrite Hs, orb_false_r in Hp. destruct user as [|u]; [discriminate |].
    apply Z.eqb_eq in Hp. now subst. }
  enough (G : In r (recipe_table (after req st))
              /\ read_ingredients (recipe_id r) (after req st)
                 = read_ingredients (recipe_id r) st
              /\ read_tags (recipe_id r) (after req st)
                 = read_tags (recipe_id r) st)
    by (destruct G as (G1 & G2 & G3); repeat split; assumption).
  assert (Hlt : recipe_id r < next_recipe_id st).
  { destruct Hwf as [Hids _ _ _ _ _ _ _]. rewrite Forall_forall in Hids.
    now apply Hids. }
  assert (Hother : forall r0, In r0 (recipe_table st) ->
                              recipe_author r0 <> recipe_author r ->
                              recipe_id r <> recipe_id r0).
  { intros r0 Hr0 Hne E. apply Hne.
    destruct Hint as [_ _ Hpk _ _ _ _ _ _ _ _ _ _ _ _ _].
    now rewrite (NoDup_map_inj recipe_id _ r r0 Hpk Hr Hr0 E). }
  unfold after.
  destruct req as [user | i | user vd | user pk vd | user pk
                  | method user pk | method user pk | method user pk
                  | user author];
    cbn [serve actor] in *.
  - destruct (memZ user (user_table st)); now repeat split.
  - destruct (existsb _ (ingredient_table st)); now repeat split.
  - destruct (memZ user (user_table st)); [| now repeat split].
    rewrite snd_void, (create_run user vd st Hwf).
    destruct (recipe_name_taken _ _ _ _ || _); [now repeat split |].
    assert (Hmid : In r (recipe_table (with_recipe_and_tags user vd st))
                   /\ read_ingredients (recipe_id r) (with_recipe_and_tags user vd st)
                      = read_ingredients (recipe_id r) st
                   /\ read_tags (recipe_id r) (with_recipe_and_tags user vd st)
                      = read_tags (recipe_id r) st).
    { split; [simpl; apply in_app_iff; now left | split; [reflexivity |]].
      unfold read_tags. simpl. rewrite reads_appended_tags_other; [reflexivity | lia]. }
    destruct (forallb _ (vd_recipeingredients vd)); [| exact Hmid].
    destruct (ri_batch_ok _ _); [| exact Hmid].
    cbn [snd]. destruct Hmid as (M1 & M2 & M3).
    destruct (reads_with_ingredients_other (recipe_id r) (next_recipe_id st)
                (vd_recipeingredients vd) (with_recipe_and_tags user vd st))
      as [E1 E2]; [lia |].
    split; [exact M1 | split; congruence].
  - unfold bind, get_recipe_or_404.
    destruct (find_recipe pk st) as [r0|] eqn:Hr0; [| now repeat split].
    apply find_recipe_id in Hr0 as [Hid Hin0].
    destruct (is_author r0 user) eqn:Hau; [| now repeat split].
    unfold is_author in Hau. apply Z.eqb_eq in Hau.
    assert (Hne : recipe_id r <> recipe_id r0).
    { apply Hother; [assumption |]. rewrite Hau. congruence. }
    rewrite snd_void, (update_run r0 vd st Hin0).
    destruct (reads_cleared_other (recipe_id r) (recipe_id r0) st Hne) as [C1 C2].
    assert (Hcl : In r (recipe_table (without_associations (recipe_id r0) st))
                  /\ read_ingredients (recipe_id r)
                       (without_associations (recipe_id r0) st)
                     = read_ingredients (recipe_id r) st
                  /\ read_tags (recipe_id r) (without_associations (recipe_id r0) st)
                     = read_tags (recipe_id r) st).
    { split; [exact Hr | split].
      - unfold read_ingredients. simpl. now rewrite C1.
      - unfold read_tags. simpl. now rewrite C2. }
    destruct (recipe_name_taken _ _ _ _ || _); [exact Hcl |].
    assert (Hmid : In r (recipe_table (with_saved_recipe r0 vd st))
                   /\ read_ingredients (recipe_id r) (with_saved_recipe r0 vd st)
                      = read_ingredients (recipe_id r) st
                   /\ read_tags (recipe_id r) (with_saved_recipe r0 vd st)
                      = read_tags (recipe_id r) st).
    { split; [| split].
      - simpl. apply in_map_iff. exists r. split; [| exact Hr].
        apply Z.eqb_neq in Hne. now rewrite Hne.
      - unfold read_ingredients. simpl. now rewrite C1.
      - unfold read_tags. simpl.
        rewrite reads_appended_tags_other by exact Hne. now rewrite C2. }
    destruct (forallb _ (vd_recipeingredients vd)); [| exact Hmid].
    destruct (ri_batch_ok _ _); [| exact Hmid].
    cbn [snd]. destruct Hmid as (M1 & M2 & M3).
    destruct (reads_with_ingredients_other (recipe_id r) (recipe_id r0)
                (vd_recipeingredients vd) (with_saved_recipe r0 vd st) Hne)
      as [E1 E2].
    split; [exact M1 | split; congruence].
  - unfold bind, get_recipe_or_404.
    destruct (find_recipe pk st) as [r0|] eqn:Hr0; [| now repeat split].
    apply find_recipe_id in Hr0 as [Hid Hin0].
    destruct (is_author r0 user) eqn:Hau; [| now repeat split].
    unfold is_author in Hau. apply Z.eqb_eq in Hau.
    assert (Hne : recipe_id r <> pk).
    { rewrite <- Hid. apply Hother; [assumption |]. rewrite Hau. congruence. }
    destruct (reads_cleared_other (recipe_id r) pk st Hne) as [C1 C2].
    unfold recipe_delete. cbn [snd]. split; [| split].
    + simpl. apply filter_In. split; [exact Hr |].
      now apply negb_true_iff, Z.eqb_neq.
    + unfold read_ingredients. simpl. now rewrite C1.
    + unfold read_tags. simpl. now rewrite C2.
  - destruct (memZ user (user_table st)); [| now repeat split].
    rewrite snd_void. unfold favorite.
    destruct (recipe_user_action_frame Favorite method user pk st) as (t & -> & _).
    now repeat split.
  - destruct (memZ user (user_table st)); [| now repeat split].
    rewrite snd_void. unfold shopping_cart.
    destruct (recipe_user_action_frame ShoppingCart method user pk st)
      as (t & -> & _).
    now repeat split.
  - destruct (memZ user (user_table st)); [| now repeat split].
    rewrite snd_void.
    destruct (subscribe_frame method user pk st) as (t & ->).
    now repeat split.
  - destruct (memZ user (user_table st) && memZ author (user_table st));
      [| now repeat split].
    destruct (subscription_create_frame user author st) as (t & ->).
    now repeat split.
Qed.

Lemma kitchen_state_reachable : reachable kitchen_state.
Proof.
  exact (reach_after _ _ (reach_after _ (ReqRegister 2) pantry_state_reachable)).
Defined.

Lemma recipes_of_others_untouched_witness :
  read_ingredients 1 (after (ReqUpdateRecipe 2 1 (soup_fields [(2, 3)]))
                            kitchen_state)
  = read_ingredients 1 kitchen_state.
Proof.
  refine (proj1 (proj2 (recipes_of_others_untouched
                          (ReqUpdateRecipe 2 1 (soup_fields [(2, 3)]))
                          kitchen_state
                          (mkRecipe 1 1 "Soup" "Boil." "soup.png" 10)
                          (reachable_wf _ kitchen_state_reachable)
                          (reachable_int _ kitchen_state_reachable)
                          _ _))).
  - simpl. now left.
  - simpl. discriminate.
Defined.

(** ** Deleting a recipe *)

Lemma exists_pair_removed (pk : Z) (t : list (Z * Z)) (user : Z) :
  existsb (fun p => (snd p =? pk) && (fst p =? user))
          (filter (fun p => negb (snd p =? pk)) t) = false.
Proof.
  destruct (existsb _ _) eqn:E; [| reflexivity].
  apply existsb_exists in E as (p & Hp & H).
  apply filter_In in Hp as [_ Hp]. apply andb_true_iff in H as [H _].
  rewrite H in Hp. discriminate.
Qed.

(** When its author deletes a recipe, the recipe can no longer be found,
    it has no ingredient rows and no tags left, and nobody has it among
    the favorites or in the cart any more.  Asked by anyone else, or for a
    recipe that does not exist, a deletion and likewise an update leave the
    state exactly as it is. *)
Theorem destroy_cascades :
  forall (user pk : Z) (st : State),
    (forall r,
        find_recipe pk st = Some r -> recipe_author r = user ->
        find_recipe pk (after (ReqDestroyRecipe user pk) st) = None
        /\ read_ingredients pk (after (ReqDestroyRecipe user pk) st) = []
        /\ read_tags pk (after (ReqDestroyRecipe user pk) st) = []
        /\ (forall x,
               get_is_favorited x pk (after (ReqDestroyRecipe user pk) st) = false
               /\ get_is_in_shopping_cart x pk
                    (after (ReqDestroyRecipe user pk) st) = false)
        /\ (forall u, ~ In (u, pk) (shoppingcart_table
                                      (after (ReqDestroyRecipe user pk) st))))
    /\ (forall r vd,
           find_recipe pk st = Some r -> recipe_author r <> user ->
           after (ReqDestroyRecipe user pk) st = st
           /\ after (ReqUpdateRecipe user pk vd) st = st)
    /\ (forall vd,
           find_recipe pk st = None ->
           after (ReqDestroyRecipe user pk) st = st
           /\ after (ReqUpdateRecipe user pk vd) st = st).
Proof.
  intros user pk st. split; [| split].
  - intros r Hr Hau. unfold after. cbn [serve]. unfold bind, get_recipe_or_404.
    rewrite Hr. unfold is_author. rewrite Hau, Z.eqb_refl.
    unfold recipe_delete. cbn [snd]. split; [| split; [| split; [| split]]].
    + unfold find_recipe. simpl.
      destruct (find _ _) as [r'|] eqn:E; [| reflexivity].
      apply find_some in E as [E1 E2]. apply filter_In in E1 as [_ E1].
      rewrite E2 in E1. discriminate.
    + apply read_ingredients_none. simpl. intros ri Hri.
      apply filter_In in Hri as [_ Hri].
      now apply negb_true_iff, Z.eqb_neq in Hri.
    + unfold read_tags. simpl. rewrite filter_none; [reflexivity |].
      intros rt Hrt. apply filter_In in Hrt as [_ Hrt].
      now apply negb_true_iff in Hrt.
    + intros [[|u]|]; split; try reflexivity; apply exists_pair_removed.
    + intros u Hin. simpl in Hin. apply filter_In in Hin as [_ Hin].
      simpl in Hin. rewrite Z.eqb_refl in Hin. discriminate.
  - intros r vd Hr Hau. unfold after. cbn [serve]. unfold bind, get_recipe_or_404.
    rewrite Hr. unfold is_author.
    apply Z.eqb_neq in Hau. rewrite Hau. split; reflexivity.
  - intros vd Hr. unfold after. cbn [serve]. unfold bind, get_recipe_or_404.
    rewrite Hr. split; reflexivity.
Qed.

Lemma destroy_cascades_witness :
  find_recipe 1 (after (ReqDestroyRecipe 1 1) salt_state_busy) = None
  /\ after (ReqDestroyRecipe 2 1) salt_state_busy = salt_state_busy.
Proof.
  split.
  - refine (proj1 (proj1 (destroy_cascades 1 1 salt_state_busy)
                     (mkRecipe 1 1 "Soup" "Boil." "soup.png" 10) eq_refl eq_refl)).
  - refine (proj1 (proj1 (proj2 (destroy_cascades 2 1 salt_state_busy))
                     (mkRecipe 1 1 "Soup" "Boil." "soup.png" 10)
                     (soup_fields []) eq_refl _)).
    simpl. discriminate.
Defined.

(** ** What does not touch a shopping list *)

Lemma cart_rows_agree (user : Z) (st1 st2 : State) :
  ingredient_table st1 = ingredient_table st2 ->
  recipeingredients st1 = recipeingredients st2 ->
  filter (fun c => fst c =? user) (shoppingcart_table st1)
  = filter (fun c => fst c =? user) (shoppingcart_table st2) ->
  cart_rows user st1 = cart_rows user st2.
Proof.
  intros Hi Hr Hc. rewrite !cart_rows_own, Hr, Hc.
  apply flat_map_ext. intros ri. apply flat_map_ext. intros c.
  unfold row_list, ri_row. now rewrite Hi.
Qed.

(** No request about favorites or subscriptions, no registration, and no
    cart request of another user changes what a user downloads as their
    shopping list. *)
Theorem neutral_requests_keep_shopping_list :
  forall (leb : string -> string -> bool) (req : request) (st : State)
         (user : Z),
    cart_neutral user req = true ->
    fst (download_shopping_cart leb user (after req st))
    = fst (download_shopping_cart leb user st).
Proof.
  intros leb req st user Hn.
  assert (E : cart_rows user (after req st) = cart_rows user st).
  { unfold after.
    destruct req as [u | i | u vd | u pk vd | u pk
                    | method u pk | method u pk | method u pk
                    | u author];
      cbn [serve cart_neutral] in *; try discriminate Hn.
    - destruct (memZ u (user_table st)); reflexivity.
    - destruct (memZ u (user_table st)); [| reflexivity].
      rewrite snd_void. unfold favorite.
      destruct (recipe_user_action_frame Favorite method u pk st) as (t & -> & _).
      reflexivity.
    - destruct (memZ u (user_table st)); [| reflexivity].
      rewrite snd_void. unfold shopping_cart.
      apply negb_true_iff, Z.eqb_neq in Hn.
      destruct (recipe_user_action_frame ShoppingCart method u pk st)
        as (t & -> & Ht).
      apply cart_rows_agree; try reflexivity. simpl.
      destruct Ht as [-> | [-> | ->]].
      + reflexivity.
      + apply filter_app_other. intros x [<- | []]. simpl.
        now apply Z.eqb_neq.
      + apply filter_filter_other. intros [a b] Hx. simpl in Hx.
        apply Z.eqb_eq in Hx. subst a. apply negb_true_iff.
        unfold pair_eqb. simpl. apply Z.eqb_neq in Hn. now rewrite Hn.
    - destruct (memZ u (user_table st)); [| reflexivity].
      rewrite snd_void.
      destruct (subscribe_frame method u pk st) as (t & ->). reflexivity.
    - destruct (memZ u (user_table st) && memZ author (user_table st));
        [| reflexivity].
      destruct (subscription_create_frame u author st) as (t & ->). reflexivity. }
  unfold download_shopping_cart, bind, get_state, ret, shopping_queryset.
  cbn [fst]. now rewrite E.
Qed.

Lemma neutral_requests_keep_shopping_list_witness :
  fst (download_shopping_cart String.leb 1
         (after (ReqShoppingCart DELETE 2 1) salt_state_busy))
  = fst (download_shopping_cart String.leb 1 salt_state_busy).
Proof.
  apply (neutral_requests_keep_shopping_list String.leb
           (ReqShoppingCart DELETE 2 1) salt_state_busy 1).
  reflexivity.
Defined.
